(** * Bot or Not: the Game Session Engine

    A shallow embedding of the backend services of the game
    (ScoreCalculator, DatabaseService, ImagePairService, GameService)
    and the proofs of the properties stated about them.

    Conventions of the embedding.
    - A JavaScript [number] that takes part in fractional arithmetic (scores,
      response times, rates, weights) is an IEEE 754 binary64 value: Rocq's
      primitive [float], with the same rounding as the JavaScript engine.
    - A [number] that the program only ever uses as a counter (it starts at 0
      and is incremented by 1: rounds, streaks, attempts, usage counts) or as
      a small level (difficulty 1..5) is a [Z]; [num] injects it into a float
      expression (exact below 2^53).
    - A [Map] is an association list in insertion order; a [Date] is its
      time value.
    - [uuidv4()], [new Date()] and [Math.random()] are inputs of the
      operation that calls them.
    - Fields keep the names of the source; where two records have a field
      of the same name, one of them carries a short prefix.
    - A thrown [Error] is a value of [Error]; an operation returns its result
      together with the store it leaves behind. *)

From Stdlib Require Import ZArith List String Bool Lia Floats Uint63.
From Stdlib Require Import Permutation Sorted.
From Stdlib Require DecimalString.
Import ListNotations.

Set Warnings "-inexact-float".

(* ================================================================== *)
(** * JavaScript numbers *)

Module Js.

Open Scope float_scope.

(** A counter or level read as a [number]. *)
Definition num (z : Z) : float :=
  if (z <? 0)%Z then - of_uint63 (Uint63.of_Z (- z)) else of_uint63 (Uint63.of_Z z).

(** The mathematical value of a finite nonzero double is [(+/-) m * 2^e]. *)
Definition signed (s : bool) (m : positive) : Z := if s then Z.neg m else Z.pos m.

(** [Math.floor]: the greatest integer below or equal to the argument; NaN,
    the infinities and the zeros are returned as they are. *)
Definition Math_floor (x : float) : float :=
  match Prim2SF x with
  | S754_finite s m e =>
      if (0 <=? e)%Z then x
      else
        let q := Z.shiftr (signed s m) (- e) in
        if (q =? 0)%Z then 0 else num q
  | _ => x
  end.

(** [Math.round]: the nearest integer, a tie going up (towards +infinity);
    an argument in [-0.5, 0) gives -0. *)
Definition Math_round (x : float) : float :=
  match Prim2SF x with
  | S754_finite s m e =>
      if (0 <=? e)%Z then x
      else
        let q := Z.shiftr (2 * signed s m + Z.shiftl 1 (- e)) (- e + 1) in
        if (q =? 0)%Z then (if s then -0 else 0) else num q
  | _ => x
  end.

Definition is_negative_zero (x : float) : bool :=
  match Prim2SF x with S754_zero true => true | _ => false end.

(** [Math.max] and [Math.min] of two arguments: NaN if either is NaN, and
    +0 is larger than -0. *)
Definition Math_max (a b : float) : float :=
  if is_nan a || is_nan b then nan
  else if a <? b then b
  else if b <? a then a
  else if is_negative_zero a then b else a.

Definition Math_min (a b : float) : float :=
  if is_nan a || is_nan b then nan
  else if a <? b then a
  else if b <? a then b
  else if is_negative_zero a then a else b.

Definition Math_abs (x : float) : float := abs x.

End Js.

Import Js.

(* ================================================================== *)
(** * ScoreCalculator *)

Module ScoreCalculator.

Open Scope float_scope.

Definition BASE_SCORE : float := 100.
Definition DIFFICULTY_MULTIPLIER : float := 20.
Definition MAX_TIME_BONUS : float := 50.
Definition STREAK_BONUS_MULTIPLIER : float := 0.1.

(** [calculateScore(isCorrect, responseTime, difficulty, currentStreak)];
    the running [score] variable of the source is the chain of lets. *)
Definition calculateScore (isCorrect : bool)
    (responseTime difficulty currentStreak : float) : float :=
  if negb isCorrect then 0
  else
    let score := BASE_SCORE in
    let difficultyBonus := difficulty * DIFFICULTY_MULTIPLIER in
    let score := score + difficultyBonus in
    let responseTimeSeconds := Math_min (responseTime / 1000) 30 in
    let timeBonus := Math_max 0 (MAX_TIME_BONUS - (responseTimeSeconds * 2)) in
    let score := score + timeBonus in
    let streakMultiplier := 1 + (currentStreak * STREAK_BONUS_MULTIPLIER) in
    let score := score * streakMultiplier in
    Math_floor score.

Definition getDifficultyFromStreak (streak : float) : float :=
  if streak <? 5 then 1
  else if streak <? 10 then 2
  else if streak <? 15 then 3
  else if streak <? 20 then 4
  else 5.

Definition getStreakMultiplier (streak : float) : float :=
  1 + (streak * STREAK_BONUS_MULTIPLIER).

End ScoreCalculator.

(* ================================================================== *)
(** * The data model *)

(** A JavaScript [Map<string, V>]: the entries in insertion order.  [set] on
    a key that is present replaces its value in place, on a new key it
    appends the entry. *)
Module JsMap.
Section WithValue.
Context {V : Type}.

Definition t : Type := list (string * V).

Definition empty : t := [].

Fixpoint get (m : t) (k : string) : option V :=
  match m with
  | [] => None
  | (k', v) :: m' => if String.eqb k' k then Some v else get m' k
  end.

Fixpoint set (m : t) (k : string) (v : V) : t :=
  match m with
  | [] => [(k, v)]
  | (k', v') :: m' =>
      if String.eqb k' k then (k', v) :: m' else (k', v') :: set m' k v
  end.

(** [Array.from(m.values())] *)
Definition values (m : t) : list V := List.map snd m.

(** [Object.values(m)] lists the own enumerable string-keyed properties of
    the object [m].  A [Map] keeps its entries in an internal slot and has
    no such property, so the list is empty whatever the map holds. *)
Definition Object_values (m : t) : list V := [].
End WithValue.
Arguments t : clear implicits.
End JsMap.

Definition Date : Type := Z.

Inductive GameMode : Type := daily | streak.
Inductive PlayerChoice : Type := ai | real.

Definition GameMode_eqb (a b : GameMode) : bool :=
  match a, b with daily, daily | streak, streak => true | _, _ => false end.

Definition PlayerChoice_eqb (a b : PlayerChoice) : bool :=
  match a, b with ai, ai | real, real => true | _, _ => false end.

(** The fields of an [Image] that the services below read or write. *)
Record Image : Type := {
  id : string;
  filename : string;
  storedFilename : string;
  img_category : string;
  img_difficulty_level : Z;
  is_ai_generated : bool;
  usage_count : Z
}.

Record ImagePair : Type := {
  pair_id : string;
  ai_image_id : string;
  real_image_id : string;
  category : string;
  difficulty_level : Z;
  creation_date : Date;
  success_rate : float;
  total_attempts : Z;
  correct_guesses : Z;
  average_response_time : float;
  is_active : bool
}.

Record GameSession : Type := {
  session_id : string;
  player_id : option string;
  game_mode : GameMode;
  start_time : Date;
  end_time : option Date;
  total_score : float;
  rounds_completed : Z;
  current_streak : Z;
  is_completed : bool;
  daily_challenge_date : option string
}.

Record GameRound : Type := {
  round_id : string;
  r_session_id : string;
  r_pair_id : string;
  player_choice : PlayerChoice;
  correct_answer : PlayerChoice;
  is_correct : bool;
  response_time : float;
  points_earned : float;
  round_number : Z;
  timestamp : Date
}.

Record CreateGameSessionData : Type := {
  d_game_mode : GameMode;
  d_player_id : option string
}.

Record CreateGameRoundData : Type := {
  c_session_id : string;
  c_pair_id : string;
  c_player_choice : PlayerChoice;
  c_response_time : float
}.

Record CreateImagePairData : Type := {
  c_ai_image_id : string;
  c_real_image_id : string
}.

Record FinalStats : Type := {
  correct_answers : Z;
  total_rounds : Z;
  accuracy_percentage : float;
  fs_average_response_time : float
}.

Record GameResult : Type := {
  g_session_id : string;
  g_total_score : float;
  g_rounds_completed : Z;
  g_current_streak : Z;
  g_is_completed : bool;
  final_stats : FinalStats
}.

(** [Partial<GameSession>], [Partial<ImagePair>]: the keys the services
    pass; an absent key is [None]. *)
Record GameSessionUpdates : Type := {
  u_total_score : option float;
  u_rounds_completed : option Z;
  u_current_streak : option Z;
  u_is_completed : option bool;
  u_end_time : option Date
}.

Record ImagePairUpdates : Type := {
  u_total_attempts : option Z;
  u_correct_guesses : option Z;
  u_success_rate : option float;
  u_average_response_time : option float;
  u_is_active : option bool
}.

Definition no_session_updates : GameSessionUpdates :=
  {| u_total_score := None; u_rounds_completed := None; u_current_streak := None;
     u_is_completed := None; u_end_time := None |}.

Definition or_else {A} (o : option A) (a : A) : A :=
  match o with Some x => x | None => a end.

(** [{ ...session, ...updates }] *)
Definition spread_session (s : GameSession) (u : GameSessionUpdates) : GameSession :=
  {| session_id := session_id s;
     player_id := player_id s;
     game_mode := game_mode s;
     start_time := start_time s;
     end_time := match u_end_time u with Some d => Some d | None => end_time s end;
     total_score := or_else (u_total_score u) (total_score s);
     rounds_completed := or_else (u_rounds_completed u) (rounds_completed s);
     current_streak := or_else (u_current_streak u) (current_streak s);
     is_completed := or_else (u_is_completed u) (is_completed s);
     daily_challenge_date := daily_challenge_date s |}.

(** [{ ...pair, ...updates }] *)
Definition spread_pair (p : ImagePair) (u : ImagePairUpdates) : ImagePair :=
  {| pair_id := pair_id p;
     ai_image_id := ai_image_id p;
     real_image_id := real_image_id p;
     category := category p;
     difficulty_level := difficulty_level p;
     creation_date := creation_date p;
     success_rate := or_else (u_success_rate u) (success_rate p);
     total_attempts := or_else (u_total_attempts u) (total_attempts p);
     correct_guesses := or_else (u_correct_guesses u) (correct_guesses p);
     average_response_time :=
       or_else (u_average_response_time u) (average_response_time p);
     is_active := or_else (u_is_active u) (is_active p) |}.

(** [{ ...image, usage_count: n }] *)
Definition with_usage_count (i : Image) (n : Z) : Image :=
  {| id := id i; filename := filename i; storedFilename := storedFilename i;
     img_category := img_category i; img_difficulty_level := img_difficulty_level i;
     is_ai_generated := is_ai_generated i; usage_count := n |}.

(** Truthiness of an optional string and of an optional number. *)
Definition truthy_string (o : option string) : bool :=
  match o with Some s => negb (String.eqb s EmptyString) | None => false end.

Definition truthy_Z (o : option Z) : bool :=
  match o with Some z => negb (z =? 0)%Z | None => false end.

(** [Array.prototype.sort(compare)]: a stable sort; [after a b] is
    [compare(a, b) > 0], the case in which [a] is placed behind [b]. *)
Section ArraySort.
Context {A : Type} (after : A -> A -> bool).

Fixpoint sort_insert (x : A) (l : list A) : list A :=
  match l with
  | [] => [x]
  | y :: l' => if after x y then y :: sort_insert x l' else x :: y :: l'
  end.

Fixpoint Array_sort (l : list A) : list A :=
  match l with
  | [] => []
  | x :: l' => sort_insert x (Array_sort l')
  end.
End ArraySort.

(** [l.slice(0, end)] *)
Definition Array_slice0 {A} (l : list A) (e : Z) : list A :=
  if (e <? 0)%Z then firstn (Z.to_nat (Z.of_nat (List.length l) + e)) l
  else firstn (Z.to_nat e) l.

Definition len {A} (l : list A) : Z := Z.of_nat (List.length l).

(** [l.slice(start, end)] *)
Definition Array_slice {A} (l : list A) (s e : Z) : list A :=
  let n := len l in
  let rel (i : Z) := if (i <? 0)%Z then Z.max (n + i) 0 else Z.min i n in
  skipn (Z.to_nat (rel s)) (firstn (Z.to_nat (rel e)) l).

(** [Math.ceil] *)
Definition Math_ceil (x : float) : float := (- Math_floor (- x))%float.

(** The errors the services throw, named after the failures of the engine;
    [message] is the text of the thrown [Error]. *)
Inductive Error : Type :=
  | ImagesNotFound
  | SameKindOfImages
  | AiImageNotAi
  | RealImageNotReal
  | DuplicatePair
  | DuplicateDailyAttempt
  | SessionNotFound
  | SessionAlreadyCompleted
  | PairNotFound
  | NoPairsAtAll
  | NoSuitablePairs
  | PairDataMissing
  | SessionUpdateFailed.

Definition message (e : Error) : string :=
  match e with
  | ImagesNotFound => "One or both images not found"
  | SameKindOfImages => "One image must be AI-generated and one must be real"
  | AiImageNotAi => "AI image must be marked as AI-generated"
  | RealImageNotReal => "Real image must be marked as real (not AI-generated)"
  | DuplicatePair => "This image pair already exists"
  | DuplicateDailyAttempt => "Daily challenge already completed today"
  | SessionNotFound => "Game session not found"
  | SessionAlreadyCompleted => "Game session is already completed"
  | PairNotFound => "Image pair not found"
  | NoPairsAtAll =>
      "No image pairs available. Please upload images and create pairs through the admin panel first."
  | NoSuitablePairs =>
      "No suitable image pairs available for this game mode. Try again or add more image pairs."
  | PairDataMissing => "Failed to load image pair data"
  | SessionUpdateFailed => "Failed to update game session"
  end.

Inductive Result (A : Type) : Type :=
  | Ok (a : A)
  | Throw (e : Error).
Arguments Ok {A} a.
Arguments Throw {A} e.

(* ================================================================== *)
(** * DatabaseService: the in-memory store *)

Record DatabaseService : Type := {
  images : JsMap.t Image;
  imagePairs : JsMap.t ImagePair;
  gameSessions : JsMap.t GameSession;
  gameRounds : JsMap.t GameRound
}.

Record PairFilters : Type := {
  f_category : option string;
  f_difficulty : option Z;
  f_is_active : option bool
}.

Module Db.

Definition empty : DatabaseService :=
  {| images := []; imagePairs := []; gameSessions := []; gameRounds := [] |}.

Definition with_images (db : DatabaseService) (m : JsMap.t Image) : DatabaseService :=
  {| images := m; imagePairs := imagePairs db;
     gameSessions := gameSessions db; gameRounds := gameRounds db |}.

Definition with_imagePairs (db : DatabaseService) (m : JsMap.t ImagePair) : DatabaseService :=
  {| images := images db; imagePairs := m;
     gameSessions := gameSessions db; gameRounds := gameRounds db |}.

Definition with_gameSessions (db : DatabaseService) (m : JsMap.t GameSession) : DatabaseService :=
  {| images := images db; imagePairs := imagePairs db;
     gameSessions := m; gameRounds := gameRounds db |}.

Definition with_gameRounds (db : DatabaseService) (m : JsMap.t GameRound) : DatabaseService :=
  {| images := images db; imagePairs := imagePairs db;
     gameSessions := gameSessions db; gameRounds := m |}.

(** Image operations *)
Definition getImage (db : DatabaseService) (i : string) : option Image :=
  JsMap.get (images db) i.

Definition updateImage_usage_count (db : DatabaseService) (i : string) (n : Z)
  : option Image * DatabaseService :=
  match JsMap.get (images db) i with
  | None => (None, db)
  | Some image =>
      let updatedImage := with_usage_count image n in
      (Some updatedImage, with_images db (JsMap.set (images db) i updatedImage))
  end.

(** Image pair operations *)
Definition createImagePair (db : DatabaseService) (p : ImagePair) : DatabaseService :=
  with_imagePairs db (JsMap.set (imagePairs db) (pair_id p) p).

Definition getImagePair (db : DatabaseService) (i : string) : option ImagePair :=
  JsMap.get (imagePairs db) i.

Definition getAllImagePairs (db : DatabaseService) (filters : option PairFilters)
  : list ImagePair :=
  let pairs := JsMap.values (imagePairs db) in
  match filters with
  | None => pairs
  | Some f =>
      let pairs :=
        if truthy_string (f_category f)
        then filter (fun p => String.eqb (category p) (or_else (f_category f) EmptyString)) pairs
        else pairs in
      let pairs :=
        if truthy_Z (f_difficulty f)
        then filter (fun p => (difficulty_level p =? or_else (f_difficulty f) 0)%Z) pairs
        else pairs in
      let pairs :=
        match f_is_active f with
        | Some a => filter (fun p => Bool.eqb (is_active p) a) pairs
        | None => pairs
        end in
      pairs
  end.

Definition updateImagePair (db : DatabaseService) (i : string) (updates : ImagePairUpdates)
  : option ImagePair * DatabaseService :=
  match JsMap.get (imagePairs db) i with
  | None => (None, db)
  | Some p =>
      let updatedPair := spread_pair p updates in
      (Some updatedPair, with_imagePairs db (JsMap.set (imagePairs db) i updatedPair))
  end.

(** Game session operations *)
Definition createGameSession (db : DatabaseService) (session : GameSession)
  : DatabaseService :=
  with_gameSessions db (JsMap.set (gameSessions db) (session_id session) session).

Definition getGameSession (db : DatabaseService) (i : string) : option GameSession :=
  JsMap.get (gameSessions db) i.

Definition updateGameSession (db : DatabaseService) (i : string)
    (updates : GameSessionUpdates) : option GameSession * DatabaseService :=
  match JsMap.get (gameSessions db) i with
  | None => (None, db)
  | Some session =>
      let updatedSession := spread_session session updates in
      (Some updatedSession,
       with_gameSessions db (JsMap.set (gameSessions db) i updatedSession))
  end.

(** Game round operations *)
Definition createGameRound (db : DatabaseService) (round : GameRound) : DatabaseService :=
  with_gameRounds db (JsMap.set (gameRounds db) (round_id round) round).

Definition getGameRoundsBySession (db : DatabaseService) (sessionId : string)
  : list GameRound :=
  Array_sort (fun a b => (0 <? round_number a - round_number b)%Z)
    (filter (fun round => String.eqb (r_session_id round) sessionId)
       (JsMap.values (gameRounds db))).

End Db.

(* ================================================================== *)
(** * ImageService (the two operations the pair service uses) *)

Module ImageService.

Definition getImageById (db : DatabaseService) (i : string) : option Image :=
  Db.getImage db i.

Definition incrementUsageCount (db : DatabaseService) (i : string) : DatabaseService :=
  match Db.getImage db i with
  | Some image => snd (Db.updateImage_usage_count db i (usage_count image + 1))
  | None => db
  end.

End ImageService.

(* ================================================================== *)
(** * ImagePairService *)

Record PairSelectionCriteria : Type := {
  s_category : option string;
  s_difficulty : option Z;
  excludePairIds : option (list string);
  activeOnly : option bool
}.

Record PairListFilters : Type := {
  l_category : option string;
  l_difficulty : option Z;
  l_is_active : option bool;
  l_page : option Z;
  l_limit : option Z
}.

Record PairPage : Type := {
  pairs : list ImagePair;
  total : Z;
  page : Z;
  totalPages : float
}.

Record ImageSummary : Type := {
  sm_id : string;
  sm_filename : string;
  sm_storedFilename : string;
  sm_category : string;
  sm_difficulty_level : Z
}.

Record ImagePairWithImages : Type := {
  the_pair : ImagePair;
  ai_image : ImageSummary;
  real_image : ImageSummary
}.

Definition summary (i : Image) : ImageSummary :=
  {| sm_id := id i; sm_filename := filename i; sm_storedFilename := storedFilename i;
     sm_category := img_category i; sm_difficulty_level := img_difficulty_level i |}.

Module ImagePairService.

Open Scope float_scope.

Definition createImagePair (db : DatabaseService) (data : CreateImagePairData)
    (uuid : string) (now : Date) : Result ImagePair * DatabaseService :=
  match ImageService.getImageById db (c_ai_image_id data),
        ImageService.getImageById db (c_real_image_id data) with
  | Some aiImage, Some realImage =>
      if Bool.eqb (is_ai_generated aiImage) (is_ai_generated realImage)
      then (Throw SameKindOfImages, db)
      else if negb (is_ai_generated aiImage) then (Throw AiImageNotAi, db)
      else if is_ai_generated realImage then (Throw RealImageNotReal, db)
      else
        let existingPairs := Db.getAllImagePairs db None in
        let duplicatePair :=
          find (fun p =>
                  (String.eqb (ai_image_id p) (c_ai_image_id data)
                   && String.eqb (real_image_id p) (c_real_image_id data))
                  || (String.eqb (ai_image_id p) (c_real_image_id data)
                      && String.eqb (real_image_id p) (c_ai_image_id data)))
               existingPairs in
        match duplicatePair with
        | Some _ => (Throw DuplicatePair, db)
        | None =>
            let imagePair :=
              {| pair_id := uuid;
                 ai_image_id := c_ai_image_id data;
                 real_image_id := c_real_image_id data;
                 category := img_category aiImage;
                 difficulty_level :=
                   Z.max (img_difficulty_level aiImage) (img_difficulty_level realImage);
                 creation_date := now;
                 success_rate := 0;
                 total_attempts := 0;
                 correct_guesses := 0;
                 average_response_time := 0;
                 is_active := true |} in
            (Ok imagePair, Db.createImagePair db imagePair)
        end
  | _, _ => (Throw ImagesNotFound, db)
  end.

Definition getImagePairById (db : DatabaseService) (i : string) : option ImagePair :=
  Db.getImagePair db i.

Definition getImagePairWithImages (db : DatabaseService) (i : string)
  : option ImagePairWithImages :=
  match Db.getImagePair db i with
  | None => None
  | Some p =>
      match ImageService.getImageById db (ai_image_id p),
            ImageService.getImageById db (real_image_id p) with
      | Some aiImage, Some realImage =>
          Some {| the_pair := p; ai_image := summary aiImage;
                  real_image := summary realImage |}
      | _, _ => None
      end
  end.

Definition getAllImagePairs (db : DatabaseService) (filters : option PairListFilters)
  : PairPage :=
  let allPairs :=
    Db.getAllImagePairs db
      (Some {| f_category := match filters with Some f => l_category f | None => None end;
               f_difficulty := match filters with Some f => l_difficulty f | None => None end;
               f_is_active := match filters with Some f => l_is_active f | None => None end |}) in
  let page := match filters with
              | Some f => if truthy_Z (l_page f) then or_else (l_page f) 1%Z else 1%Z
              | None => 1%Z
              end in
  let limit := match filters with
               | Some f => if truthy_Z (l_limit f) then or_else (l_limit f) 20%Z else 20%Z
               | None => 20%Z
               end in
  let startIndex := ((page - 1) * limit)%Z in
  let endIndex := (startIndex + limit)%Z in
  let paginatedPairs := Array_slice allPairs startIndex endIndex in
  let totalPages := Math_ceil (num (len allPairs) / num limit) in
  {| pairs := paginatedPairs; total := len allPairs; page := page;
     totalPages := totalPages |}.

(** The candidates of a selection: the store's pairs that pass the filters,
    less the excluded ones ([availablePairs] in the source). *)
Definition availablePairs (db : DatabaseService) (criteria : PairSelectionCriteria)
  : list ImagePair :=
  let filters :=
    {| f_category := s_category criteria;
       f_difficulty := s_difficulty criteria;
       f_is_active :=
         Some (match activeOnly criteria with Some false => false | _ => true end) |} in
  let allPairs := Db.getAllImagePairs db (Some filters) in
  match excludePairIds criteria with
  | Some ids =>
      if (0 <? len ids)%Z
      then filter (fun p => negb (existsb (String.eqb (pair_id p)) ids)) allPairs
      else allPairs
  | None => allPairs
  end.

Definition weightOf (candidates : list ImagePair) (p : ImagePair) : float :=
  let weight := 1 in
  let avgUsage :=
    fold_left (fun sum q => sum + num (total_attempts q)) candidates 0
    / num (len candidates) in
  let weight := if num (total_attempts p) <? avgUsage then weight + 0.5 else weight in
  let successRateDiff := Math_abs (success_rate p - 50) in
  let weight := weight + (50 - successRateDiff) / 100 in
  weight.

(** [randomIndex n] is the value of [Math.floor(Math.random() * n)];
    [Math.random()] is in [0, 1), so the value is an index below [n].  An
    index outside the array would make [topCandidates[selectedIndex].pair]
    throw, which the [catch] turns into [null]. *)
Definition selectPairForGame (randomIndex : nat -> nat) (db : DatabaseService)
    (criteria : PairSelectionCriteria) : option ImagePair :=
  let availablePairs := availablePairs db criteria in
  if (len availablePairs =? 0)%Z then None
  else
    let weightedPairs :=
      List.map (fun p => (p, weightOf availablePairs p)) availablePairs in
    let weightedPairs := Array_sort (fun a b => 0 <? snd b - snd a) weightedPairs in
    let topCandidates :=
      Array_slice weightedPairs 0 (Z.min 5 (len weightedPairs)) in
    let selectedIndex := randomIndex (List.length topCandidates) in
    match nth_error topCandidates selectedIndex with
    | Some c => Some (fst c)
    | None => None
    end.

(** "Round to 2 decimal places": [Math.round(x * 100) / 100]. *)
Definition round2 (x : float) : float := Math_round (x * 100) / 100.

Definition updatePairStats (db : DatabaseService) (pairId : string)
    (isCorrect : bool) (responseTime : float) : DatabaseService :=
  match Db.getImagePair db pairId with
  | None => db
  | Some p =>
      let newTotalAttempts := (total_attempts p + 1)%Z in
      let newCorrectGuesses := (correct_guesses p + (if isCorrect then 1 else 0))%Z in
      let newSuccessRate := (num newCorrectGuesses / num newTotalAttempts) * 100 in
      let totalResponseTime :=
        average_response_time p * num (total_attempts p) + responseTime in
      let newAverageResponseTime := totalResponseTime / num newTotalAttempts in
      let db :=
        snd (Db.updateImagePair db pairId
               {| u_total_attempts := Some newTotalAttempts;
                  u_correct_guesses := Some newCorrectGuesses;
                  u_success_rate := Some (Math_round (newSuccessRate * 100) / 100);
                  u_average_response_time := Some (Math_round newAverageResponseTime);
                  u_is_active := None |}) in
      let db := ImageService.incrementUsageCount db (ai_image_id p) in
      let db := ImageService.incrementUsageCount db (real_image_id p) in
      db
  end.

Definition togglePairActive (db : DatabaseService) (i : string)
  : option ImagePair * DatabaseService :=
  match Db.getImagePair db i with
  | None => (None, db)
  | Some p =>
      Db.updateImagePair db i
        {| u_total_attempts := None; u_correct_guesses := None; u_success_rate := None;
           u_average_response_time := None; u_is_active := Some (negb (is_active p)) |}
  end.

End ImagePairService.

(* ================================================================== *)
(** * GameService *)

Record NextPair : Type := {
  n_session_id : string;
  n_pair : ImagePairWithImages;
  n_round_number : Z;
  n_current_streak : Z;
  n_total_score : float
}.

Record SubmitResult : Type := {
  round : GameRound;
  isCorrect : bool;
  pointsEarned : float;
  gameResult : option GameResult
}.

Record PlayerEntry : Type := {
  e_player_id : string;
  best_score : float;
  best_streak : Z;
  total_games : Z;
  last_played : Date
}.

Record LeaderboardEntry : Type := {
  rank : Z;
  player : PlayerEntry
}.

(** [String(n)] of an integer, and the default order of [Array.prototype.sort()],
    which compares the elements as strings. *)
Definition String_of_Z (z : Z) : string :=
  DecimalString.NilZero.string_of_int (Z.to_int z).

Definition default_after (a b : Z) : bool :=
  String.ltb (String_of_Z b) (String_of_Z a).

(** [[...new Set(l)]]: the elements of [l] without repetition, in the order of
    their first occurrence. *)
Fixpoint Set_of (l : list Z) (seen : list Z) : list Z :=
  match l with
  | [] => []
  | x :: l' =>
      if existsb (Z.eqb x) seen then Set_of l' seen else x :: Set_of l' (x :: seen)
  end.

Module GameService.

Open Scope float_scope.

Definition calculatePoints (isCorrect : bool)
    (responseTime difficulty currentStreak : float) (gameMode : GameMode) : float :=
  if negb isCorrect then 0
  else
    let basePoints := 100 in
    let difficultyMultiplier := difficulty * 0.2 in
    let timeBonus := Math_max 0 ((30 - responseTime / 1000) * 2) in
    let streakMultiplier :=
      if GameMode_eqb gameMode streak then 1 + currentStreak * 0.1 else 1 in
    let totalPoints :=
      (basePoints + basePoints * difficultyMultiplier + timeBonus) * streakMultiplier in
    Math_round totalPoints.

(** The test of the [find] in [getTodaysDailySession]: a daily session of
    the player, dated today. *)
Definition isTodaysDailySession (playerId today : string) (session : GameSession)
  : bool :=
  match player_id session with
  | Some p => String.eqb p playerId
  | None => false
  end
  && GameMode_eqb (game_mode session) daily
  && match daily_challenge_date session with
     | Some d => String.eqb d today
     | None => false
     end.

(** [today] is [getTodayString()], the engine's date as YYYY-MM-DD. *)
Definition getTodaysDailySession (db : DatabaseService) (playerId : string)
    (today : string) : option GameSession :=
  let allSessions := JsMap.Object_values (gameSessions db) in
  find (isTodaysDailySession playerId today) allSessions.

Definition startGameSession (db : DatabaseService) (data : CreateGameSessionData)
    (uuid : string) (now : Date) (today : string)
  : Result GameSession * DatabaseService :=
  let session :=
    {| session_id := uuid;
       player_id := d_player_id data;
       game_mode := d_game_mode data;
       start_time := now;
       end_time := None;
       total_score := 0;
       rounds_completed := 0;
       current_streak := 0;
       is_completed := false;
       daily_challenge_date :=
         if GameMode_eqb (d_game_mode data) daily then Some today else None |} in
  let alreadyCompleted :=
    if GameMode_eqb (d_game_mode data) daily && truthy_string (d_player_id data)
    then
      match getTodaysDailySession db (or_else (d_player_id data) EmptyString) today with
      | Some existingSession => is_completed existingSession
      | None => false
      end
    else false in
  if alreadyCompleted then (Throw DuplicateDailyAttempt, db)
  else (Ok session, Db.createGameSession db session).

Definition getGameSession (db : DatabaseService) (sessionId : string)
  : option GameSession :=
  Db.getGameSession db sessionId.

(** The difficulty [getNextPairForGame] asks for: the [difficulty] variable
    of the source once the mode's policy has run ([None] is [undefined]). *)
Definition targetDifficulty (db : DatabaseService) (session : GameSession)
    (playedRounds : list GameRound) : option Z :=
  match game_mode session with
  | daily =>
      let allPairs :=
        ImagePairService.getAllImagePairs db
          (Some {| l_category := None; l_difficulty := None; l_is_active := Some true;
                   l_page := None; l_limit := None |}) in
      let availableDifficulties :=
        Array_sort default_after
          (Set_of (List.map difficulty_level (pairs allPairs)) []) in
      if (0 <? len availableDifficulties)%Z then
        let roundNumber := (len playedRounds + 1)%Z in
        if (len availableDifficulties =? 1)%Z then nth_error availableDifficulties 0
        else if (3 <=? len availableDifficulties)%Z then
          if (roundNumber =? 1)%Z then nth_error availableDifficulties 0
          else if (roundNumber =? 2)%Z then
            nth_error availableDifficulties (Z.to_nat (len availableDifficulties / 2))
          else
            nth_error availableDifficulties (Z.to_nat (len availableDifficulties - 1))
        else
          nth_error availableDifficulties (if (roundNumber <=? 2)%Z then 0 else 1)%nat
      else None
  | streak =>
      let streak := current_streak session in
      if (streak <? 3)%Z then Some 1%Z
      else if (streak <? 7)%Z then Some 2%Z
      else if (streak <? 12)%Z then Some 3%Z
      else if (streak <? 20)%Z then Some 4%Z
      else Some 5%Z
  end.

Definition is_none {A} (o : option A) : bool :=
  match o with None => true | Some _ => false end.

Definition getNextPairForGame (randomIndex : nat -> nat) (db : DatabaseService)
    (sessionId : string) : Result NextPair :=
  match Db.getGameSession db sessionId with
  | None => Throw SessionNotFound
  | Some session =>
      if is_completed session then Throw SessionAlreadyCompleted
      else
        let playedRounds := Db.getGameRoundsBySession db sessionId in
        let usedPairIds := List.map r_pair_id playedRounds in
        let difficulty := targetDifficulty db session playedRounds in
        let select := ImagePairService.selectPairForGame randomIndex db in
        let p :=
          select {| s_category := None; s_difficulty := difficulty;
                    excludePairIds := Some usedPairIds; activeOnly := Some true |} in
        let p :=
          if is_none p && negb (is_none difficulty)
          then select {| s_category := None; s_difficulty := None;
                         excludePairIds := Some usedPairIds; activeOnly := Some true |}
          else p in
        let p :=
          if is_none p
          then select {| s_category := None; s_difficulty := difficulty;
                         excludePairIds := None; activeOnly := Some true |}
          else p in
        let p :=
          if is_none p
          then select {| s_category := None; s_difficulty := None;
                         excludePairIds := None; activeOnly := Some true |}
          else p in
        match p with
        | None =>
            let allImages :=
              ImagePairService.getAllImagePairs db
                (Some {| l_category := None; l_difficulty := None;
                         l_is_active := Some true; l_page := None; l_limit := None |}) in
            if (len (pairs allImages) =? 0)%Z then Throw NoPairsAtAll
            else Throw NoSuitablePairs
        | Some p =>
            match ImagePairService.getImagePairWithImages db (pair_id p) with
            | None => Throw PairDataMissing
            | Some pairWithImages =>
                Ok {| n_session_id := sessionId;
                      n_pair := pairWithImages;
                      n_round_number := (len playedRounds + 1)%Z;
                      n_current_streak := current_streak session;
                      n_total_score := total_score session |}
            end
        end
  end.

Definition endGameSession (db : DatabaseService) (sessionId : string)
    (updates : option GameSessionUpdates) (now : Date)
  : Result GameResult * DatabaseService :=
  match Db.getGameSession db sessionId with
  | None => (Throw SessionNotFound, db)
  | Some session =>
      let updates := or_else updates no_session_updates in
      let finalUpdates :=
        {| u_total_score := u_total_score updates;
           u_rounds_completed := u_rounds_completed updates;
           u_current_streak := u_current_streak updates;
           u_is_completed := Some true;
           u_end_time := Some now |} in
      match Db.updateGameSession db sessionId finalUpdates with
      | (None, db) => (Throw SessionUpdateFailed, db)
      | (Some updatedSession, db) =>
          let rounds := Db.getGameRoundsBySession db sessionId in
          let correctAnswers := len (filter is_correct rounds) in
          let totalRounds := len rounds in
          let accuracyPercentage :=
            if (0 <? totalRounds)%Z
            then (num correctAnswers / num totalRounds) * 100 else 0 in
          let averageResponseTime :=
            if (0 <? totalRounds)%Z
            then fold_left (fun sum r => sum + response_time r) rounds 0
                 / num totalRounds
            else 0 in
          (Ok {| g_session_id := sessionId;
                 g_total_score := total_score updatedSession;
                 g_rounds_completed := rounds_completed updatedSession;
                 g_current_streak := current_streak updatedSession;
                 g_is_completed := true;
                 final_stats :=
                   {| correct_answers := correctAnswers;
                      total_rounds := totalRounds;
                      accuracy_percentage := Math_round (accuracyPercentage * 100) / 100;
                      fs_average_response_time := Math_round averageResponseTime |} |},
           db)
      end
  end.

Definition submitPlayerChoice (db : DatabaseService) (data : CreateGameRoundData)
    (uuid : string) (now : Date) : Result SubmitResult * DatabaseService :=
  match Db.getGameSession db (c_session_id data) with
  | None => (Throw SessionNotFound, db)
  | Some session =>
      if is_completed session then (Throw SessionAlreadyCompleted, db)
      else
        match ImagePairService.getImagePairById db (c_pair_id data) with
        | None => (Throw PairNotFound, db)
        | Some p =>
            let correctAnswer := ai in
            let isCorrect := PlayerChoice_eqb (c_player_choice data) correctAnswer in
            let pointsEarned :=
              calculatePoints isCorrect (c_response_time data)
                (num (difficulty_level p)) (num (current_streak session))
                (game_mode session) in
            let existingRounds := Db.getGameRoundsBySession db (c_session_id data) in
            let roundNumber := (len existingRounds + 1)%Z in
            let round :=
              {| round_id := uuid;
                 r_session_id := c_session_id data;
                 r_pair_id := c_pair_id data;
                 player_choice := c_player_choice data;
                 correct_answer := correctAnswer;
                 is_correct := isCorrect;
                 response_time := c_response_time data;
                 points_earned := pointsEarned;
                 round_number := roundNumber;
                 timestamp := now |} in
            let db := Db.createGameRound db round in
            let newTotalScore := total_score session + pointsEarned in
            let newRoundsCompleted := (rounds_completed session + 1)%Z in
            let newCurrentStreak := current_streak session in
            (* the two places where the session ends with this round *)
            let finish (db : DatabaseService) :=
              match
                endGameSession db (c_session_id data)
                  (Some {| u_total_score := Some newTotalScore;
                           u_rounds_completed := Some newRoundsCompleted;
                           u_current_streak := Some newCurrentStreak;
                           u_is_completed := Some true;
                           u_end_time := Some now |}) now
              with
              | (Throw e, db) => (Throw e, db)
              | (Ok gameResult, db) =>
                  let db :=
                    ImagePairService.updatePairStats db (c_pair_id data) isCorrect
                      (c_response_time data) in
                  (Ok {| round := round; isCorrect := isCorrect;
                         pointsEarned := pointsEarned;
                         gameResult := Some gameResult |}, db)
              end in
            (* "Update session (game continues)" *)
            let continue (db : DatabaseService) (newCurrentStreak : Z) :=
              let db :=
                snd (Db.updateGameSession db (c_session_id data)
                       {| u_total_score := Some newTotalScore;
                          u_rounds_completed := Some newRoundsCompleted;
                          u_current_streak := Some newCurrentStreak;
                          u_is_completed := None;
                          u_end_time := None |}) in
              let db :=
                ImagePairService.updatePairStats db (c_pair_id data) isCorrect
                  (c_response_time data) in
              (Ok {| round := round; isCorrect := isCorrect;
                     pointsEarned := pointsEarned; gameResult := None |}, db) in
            match game_mode session with
            | streak =>
                if isCorrect then continue db (newCurrentStreak + 1)%Z
                else finish db
            | daily =>
                if (3 <=? newRoundsCompleted)%Z then finish db
                else continue db newCurrentStreak
            end
        end
  end.

(** The body of [getLeaderboard] from the list of scanned sessions on. *)
Definition truthy_mode (o : option GameMode) : bool :=
  match o with Some _ => true | None => false end.

Definition recordSession (playerStats : JsMap.t PlayerEntry) (session : GameSession)
  : JsMap.t PlayerEntry :=
  let playerId :=
    if truthy_string (player_id session)
    then or_else (player_id session) EmptyString else "anonymous"%string in
  let existing := JsMap.get playerStats playerId in
  let better :=
    match existing with
    | None => true
    | Some existing => best_score existing <? total_score session
    end in
  if better then
    JsMap.set playerStats playerId
      {| e_player_id := playerId;
         best_score := total_score session;
         best_streak := current_streak session;
         total_games :=
           (match existing with
            | Some existing =>
                if (total_games existing =? 0)%Z then 0 else total_games existing
            | None => 0
            end + 1)%Z;
         last_played := or_else (end_time session) (start_time session) |}
  else
    match existing with
    | None => playerStats
    | Some existing =>
        JsMap.set playerStats playerId
          {| e_player_id := e_player_id existing;
             best_score := best_score existing;
             best_streak := Z.max (best_streak existing) (current_streak session);
             total_games := (total_games existing + 1)%Z;
             last_played :=
               match end_time session with
               | Some e => if (last_played existing <? e)%Z then e
                           else last_played existing
               | None => last_played existing
               end |}
    end.

Fixpoint addRanks (index : Z) (l : list PlayerEntry) : list LeaderboardEntry :=
  match l with
  | [] => []
  | p :: l' => {| rank := (index + 1)%Z; player := p |} :: addRanks (index + 1)%Z l'
  end.

Definition leaderboardOf (allSessions : list GameSession) (gameMode : option GameMode)
    (limit : option Z) : list LeaderboardEntry :=
  let limit := or_else limit 10%Z in
  let filteredSessions := filter is_completed allSessions in
  let filteredSessions :=
    match gameMode with
    | Some m => filter (fun s => GameMode_eqb (game_mode s) m) filteredSessions
    | None => filteredSessions
    end in
  let playerStats := fold_left recordSession filteredSessions JsMap.empty in
  addRanks 0
    (Array_slice
       (Array_sort (fun a b => 0 <? best_score b - best_score a)
          (JsMap.values playerStats))
       0 limit).

Definition getLeaderboard (db : DatabaseService) (gameMode : option GameMode)
    (limit : option Z) : list LeaderboardEntry :=
  let allSessions := JsMap.Object_values (gameSessions db) in
  leaderboardOf allSessions gameMode limit.

End GameService.

(* ================================================================== *)
(** * Notions the statements are written with *)

Section Notions.

Import ImagePairService GameService.
Open Scope float_scope.

(** The pair record that [updatePairStats] writes. *)
Definition recorded (p : ImagePair) (isCorrect : bool) (responseTime : float)
  : ImagePair :=
  let t := (total_attempts p + 1)%Z in
  let c := (correct_guesses p + (if isCorrect then 1 else 0))%Z in
  {| pair_id := pair_id p;
     ai_image_id := ai_image_id p;
     real_image_id := real_image_id p;
     category := category p;
     difficulty_level := difficulty_level p;
     creation_date := creation_date p;
     success_rate := (Math_round (num c / num t * 100 * 100) / 100)%float;
     total_attempts := t;
     correct_guesses := c;
     average_response_time :=
       Math_round
         ((average_response_time p * num (total_attempts p) + responseTime) / num t)%float;
     is_active := is_active p |}.

(** Whether the round ends the session. *)
Definition ends_session (s : GameSession) (correct : bool) : bool :=
  match game_mode s with
  | streak => negb correct
  | daily => (3 <=? rounds_completed s + 1)%Z
  end.

(** The session record after a round worth [pts] points. *)
Definition after_round (s : GameSession) (correct : bool) (pts : float) (now : Date)
  : GameSession :=
  {| session_id := session_id s;
     player_id := player_id s;
     game_mode := game_mode s;
     start_time := start_time s;
     end_time := if ends_session s correct then Some now else end_time s;
     total_score := total_score s + pts;
     rounds_completed := (rounds_completed s + 1)%Z;
     current_streak :=
       match game_mode s with
       | streak => if correct then (current_streak s + 1)%Z else current_streak s
       | daily => current_streak s
       end;
     is_completed := if ends_session s correct then true else is_completed s;
     daily_challenge_date := daily_challenge_date s |}.

(** What the filters of [selectPairForGame] let through: the category and
    the difficulty when they are given (an empty category and a difficulty 0
    count as not given), [is_active] equal to [activeOnly !== false] (so the
    active pairs, and with [activeOnly = false] the inactive ones), and not
    being in the exclusion list. *)
Definition meets (criteria : PairSelectionCriteria) (p : ImagePair) : Prop :=
  (truthy_string (s_category criteria) = true ->
   s_category criteria = Some (category p)) /\
  (truthy_Z (s_difficulty criteria) = true ->
   s_difficulty criteria = Some (difficulty_level p)) /\
  is_active p = (match activeOnly criteria with Some false => false | _ => true end) /\
  (forall ids, excludePairIds criteria = Some ids -> ~ In (pair_id p) ids).

(** The score rule in exact arithmetic, for a response time in whole
    milliseconds, an integer difficulty and an integer streak:
    floor((100 + 20 d + max(0, 50 - 2 min(t/1000, 30))) * (1 + s/10)). *)
Definition score_exact (t d s : Z) : Z :=
  (((100 + 20 * d) * 1000 + Z.max 0 (50000 - 2 * Z.min t 30000)) * (10 + s) / 10000)%Z.

(** The response times 0, 250, 500, ... up to [250 * n] milliseconds. *)
Definition quarter_seconds (n : nat) : list Z :=
  List.map (fun k => (250 * Z.of_nat k)%Z) (seq 0 (S n)).

(** The rate as [updatePairStats] computes it from the counts, in binary64:
    [round2] of 100 * (correct / attempts), and 0 when there was no attempt.
    The rate in exact arithmetic is [hundredths_exact]. *)
Definition success_rate_spec (correct attempts : Z) : float :=
  if (attempts =? 0)%Z then 0 else round2 (100 * (num correct / num attempts)).

Definition consistent (p : ImagePair) : Prop :=
  (0 <= correct_guesses p <= total_attempts p)%Z /\
  success_rate p = success_rate_spec (correct_guesses p) (total_attempts p).

Definition all_consistent (db : DatabaseService) : Prop :=
  forall k p, Db.getImagePair db k = Some p -> consistent p.

(** The criteria of the last fallback of [getNextPairForGame]. *)
Definition any_active : PairSelectionCriteria :=
  {| s_category := None; s_difficulty := None; excludePairIds := None;
     activeOnly := Some true |}.

Definition no_active_pair (db : DatabaseService) : Prop :=
  forall p, In p (JsMap.values (imagePairs db)) -> is_active p = false.

End Notions.

(** The requests the engine serves, with the identifiers and times they
    draw; [EndSession] is the manual end, which passes no overrides. *)
Inductive Request : Type :=
  | Start (data : CreateGameSessionData) (uuid : string) (now : Date) (today : string)
  | NextPairFor (sessionId : string)
  | Submit (data : CreateGameRoundData) (uuid : string) (now : Date)
  | EndSession (sessionId : string) (now : Date)
  | CreatePair (data : CreateImagePairData) (uuid : string) (now : Date)
  | TogglePair (pairId : string).

Definition serve (db : DatabaseService) (rq : Request) : DatabaseService :=
  match rq with
  | Start data uuid now today => snd (GameService.startGameSession db data uuid now today)
  | NextPairFor _ => db
  | Submit data uuid now => snd (GameService.submitPlayerChoice db data uuid now)
  | EndSession sessionId now => snd (GameService.endGameSession db sessionId None now)
  | CreatePair data uuid now => snd (ImagePairService.createImagePair db data uuid now)
  | TogglePair pairId => snd (ImagePairService.togglePairActive db pairId)
  end.

Definition serve_all (db : DatabaseService) (rqs : list Request) : DatabaseService :=
  fold_left serve rqs db.

(** The numbers 1, 2, ..., n. *)
Definition one_to (n : Z) : list Z := List.map Z.of_nat (seq 1 (Z.to_nat n)).

(** The rounds of every session are numbered 1 to [rounds_completed], and
    every round belongs to a stored session. *)
Definition rounds_numbered (db : DatabaseService) : Prop :=
  forall sid s,
    Db.getGameSession db sid = Some s ->
    (0 <= rounds_completed s)%Z /\
    List.map round_number (Db.getGameRoundsBySession db sid)
      = one_to (rounds_completed s).

Definition rounds_belong (db : DatabaseService) : Prop :=
  forall r,
    In r (JsMap.values (gameRounds db)) ->
    Db.getGameSession db (r_session_id r) <> None.

(** [uuidv4()] does not repeat an identifier: the session of a start and
    the round of a submission get identifiers the store does not hold. *)
Definition draws_new (db : DatabaseService) (rq : Request) : Prop :=
  match rq with
  | Start _ uuid _ _ => Db.getGameSession db uuid = None
  | Submit _ uuid _ => JsMap.get (gameRounds db) uuid = None
  | _ => True
  end.

Fixpoint all_new (db : DatabaseService) (rqs : list Request) : Prop :=
  match rqs with
  | [] => True
  | rq :: rest => draws_new db rq /\ all_new (serve db rq) rest
  end.

(** [uuidv4()] does not repeat an identifier: a start does not reuse the
    identifier of the session [sid]. *)
Definition starts_elsewhere (sid : string) (rq : Request) : Prop :=
  match rq with
  | Start _ uuid _ _ => uuid <> sid
  | _ => True
  end.

Definition completed_in (db : DatabaseService) (sid : string) : Prop :=
  exists s, Db.getGameSession db sid = Some s /\ is_completed s = true.

(* ================================================================== *)
(** * A small store to run the services on *)

Module Sample.

Open Scope string_scope.

Definition image (i : string) (byAi : bool) (level : Z) : Image :=
  {| id := i; filename := i ++ ".png"; storedFilename := i ++ ".webp";
     img_category := "portrait"; img_difficulty_level := level;
     is_ai_generated := byAi; usage_count := 0%Z |}.

Definition withImages : DatabaseService :=
  {| images := [("img-ai", image "img-ai" true 5%Z); ("img-real", image "img-real" false 2%Z)];
     imagePairs := []; gameSessions := []; gameRounds := [] |}.

(** One active pair, ["pair-1"], of difficulty 5. *)
Definition store : DatabaseService :=
  snd (ImagePairService.createImagePair withImages
         {| c_ai_image_id := "img-ai"; c_real_image_id := "img-real" |} "pair-1" 0%Z).

Definition pair1 : ImagePair :=
  {| pair_id := "pair-1"; ai_image_id := "img-ai"; real_image_id := "img-real";
     category := "portrait"; difficulty_level := 5%Z; creation_date := 0%Z;
     success_rate := 0%float; total_attempts := 0%Z; correct_guesses := 0%Z;
     average_response_time := 0%float; is_active := true |}.

Definition fresh (mode : GameMode) (session : string) : GameSession :=
  {| session_id := session; player_id := Some "alice"; game_mode := mode;
     start_time := 10%Z; end_time := None; total_score := 0%float;
     rounds_completed := 0%Z; current_streak := 0%Z; is_completed := false;
     daily_challenge_date :=
       match mode with daily => Some "2026-01-01" | streak => None end |}.

Definition today : string := "2026-01-01".

Definition answer (session : string) (choice : PlayerChoice) (ms : float)
  : CreateGameRoundData :=
  {| c_session_id := session; c_pair_id := "pair-1"; c_player_choice := choice;
     c_response_time := ms |}.

Definition started (mode : GameMode) (session : string) : DatabaseService :=
  snd (GameService.startGameSession store
         {| d_game_mode := mode; d_player_id := Some "alice" |} session 10%Z today).

(** A store with the streak session ["s1"] and no pair at all. *)
Definition bare : DatabaseService :=
  snd (GameService.startGameSession Db.empty
         {| d_game_mode := streak; d_player_id := Some "alice" |} "s1" 10%Z today).

(** The store after a streak session ["s1"] ended on a miss at time 11. *)
Definition ended : DatabaseService :=
  snd (GameService.submitPlayerChoice (started streak "s1")
         (answer "s1" real 1500%float) "r1" 11%Z).

End Sample.


(* ================================================================== *)
(** * The stores of the leaderboard and of the daily challenge *)

Module Board.

Open Scope string_scope.

Definition finished (session player : string) (score : float) : GameSession :=
  {| session_id := session; player_id := Some player; game_mode := streak;
     start_time := 0%Z; end_time := Some 1%Z; total_score := score;
     rounds_completed := 1%Z; current_streak := 0%Z; is_completed := true;
     daily_challenge_date := None |}.

(** Completed sessions of the players A, B, C and D with the scores 300,
    500, 500 and 100. *)
Definition sessions : list GameSession :=
  [finished "sa" "A" 300; finished "sb" "B" 500;
   finished "sc" "C" 500; finished "sd" "D" 100].

Definition store : DatabaseService :=
  {| images := []; imagePairs := [];
     gameSessions := List.map (fun s => (session_id s, s)) sessions;
     gameRounds := [] |}.

(** A row of the leaderboard: rank, player, best score. *)
Definition row (e : LeaderboardEntry) : Z * string * float :=
  (rank e, e_player_id (player e), best_score (player e)).

End Board.

Module TwoDailies.

Open Scope string_scope.

Definition alice_daily : CreateGameSessionData :=
  {| d_game_mode := daily; d_player_id := Some "alice" |}.

(** Three rounds on the session, the rounds named [session-1] to
    [session-3], at the times [t+1] to [t+3]. *)
Definition play3 (db : DatabaseService) (session : string) (t : Z) : DatabaseService :=
  let db := snd (GameService.submitPlayerChoice db
                   (Sample.answer session ai 900%float) (session ++ "-1") (t + 1)%Z) in
  let db := snd (GameService.submitPlayerChoice db
                   (Sample.answer session real 1500%float) (session ++ "-2") (t + 2)%Z) in
  let db := snd (GameService.submitPlayerChoice db
                   (Sample.answer session ai 2500%float) (session ++ "-3") (t + 3)%Z) in
  db.

(** Alice starts the daily challenge ["d0"] and leaves it unplayed. *)
Definition abandoned : DatabaseService :=
  snd (GameService.startGameSession Sample.store alice_daily "d0" 5%Z Sample.today).

(** She starts the daily challenge again, ["d1"], and plays its three
    rounds. *)
Definition afterFirst : DatabaseService :=
  play3 (snd (GameService.startGameSession abandoned alice_daily "d1" 10%Z Sample.today))
    "d1" 10%Z.

(** The same day she starts a daily challenge once more, ["d2"], and plays
    it. *)
Definition secondStart : Result GameSession * DatabaseService :=
  GameService.startGameSession afterFirst alice_daily "d2" 20%Z Sample.today.

(** The session record that this second start creates. *)
Definition second : GameSession :=
  {| session_id := "d2"; player_id := Some "alice"; game_mode := daily;
     start_time := 20%Z; end_time := None; total_score := 0%float;
     rounds_completed := 0%Z; current_streak := 0%Z; is_completed := false;
     daily_challenge_date := Some Sample.today |}.

Definition afterSecond : DatabaseService := play3 (snd secondStart) "d2" 20%Z.

Definition completed_daily_of (player today : string) (s : GameSession) : bool :=
  GameService.isTodaysDailySession player today s && is_completed s.

End TwoDailies.

(* ================================================================== *)
(** * Further operations of the store and of the pair service *)

(** [Map.prototype.has] and [Map.prototype.delete]: [delete] reports whether
    the key was present, and leaves no entry under the key. *)
Definition Map_has {V} (m : JsMap.t V) (k : string) : bool :=
  match JsMap.get m k with Some _ => true | None => false end.

Definition Map_delete {V} (m : JsMap.t V) (k : string) : JsMap.t V :=
  filter (fun e => negb (String.eqb (fst e) k)) m.

(** The keys of a [Map] are distinct; [keyed_by key m] adds that every record
    is filed under its own identifier, as [createImagePair] and the other
    [create] operations of the store file it. *)
Definition keyed_by {V} (key : V -> string) (m : JsMap.t V) : Prop :=
  NoDup (List.map fst m) /\ forall k v, In (k, v) m -> key v = k.

Definition pairs_keyed (db : DatabaseService) : Prop :=
  keyed_by pair_id (imagePairs db).

(** The operations of [DatabaseService] that delete. *)
Module Store.

Definition deleteImagePair (db : DatabaseService) (i : string)
  : bool * DatabaseService :=
  (Map_has (imagePairs db) i, Db.with_imagePairs db (Map_delete (imagePairs db) i)).

Definition deleteImage (db : DatabaseService) (i : string) : bool * DatabaseService :=
  (Map_has (images db) i, Db.with_images db (Map_delete (images db) i)).

End Store.

(** [ImagePairService.deletePair] *)
Module Pairs.

Definition deletePair (db : DatabaseService) (i : string) : bool * DatabaseService :=
  Store.deleteImagePair db i.

End Pairs.

(** The fields of a pair that no operation of the engine rewrites. *)
Definition same_identity (p q : ImagePair) : Prop :=
  pair_id q = pair_id p /\ ai_image_id q = ai_image_id p /\
  real_image_id q = real_image_id p /\ category q = category p /\
  difficulty_level q = difficulty_level p /\ creation_date q = creation_date p.

(** [uuidv4()] does not repeat an identifier: the pair a request creates
    gets an identifier the store does not hold. *)
Fixpoint new_pair_ids (db : DatabaseService) (rqs : list Request) : Prop :=
  match rqs with
  | [] => True
  | rq :: rest =>
      match rq with
      | CreatePair _ uuid _ => Db.getImagePair db uuid = None
      | _ => True
      end /\ new_pair_ids (serve db rq) rest
  end.

(* ================================================================== *)
(** * Notions for the leaderboard *)

(** The name a session is listed under: its player, and ["anonymous"] for a
    session without one. *)
Definition player_key (s : GameSession) : string :=
  if truthy_string (player_id s)
  then or_else (player_id s) EmptyString else "anonymous"%string.

(** The sessions the leaderboard counts: the completed ones, of the mode
    asked for when one is asked for. *)
Definition listed (gameMode : option GameMode) (s : GameSession) : bool :=
  is_completed s
  && match gameMode with Some m => GameMode_eqb (game_mode s) m | None => true end.

Definition games_of (gameMode : option GameMode) (sessions : list GameSession)
    (k : string) : list GameSession :=
  filter (fun s => String.eqb (player_key s) k) (filter (listed gameMode) sessions).

(** What the table of [getLeaderboard] holds once the sessions [done] have
    been recorded. *)
Definition table_of (done : list GameSession) (m : JsMap.t PlayerEntry) : Prop :=
  NoDup (List.map fst m) /\
  (forall s, In s done -> In (player_key s) (List.map fst m)) /\
  forall k e, In (k, e) m ->
    e_player_id e = k /\
    total_games e = len (filter (fun s => String.eqb (player_key s) k) done) /\
    exists s, In s done /\ player_key s = k /\ best_score e = total_score s.

(* ================================================================== *)
(** * DailyChallengeService *)

(** A [DailyChallenge]; the fields carry the prefix [ch_]. *)
Record DailyChallenge : Type := {
  ch_id : string;
  ch_date : string;
  ch_title : string;
  ch_description : string;
  ch_difficulty_level : Z;
  ch_category : option string;
  ch_points_reward : float;
  ch_is_active : bool;
  ch_created_at : Date;
  ch_updated_at : Date
}.

Record CreateDailyChallengeData : Type := {
  cd_date : string;
  cd_title : string;
  cd_description : string;
  cd_difficulty_level : Z;
  cd_category : option string;
  cd_points_reward : float
}.

(** [Partial<DailyChallenge>]: an absent key is [None]. *)
Record DailyChallengeUpdates : Type := {
  uc_id : option string;
  uc_date : option string;
  uc_title : option string;
  uc_description : option string;
  uc_difficulty_level : option Z;
  uc_category : option string;
  uc_points_reward : option float;
  uc_is_active : option bool;
  uc_created_at : option Date;
  uc_updated_at : option Date
}.

(** The outcome of [createDailyChallenge]: the challenge, or the message of
    the [Error] it throws. *)
Inductive ChallengeResult : Type :=
  | Created (challenge : DailyChallenge)
  | Refused (message : string).

(** The service works on the [dailyChallenges] map of the store. *)
Module DailyChallengeService.

Definition getDailyChallengeByDate (dailyChallenges : JsMap.t DailyChallenge)
    (date : string) : option DailyChallenge :=
  let challenges := JsMap.values dailyChallenges in
  find (fun c => String.eqb (ch_date c) date && ch_is_active c) challenges.

Definition createDailyChallenge (dailyChallenges : JsMap.t DailyChallenge)
    (data : CreateDailyChallengeData) (uuid : string) (now : Date)
  : ChallengeResult * JsMap.t DailyChallenge :=
  match getDailyChallengeByDate dailyChallenges (cd_date data) with
  | Some _ =>
      (Refused ("Daily challenge already exists for " ++ cd_date data), dailyChallenges)
  | None =>
      let challenge :=
        {| ch_id := uuid;
           ch_date := cd_date data;
           ch_title := cd_title data;
           ch_description := cd_description data;
           ch_difficulty_level := cd_difficulty_level data;
           ch_category := cd_category data;
           ch_points_reward := cd_points_reward data;
           ch_is_active := true;
           ch_created_at := now;
           ch_updated_at := now |} in
      (Created challenge, JsMap.set dailyChallenges (ch_id challenge) challenge)
  end.

Definition getAllDailyChallenges (dailyChallenges : JsMap.t DailyChallenge)
  : list DailyChallenge :=
  JsMap.values dailyChallenges.

(** [{ ...challenge, ...updates, updated_at: new Date() }], stored under
    [id]. *)
Definition updateDailyChallenge (dailyChallenges : JsMap.t DailyChallenge)
    (i : string) (updates : DailyChallengeUpdates) (now : Date)
  : option DailyChallenge * JsMap.t DailyChallenge :=
  match JsMap.get dailyChallenges i with
  | None => (None, dailyChallenges)
  | Some challenge =>
      let updatedChallenge :=
        {| ch_id := or_else (uc_id updates) (ch_id challenge);
           ch_date := or_else (uc_date updates) (ch_date challenge);
           ch_title := or_else (uc_title updates) (ch_title challenge);
           ch_description := or_else (uc_description updates) (ch_description challenge);
           ch_difficulty_level :=
             or_else (uc_difficulty_level updates) (ch_difficulty_level challenge);
           ch_category :=
             match uc_category updates with
             | Some c => Some c
             | None => ch_category challenge
             end;
           ch_points_reward :=
             or_else (uc_points_reward updates) (ch_points_reward challenge);
           ch_is_active := or_else (uc_is_active updates) (ch_is_active challenge);
           ch_created_at := or_else (uc_created_at updates) (ch_created_at challenge);
           ch_updated_at := now |} in
      (Some updatedChallenge, JsMap.set dailyChallenges i updatedChallenge)
  end.

Definition deleteDailyChallenge (dailyChallenges : JsMap.t DailyChallenge) (i : string)
  : bool * JsMap.t DailyChallenge :=
  (Map_has dailyChallenges i, Map_delete dailyChallenges i).

Definition getActiveChallenges (dailyChallenges : JsMap.t DailyChallenge)
  : list DailyChallenge :=
  filter ch_is_active (JsMap.values dailyChallenges).

End DailyChallengeService.

(** The requests of the challenge administration. *)
Inductive ChallengeRequest : Type :=
  | CreateChallenge (data : CreateDailyChallengeData) (uuid : string) (now : Date)
  | UpdateChallenge (i : string) (updates : DailyChallengeUpdates) (now : Date)
  | DeleteChallenge (i : string).

Definition serve_challenge (dailyChallenges : JsMap.t DailyChallenge)
    (rq : ChallengeRequest) : JsMap.t DailyChallenge :=
  match rq with
  | CreateChallenge data uuid now =>
      snd (DailyChallengeService.createDailyChallenge dailyChallenges data uuid now)
  | UpdateChallenge i updates now =>
      snd (DailyChallengeService.updateDailyChallenge dailyChallenges i updates now)
  | DeleteChallenge i =>
      snd (DailyChallengeService.deleteDailyChallenge dailyChallenges i)
  end.

(** The active challenges of a date, and the stores with at most one of
    them for every date. *)
Definition active_on (date : string) (c : DailyChallenge) : bool :=
  String.eqb (ch_date c) date && ch_is_active c.

Definition one_active_per_date (dailyChallenges : JsMap.t DailyChallenge) : Prop :=
  forall date,
    (len (filter (active_on date) (JsMap.values dailyChallenges)) <= 1)%Z.

(** An update that neither moves a challenge to another date nor activates
    it. *)
Definition keeps_dates (rq : ChallengeRequest) : Prop :=
  match rq with
  | UpdateChallenge _ updates _ =>
      uc_date updates = None /\ uc_is_active updates <> Some true
  | _ => True
  end.

Module Challenges.

Open Scope string_scope.

Definition newYear : CreateDailyChallengeData :=
  {| cd_date := "2026-01-01"; cd_title := "New year"; cd_description := "Portraits";
     cd_difficulty_level := 2%Z; cd_category := Some "portrait";
     cd_points_reward := 100%float |}.

Definition second : CreateDailyChallengeData :=
  {| cd_date := "2026-01-02"; cd_title := "Second"; cd_description := "Landscapes";
     cd_difficulty_level := 3%Z; cd_category := None; cd_points_reward := 150%float |}.

Definition move_to (date : string) : DailyChallengeUpdates :=
  {| uc_id := None; uc_date := Some date; uc_title := None; uc_description := None;
     uc_difficulty_level := None; uc_category := None; uc_points_reward := None;
     uc_is_active := None; uc_created_at := None; uc_updated_at := None |}.

Definition retitle (title : string) : DailyChallengeUpdates :=
  {| uc_id := None; uc_date := None; uc_title := Some title; uc_description := None;
     uc_difficulty_level := None; uc_category := None; uc_points_reward := None;
     uc_is_active := None; uc_created_at := None; uc_updated_at := None |}.

End Challenges.

(* ================================================================== *)
(** * The rate limit of the administration routes *)

(** An entry of [global.adminRateLimitStore]. *)
Record RateRecord : Type := {
  count : Z;
  resetTime : Z
}.

(** What the middleware does with the request: [next()], or the answer 429
    with its [retryAfter]. *)
Inductive RateOutcome : Type :=
  | Next
  | TooManyRequests (retryAfter : float).

Module Auth.

Open Scope string_scope.

Definition windowMs : Z := 15 * 60 * 1000.
Definition maxRequests : Z := 50.

(** [`admin:${clientIP}`]; [clientIP] is [req.ip || req.connection.remoteAddress],
    which may be undefined. *)
Definition key_of (clientIP : option string) : string :=
  "admin:" ++ match clientIP with Some ip => ip | None => "undefined" end.

(** [now] is [Date.now()]. *)
Definition adminRateLimit (store : JsMap.t RateRecord) (clientIP : option string)
    (now : Z) : RateOutcome * JsMap.t RateRecord :=
  let key := key_of clientIP in
  let record := JsMap.get store key in
  let expired :=
    match record with
    | None => true
    | Some record => (resetTime record <? now)%Z
    end in
  if expired then
    (Next, JsMap.set store key {| count := 1; resetTime := now + windowMs |})
  else
    match record with
    | None => (Next, store)
    | Some record =>
        if (count record <? maxRequests)%Z then
          (Next,
           JsMap.set store key
             {| count := count record + 1; resetTime := resetTime record |})
        else
          (TooManyRequests
             (Math_ceil (num (resetTime record - now) / 1000)%float),
           store)
    end.

(** The requests of one client at the given times, in order. *)
Fixpoint requests (store : JsMap.t RateRecord) (clientIP : option string)
    (times : list Z) : list RateOutcome * JsMap.t RateRecord :=
  match times with
  | [] => ([], store)
  | now :: later =>
      let (outcome, store) := adminRateLimit store clientIP now in
      let (outcomes, store) := requests store clientIP later in
      (outcome :: outcomes, store)
  end.

End Auth.

Definition is_next (o : RateOutcome) : bool :=
  match o with Next => true | TooManyRequests _ => false end.

(** The client has no open window at [now]: no record, or one whose reset
    time has passed. *)
Definition no_open_window (store : JsMap.t RateRecord) (clientIP : option string)
    (now : Z) : Prop :=
  match JsMap.get store (Auth.key_of clientIP) with
  | None => True
  | Some record => (resetTime record < now)%Z
  end.

(* ================================================================== *)
(** * ImageService and AdminService: listing, deleting, cleaning up *)

(** [s.includes(sub)]: [sub] occurs in [s]. *)
Fixpoint includes (s sub : string) : bool :=
  String.prefix sub s
  || match s with
     | EmptyString => false
     | String _ s' => includes s' sub
     end.

Record ImageFilters : Type := {
  if_category : option string;
  if_difficulty : option Z;
  if_is_ai_generated : option bool;
  if_page : option Z;
  if_limit : option Z
}.

Record ImagePage : Type := {
  ip_images : list Image;
  ip_total : Z;
  ip_page : Z;
  ip_totalPages : float
}.

(** [DatabaseService.getAllImages] and the rest of [ImageService]. *)
Module Images.

Open Scope float_scope.

Definition db_getAllImages (db : DatabaseService)
    (category : option string) (difficulty : option Z) (is_ai : option bool)
  : list Image :=
  let images := JsMap.values (images db) in
  let images :=
    if truthy_string category
    then filter (fun img => String.eqb (img_category img) (or_else category EmptyString))
           images
    else images in
  let images :=
    if truthy_Z difficulty
    then filter (fun img => (img_difficulty_level img =? or_else difficulty 0)%Z) images
    else images in
  let images :=
    match is_ai with
    | Some a => filter (fun img => Bool.eqb (is_ai_generated img) a) images
    | None => images
    end in
  images.

Definition getAllImages (db : DatabaseService) (filters : option ImageFilters)
  : ImagePage :=
  let allImages :=
    db_getAllImages db
      (match filters with Some f => if_category f | None => None end)
      (match filters with Some f => if_difficulty f | None => None end)
      (match filters with Some f => if_is_ai_generated f | None => None end) in
  let page := match filters with
              | Some f => if truthy_Z (if_page f) then or_else (if_page f) 1%Z else 1%Z
              | None => 1%Z
              end in
  let limit := match filters with
               | Some f => if truthy_Z (if_limit f) then or_else (if_limit f) 20%Z else 20%Z
               | None => 20%Z
               end in
  let startIndex := ((page - 1) * limit)%Z in
  let endIndex := (startIndex + limit)%Z in
  let paginatedImages := Array_slice allImages startIndex endIndex in
  let totalPages := Math_ceil (num (len allImages) / num limit) in
  {| ip_images := paginatedImages; ip_total := len allImages; ip_page := page;
     ip_totalPages := totalPages |}.

(** [deleteImage]: the record of the image; the removal of its file is not
    part of the store. *)
Definition deleteImage (db : DatabaseService) (i : string) : bool * DatabaseService :=
  match Db.getImage db i with
  | None => (false, db)
  | Some _ => Store.deleteImage db i
  end.

End Images.

Record CleanupResult : Type := {
  deleted : Z;
  freedSpace : float;
  cleanup_errors : list string
}.

(** The fields of [CreateImageData], and of its [Partial] as [defaults]. *)
Record CreateImageData : Type := {
  i_filename : string;
  i_category : string;
  i_difficulty_level : Z;
  i_is_ai_generated : bool;
  source_info : string;
  quality_score : float;
  tags : list string
}.

Record ImageDefaults : Type := {
  p_category : option string;
  p_difficulty_level : option Z;
  p_is_ai_generated : option bool;
  p_source_info : option string;
  p_quality_score : option float;
  p_tags : option (list string)
}.

Definition truthy_float (o : option float) : bool :=
  match o with
  | Some x => negb ((x =? 0)%float || is_nan x)
  | None => false
  end.

Section AdminService.

(** [String.prototype.toLowerCase], and the size of the file of an image, a
    field that the record [Image] above leaves out. *)
Variable toLowerCase : string -> string.
Variable file_size : Image -> float.

Open Scope string_scope.

Definition extractMetadataFromFilename (filename : string) (defaults : ImageDefaults)
  : CreateImageData :=
  let lowerFilename := toLowerCase filename in
  let category :=
    if truthy_string (p_category defaults)
    then or_else (p_category defaults) EmptyString else "object" in
  let category :=
    if includes lowerFilename "portrait" || includes lowerFilename "face"
    then "portrait"
    else if includes lowerFilename "landscape" || includes lowerFilename "scenery"
    then "landscape"
    else if includes lowerFilename "abstract" then "abstract"
    else category in
  let isAI := or_else (p_is_ai_generated defaults) false in
  let isAI :=
    if includes lowerFilename "ai" || includes lowerFilename "generated"
       || includes lowerFilename "synthetic"
    then true
    else if includes lowerFilename "real" || includes lowerFilename "photo"
            || includes lowerFilename "camera"
    then false
    else isAI in
  {| i_filename := filename;
     i_category := category;
     i_difficulty_level :=
       if truthy_Z (p_difficulty_level defaults)
       then or_else (p_difficulty_level defaults) 3%Z else 3%Z;
     i_is_ai_generated := isAI;
     source_info :=
       if truthy_string (p_source_info defaults)
       then or_else (p_source_info defaults) EmptyString else "Bulk upload";
     quality_score :=
       if truthy_float (p_quality_score defaults)
       then or_else (p_quality_score defaults) 7%float else 7%float;
     tags := or_else (p_tags defaults) [] |}.

(** The identifiers [cleanupUnusedImages] collects in [usedImageIds]. *)
Definition usedImageIds (db : DatabaseService) : list string :=
  let allPairs := ImagePairService.getAllImagePairs db None in
  flat_map (fun p => [ai_image_id p; real_image_id p]) (pairs allPairs).

Definition unusedImages (db : DatabaseService) : list Image :=
  let allImages := Images.getAllImages db None in
  filter (fun img => negb (existsb (String.eqb (id img)) (usedImageIds db)))
    (ip_images allImages).

(** One turn of the loop of [cleanupUnusedImages]; [deleteImage] does not
    throw, and its answer is not looked at. *)
Definition cleanup_step (state : CleanupResult * DatabaseService) (image : Image)
  : CleanupResult * DatabaseService :=
  let (result, db) := state in
  let freed := (freedSpace result + file_size image)%float in
  let db := snd (Images.deleteImage db (id image)) in
  ({| deleted := deleted result + 1; freedSpace := freed;
      cleanup_errors := cleanup_errors result |}, db).

Definition cleanupUnusedImages (db : DatabaseService) : CleanupResult * DatabaseService :=
  fold_left cleanup_step (unusedImages db)
    ({| deleted := 0; freedSpace := 0; cleanup_errors := [] |}, db).

End AdminService.

(** A store of [n] pairs, each with two images of its own; the images of a
    pair are stored before those of the pairs created earlier. *)
Module Catalogue.

Open Scope string_scope.

Definition name (prefix : string) (k : nat) : string :=
  prefix ++ String_of_Z (Z.of_nat k).

Definition imagesOf (k : nat) : list (string * Image) :=
  [(name "ai-" k, Sample.image (name "ai-" k) true 1%Z);
   (name "real-" k, Sample.image (name "real-" k) false 1%Z)].

Definition pairOf (k : nat) : string * ImagePair :=
  (name "pair-" k,
   {| pair_id := name "pair-" k; ai_image_id := name "ai-" k;
      real_image_id := name "real-" k; category := "portrait";
      difficulty_level := 1%Z; creation_date := 0%Z; success_rate := 0%float;
      total_attempts := 0%Z; correct_guesses := 0%Z;
      average_response_time := 0%float; is_active := true |}).

Definition store (n : nat) : DatabaseService :=
  {| images := flat_map imagesOf (rev (seq 1 n));
     imagePairs := List.map pairOf (seq 1 n);
     gameSessions := []; gameRounds := [] |}.

(** Lower case of the letters A to Z. *)
Definition lower_ascii (c : Ascii.ascii) : Ascii.ascii :=
  let n := Ascii.nat_of_ascii c in
  if ((65 <=? n) && (n <=? 90))%nat then Ascii.ascii_of_nat (n + 32) else c.

Fixpoint lower (s : string) : string :=
  match s with
  | EmptyString => EmptyString
  | String c s' => String (lower_ascii c) (lower s')
  end.

End Catalogue.

(** The difficulty levels the daily policy of [getNextPairForGame] chooses
    from: those of the first 20 active pairs of the store. *)
Definition daily_levels (db : DatabaseService) : list Z :=
  List.map difficulty_level (firstn 20 (filter is_active (JsMap.values (imagePairs db)))).

(* ================================================================== *)
(** * ScoreCalculator: the daily score, the breakdown and the rank *)

Record RoundInput : Type := {
  ri_isCorrect : bool;
  ri_responseTime : float;
  ri_difficulty : float
}.

Record DailyScore : Type := {
  ds_totalScore : float;
  roundScores : list float;
  bonusPoints : float
}.

Record StreakScore : Type := {
  baseScore : float;
  difficultyBonus : float;
  timeBonus : float;
  streakMultiplier : float;
  finalScore : float
}.

Record RankResult : Type := {
  rk_rank : Z;
  percentile : float;
  totalPlayers : Z
}.

(** [l.findIndex(test)]: the first index whose element passes, or -1. *)
Fixpoint findIndex {A} (test : A -> bool) (l : list A) : Z :=
  match l with
  | [] => (-1)%Z
  | x :: l' =>
      if test x then 0%Z
      else let i := findIndex test l' in if (i <? 0)%Z then (-1)%Z else (i + 1)%Z
  end.

Module Scores.

Import ScoreCalculator.
Open Scope float_scope.

Definition calculateDailyScore (rounds : list RoundInput) : DailyScore :=
  let roundScores :=
    List.map (fun round =>
                calculateScore (ri_isCorrect round) (ri_responseTime round)
                  (ri_difficulty round) 0)
      rounds in
  let totalScore := fold_left (fun sum score => sum + score) roundScores 0 in
  let perfectGameBonus := if forallb ri_isCorrect rounds then 100 else 0 in
  let averageResponseTime :=
    fold_left (fun sum round => sum + ri_responseTime round) rounds 0
    / num (len rounds) / 1000 in
  let speedBonus := if averageResponseTime <? 10 then 50 else 0 in
  let bonusPoints := perfectGameBonus + speedBonus in
  {| ds_totalScore := totalScore + bonusPoints;
     roundScores := roundScores;
     bonusPoints := bonusPoints |}.

Definition calculateStreakScore (isCorrect : bool)
    (responseTime difficulty currentStreak : float) : StreakScore :=
  let baseScore := BASE_SCORE in
  let difficultyBonus := difficulty * DIFFICULTY_MULTIPLIER in
  let responseTimeSeconds := Math_min (responseTime / 1000) 30 in
  let timeBonus := Math_max 0 (MAX_TIME_BONUS - (responseTimeSeconds * 2)) in
  let streakMultiplier := 1 + (currentStreak * STREAK_BONUS_MULTIPLIER) in
  let finalScore :=
    if isCorrect
    then Math_floor ((baseScore + difficultyBonus + timeBonus) * streakMultiplier)
    else 0 in
  {| baseScore := baseScore; difficultyBonus := difficultyBonus;
     timeBonus := timeBonus; streakMultiplier := streakMultiplier;
     finalScore := finalScore |}.

Definition calculateRank (score : float) (allScores : list float) : RankResult :=
  let sortedScores := Array_sort (fun a b => 0 <? b - a) allScores in
  let index := findIndex (fun s => s <=? score) sortedScores in
  let rank := (index + 1)%Z in
  let percentile :=
    (num (len allScores - rank + 1) / num (len allScores)) * 100 in
  {| rk_rank := rank;
     percentile := Math_round (percentile * 100) / 100;
     totalPlayers := len allScores |}.

End Scores.

(* ================================================================== *)
(** * GameService.getPlayerStats *)

Record PlayerStats : Type := {
  totalGames : Z;
  dailyGames : Z;
  streakGames : Z;
  ps_totalScore : float;
  bestStreak : Z;
  averageAccuracy : float;
  ps_averageResponseTime : float;
  lastPlayed : option Date
}.

Module PlayerStatistics.

Open Scope float_scope.

(** The body of [getPlayerStats] from the two lists it scans on.
    [Math.max(...l)] is taken of a list that is not empty: its first
    element and the rest. *)
Definition playerStatsOf (allSessions : list GameSession) (allRounds : list GameRound)
    (playerId : string) : PlayerStats :=
  let playerSessions :=
    filter (fun s => match player_id s with
                     | Some p => String.eqb p playerId
                     | None => false
                     end) allSessions in
  match playerSessions with
  | [] =>
      {| totalGames := 0; dailyGames := 0; streakGames := 0; ps_totalScore := 0;
         bestStreak := 0; averageAccuracy := 0; ps_averageResponseTime := 0;
         lastPlayed := None |}
  | first :: rest =>
      let dailyGames :=
        len (filter (fun s => GameMode_eqb (game_mode s) daily) playerSessions) in
      let streakGames :=
        len (filter (fun s => GameMode_eqb (game_mode s) streak) playerSessions) in
      let totalScore := fold_left (fun sum s => sum + total_score s) playerSessions 0 in
      let bestStreak :=
        fold_left Z.max (List.map current_streak rest) (current_streak first) in
      let lastPlayed :=
        fold_left Z.max (List.map start_time rest) (start_time first) in
      let playerRounds :=
        filter (fun r =>
                  existsb (fun s => String.eqb (session_id s) (r_session_id r))
                    playerSessions)
          allRounds in
      let correctRounds := len (filter is_correct playerRounds) in
      let averageAccuracy :=
        if (0 <? len playerRounds)%Z
        then (num correctRounds / num (len playerRounds)) * 100 else 0 in
      let averageResponseTime :=
        if (0 <? len playerRounds)%Z
        then fold_left (fun sum r => sum + response_time r) playerRounds 0
             / num (len playerRounds)
        else 0 in
      {| totalGames := len playerSessions;
         dailyGames := dailyGames;
         streakGames := streakGames;
         ps_totalScore := totalScore;
         bestStreak := bestStreak;
         averageAccuracy := Math_round (averageAccuracy * 100) / 100;
         ps_averageResponseTime := Math_round averageResponseTime;
         lastPlayed := Some lastPlayed |}
  end.

Definition getPlayerStats (db : DatabaseService) (playerId : string) : PlayerStats :=
  let allSessions := JsMap.Object_values (gameSessions db) in
  let allRounds := JsMap.Object_values (gameRounds db) in
  playerStatsOf allSessions allRounds playerId.

End PlayerStatistics.

(** The sessions of a player. *)
Definition sessions_of (playerId : string) (allSessions : list GameSession)
  : list GameSession :=
  filter (fun s => match player_id s with
                   | Some p => String.eqb p playerId
                   | None => false
                   end) allSessions.

(* ================================================================== *)
(** * Statistics of the catalogue and the integrity check *)




Module Statistics.

Open Scope float_scope.



End Statistics.

(** The number a tally is expected to hold under a key: how many elements
    have the key, and no entry when there is none. *)
Definition counted {A} (key : A -> string) (l : list A) (k : string) : option Z :=
  let n := len (filter (fun x => String.eqb (key x) k) l) in
  if (n =? 0)%Z then None else Some n.

Section Integrity.

(** Whether the file of a stored file name is in the upload directory. *)
Variable fileExists : string -> bool.

Open Scope string_scope.

Definition checkDataIntegrity (db : DatabaseService) : list string :=
  let allPairs := ImagePairService.getAllImagePairs db None in
  let allImages := Images.getAllImages db None in
  let imageIds := List.map id (ip_images allImages) in
  let has i := existsb (String.eqb i) imageIds in
  let issues :=
    flat_map
      (fun p =>
         List.app
           (if has (ai_image_id p) then []
            else ["Pair " ++ pair_id p ++ " references non-existent AI image "
                  ++ ai_image_id p])
           (if has (real_image_id p) then []
            else ["Pair " ++ pair_id p ++ " references non-existent real image "
                  ++ real_image_id p]))
      (pairs allPairs) in
  List.app issues
    (flat_map
       (fun image =>
          if fileExists (storedFilename image) then []
          else ["Image file missing: " ++ storedFilename image ++ " for image "
                ++ id image])
       (ip_images allImages)).

End Integrity.

(* ================================================================== *)
(** * AdminService.createAutoPairs *)

Record AutoPairsResult : Type := {
  created : Z;
  ap_errors : list string
}.

(** The state of the loop: the result so far, the store, and the pool
    [realImages] of real images not yet paired. *)
Record AutoPairsState : Type := {
  ap_result : AutoPairsResult;
  ap_db : DatabaseService;
  ap_pool : list Image
}.

Definition Image_eqb (a b : Image) : bool :=
  String.eqb (id a) (id b) && String.eqb (filename a) (filename b)
  && String.eqb (storedFilename a) (storedFilename b)
  && String.eqb (img_category a) (img_category b)
  && (img_difficulty_level a =? img_difficulty_level b)%Z
  && Bool.eqb (is_ai_generated a) (is_ai_generated b)
  && (usage_count a =? usage_count b)%Z.

(** [l.splice(l.indexOf(x), 1)]: the first occurrence of [x] leaves the
    list.  The occurrence is found by identity; the records of a list taken
    from a [Map] of images are told apart by their fields. *)
Fixpoint remove_first (x : Image) (l : list Image) : list Image :=
  match l with
  | [] => []
  | y :: l' => if Image_eqb y x then l' else y :: remove_first x l'
  end.

Module AutoPairs.

Open Scope string_scope.

(** The test of [matchingRealImages], and the score of the [reduce]. *)
Definition matches (aiImage realImg : Image) : bool :=
  String.eqb (img_category realImg) (img_category aiImage)
  && (Z.abs (img_difficulty_level realImg - img_difficulty_level aiImage) <=? 1)%Z.

Definition matchScore (aiImage realImg : Image) : Z :=
  (Z.abs (img_difficulty_level realImg - img_difficulty_level aiImage) * 10
   + usage_count realImg)%Z.

(** One turn of the loop over the AI images.  The pair created is the
    [created]-th of the run: [uuid] and [now] give its identifier and its
    creation date. *)
Definition step (uuid : Z -> string) (now : Z -> Date) (state : AutoPairsState)
    (aiImage : Image) : AutoPairsState :=
  let result := ap_result state in
  let matchingRealImages := filter (matches aiImage) (ap_pool state) in
  match matchingRealImages with
  | [] =>
      {| ap_result :=
           {| created := created result;
              ap_errors :=
                List.app (ap_errors result)
                  ["No matching real image found for AI image: " ++ filename aiImage] |};
         ap_db := ap_db state;
         ap_pool := ap_pool state |}
  | first :: rest =>
      let bestMatch :=
        fold_left
          (fun best current =>
             if (matchScore aiImage current <? matchScore aiImage best)%Z
             then current else best)
          rest first in
      match
        ImagePairService.createImagePair (ap_db state)
          {| c_ai_image_id := id aiImage; c_real_image_id := id bestMatch |}
          (uuid (created result)) (now (created result))
      with
      | (Ok _, db) =>
          {| ap_result :=
               {| created := created result + 1; ap_errors := ap_errors result |};
             ap_db := db;
             ap_pool := remove_first bestMatch (ap_pool state) |}
      | (Throw e, db) =>
          {| ap_result :=
               {| created := created result;
                  ap_errors :=
                    if includes (message e) "already exists" then ap_errors result
                    else List.app (ap_errors result)
                           ["Failed to create pair for " ++ filename aiImage ++ ": "
                            ++ message e] |};
             ap_db := db;
             ap_pool := ap_pool state |}
      end
  end.

(** The images the run looks at: the first page of the listing. *)
Definition listing (db : DatabaseService) (category : option string) : list Image :=
  let filters :=
    if truthy_string category
    then Some {| if_category := category; if_difficulty := None;
                 if_is_ai_generated := None; if_page := None; if_limit := None |}
    else None in
  ip_images (Images.getAllImages db filters).

Definition createAutoPairs (uuid : Z -> string) (now : Z -> Date)
    (db : DatabaseService) (category : option string)
  : AutoPairsResult * DatabaseService :=
  let allImages := listing db category in
  let aiImages := filter is_ai_generated allImages in
  let realImages := filter (fun img => negb (is_ai_generated img)) allImages in
  let final :=
    fold_left (step uuid now) aiImages
      {| ap_result := {| created := 0; ap_errors := [] |};
         ap_db := db; ap_pool := realImages |} in
  (ap_result final, ap_db final).

End AutoPairs.

(** A pair made of an AI image and a real image that [createAutoPairs]
    accepts as a match. *)
Definition well_matched (candidates : list Image) (p : ImagePair) : Prop :=
  exists a r,
    In a candidates /\ In r candidates /\
    is_ai_generated a = true /\ is_ai_generated r = false /\
    ai_image_id p = id a /\ real_image_id p = id r /\
    img_category r = img_category a /\
    (Z.abs (img_difficulty_level r - img_difficulty_level a) <= 1)%Z /\
    is_active p = true /\ total_attempts p = 0%Z.

(** The pairs of [db'] under keys that [db] did not have. *)
Definition new_pair (db db' : DatabaseService) (k : string) (p : ImagePair) : Prop :=
  Db.getImagePair db' k = Some p /\ Db.getImagePair db k = None.

(** What the loop of [createAutoPairs] keeps true; [db] is the store at the
    start and [candidates] the listing. *)
Definition auto_pairs_invariant (db : DatabaseService) (candidates : list Image)
    (aiDone : Z) (state : AutoPairsState) : Prop :=
  (0 <= created (ap_result state) <= aiDone)%Z /\
  (created (ap_result state) + len (ap_pool state)
   = len (filter (fun img => negb (is_ai_generated img)) candidates))%Z /\
  (forall r, In r (ap_pool state) -> In r candidates /\ is_ai_generated r = false) /\
  images (ap_db state) = images db /\
  gameSessions (ap_db state) = gameSessions db /\
  gameRounds (ap_db state) = gameRounds db /\
  (forall k p, Db.getImagePair (ap_db state) k = Some p ->
               Db.getImagePair db k = Some p \/ well_matched candidates p) /\
  (NoDup (List.map id (filter (fun img => negb (is_ai_generated img)) candidates)) ->
   NoDup (List.map id (ap_pool state)) /\
   (forall k p, new_pair db (ap_db state) k p ->
                ~ In (real_image_id p) (List.map id (ap_pool state))) /\
   (forall k1 k2 p1 p2,
      new_pair db (ap_db state) k1 p1 -> new_pair db (ap_db state) k2 p2 ->
      k1 <> k2 -> real_image_id p1 <> real_image_id p2)).

(** The catalogue of two pairs without its pairs, and the identifiers and
    dates a run of [createAutoPairs] draws. *)
Module Unpaired.

Definition store : DatabaseService := Db.with_imagePairs (Catalogue.store 2) [].

Definition uuid (k : Z) : string := Catalogue.name "auto-" (Z.to_nat k).

Definition now (k : Z) : Date := (100 + k)%Z.

End Unpaired.

(* ================================================================== *)
(** * The rules in exact arithmetic, and the summary of a session *)



(** round(100 * c / t, 2) in exact arithmetic, as a number of hundredths:
    the integer nearest to 10000 c / t, a tie going up. *)
Definition hundredths_exact (c t : Z) : Z := ((20000 * c + t) / (2 * t))%Z.

(** The counts (correct, attempts) with 1 <= attempts <= [n]. *)
Definition counts_up_to (n : nat) : list (Z * Z) :=
  flat_map (fun t => List.map (fun c => (Z.of_nat c, Z.of_nat t)) (seq 0 (S t)))
    (seq 1 n).

(** The statistics of a summary, from the round history of the session:
    the correct rounds, the rounds, the accuracy in per cent rounded to two
    decimals and the mean response time rounded to the nearest integer, both
    0 for a session without a round. *)
Definition final_stats_of (rounds : list GameRound) : FinalStats :=
  let correct := len (filter is_correct rounds) in
  let total := len rounds in
  {| correct_answers := correct;
     total_rounds := total;
     accuracy_percentage :=
       ImagePairService.round2
         (if (0 <? total)%Z then (num correct / num total * 100)%float else 0%float);
     fs_average_response_time :=
       Math_round
         (if (0 <? total)%Z
          then (fold_left (fun sum r => (sum + response_time r)%float) rounds 0%float
                / num total)%float
          else 0%float) |}.

(** The summary of a completed session: its identifier, the score, the
    rounds and the streak of its record, and the statistics of its rounds. *)
Definition summary_of (sessionId : string) (s : GameSession) (rounds : list GameRound)
  : GameResult :=
  {| g_session_id := sessionId;
     g_total_score := total_score s;
     g_rounds_completed := rounds_completed s;
     g_current_streak := current_streak s;
     g_is_completed := true;
     final_stats := final_stats_of rounds |}.



(** The sample store after 159 attempts on its pair, 22 of them correct. *)
Module Worn.

Definition pair159 : ImagePair :=
  {| pair_id := pair_id Sample.pair1; ai_image_id := ai_image_id Sample.pair1;
     real_image_id := real_image_id Sample.pair1; category := category Sample.pair1;
     difficulty_level := difficulty_level Sample.pair1;
     creation_date := creation_date Sample.pair1;
     success_rate := 13.84%float; total_attempts := 159%Z; correct_guesses := 22%Z;
     average_response_time := 1200%float; is_active := true |}.

Definition store : DatabaseService :=
  Db.with_imagePairs Sample.store [(pair_id Sample.pair1, pair159)].

End Worn.

(* ================================================================== *)
(** * Facts on binary64 arithmetic *)

Section FloatFacts.

Open Scope float_scope.

Lemma SF64mul_comm (x y : spec_float) : SF64mul x y = SF64mul y x.
Proof.
  unfold SF64mul, SFmul.
  destruct x as [sx|sx| |sx mx ex], y as [sy|sy| |sy my ey];
    try reflexivity; try (now rewrite xorb_comm).
  now rewrite xorb_comm, Pos.mul_comm, Z.add_comm.
Qed.

Lemma float_mul_comm (x y : float) : x * y = y * x.
Proof.
  apply Prim2SF_inj. rewrite !FloatAxioms.mul_spec. apply SF64mul_comm.
Qed.

End FloatFacts.

(* ================================================================== *)
(** * The Score Calculator rule *)

Section ScoreCalculatorFacts.

Import ScoreCalculator.
Open Scope float_scope.

Example floor_examples :
  Math_floor 2.5 = 2 /\ Math_floor (-2.5) = -3 /\ Math_floor 0.75 = 0 /\
  Math_floor 221.00000000000006 = 221 /\ Math_floor 7 = 7.
Proof. vm_compute. repeat split. Qed.

Example round_examples :
  Math_round 2.5 = 3 /\ Math_round (-2.5) = -2 /\ Math_round 2.4 = 2 /\
  Math_round 0.49999999999999994 = 0 /\ Math_round 3333.3333333333335 = 3333.
Proof. vm_compute. repeat split. Qed.




(** X1. Each operation of the rule is rounded to binary64.  Without a
    streak, at every quarter of a second up to a minute and each difficulty
    1..5, the result is the value of the rule in exact arithmetic. *)
Lemma calculateScore_exact_without_streak :
  forall t d,
    In t (quarter_seconds 240) -> In d [1; 2; 3; 4; 5]%Z ->
    calculateScore true (num t) (num d) (num 0) = num (score_exact t d 0).
Proof.
  assert (H : forallb (fun t =>
                forallb (fun d =>
                   Leibniz.eqb (calculateScore true (num t) (num d) (num 0))
                               (num (score_exact t d 0)))
                  [1; 2; 3; 4; 5]%Z)
              (quarter_seconds 240) = true) by (vm_compute; reflexivity).
  intros t d Ht Hd.
  rewrite forallb_forall in H. specialize (H t Ht).
  rewrite forallb_forall in H. specialize (H d Hd).
  now apply Leibniz.eqb_spec.
Qed.

Lemma calculateScore_exact_without_streak_witness :
  calculateScore true (num 12500) (num 3) (num 0) = num 185.
Proof.
  apply (calculateScore_exact_without_streak 12500 3).
  - apply in_map_iff. exists 50%nat. split; [reflexivity|]. apply in_seq. lia.
  - cbn. tauto.
Defined.

(** With a streak the factor 1 + s * 0.1 is a rounded value, and the floor
    can fall one below the exact one: 170 * (1 + 4 * 0.1) is
    237.99999999999997 in binary64. *)
Example calculateScore_with_streak :
  calculateScore true 0 1 4 = 237 /\ score_exact 0 1 4 = 238%Z /\
  calculateScore true 0 1 1 = 187 /\ score_exact 0 1 1 = 187%Z /\
  calculateScore true 12500 3 10 = 370 /\ score_exact 12500 3 10 = 370%Z.
Proof. vm_compute. repeat split. Qed.

End ScoreCalculatorFacts.

(* ================================================================== *)
(** * Facts on maps and on what each service leaves untouched *)

Section MapFacts.
Context {V : Type}.
Implicit Types (m : JsMap.t V) (k : string) (v : V).

Lemma get_set_same m k v : JsMap.get (JsMap.set m k v) k = Some v.
Proof.
  induction m as [|[k' v'] m IH]; cbn.
  - now rewrite String.eqb_refl.
  - destruct (String.eqb k' k) eqn:E; cbn; rewrite E; [reflexivity | exact IH].
Qed.

Lemma get_set_other m k k' v :
  k <> k' -> JsMap.get (JsMap.set m k v) k' = JsMap.get m k'.
Proof.
  intros Hne. apply String.eqb_neq in Hne.
  induction m as [|[k0 v0] m IH]; cbn.
  - now rewrite Hne.
  - destruct (String.eqb k0 k) eqn:E; cbn.
    + apply String.eqb_eq in E; subst k0. now rewrite Hne.
    + now rewrite IH.
Qed.

Lemma get_set_cases m k k' v :
  JsMap.get (JsMap.set m k v) k' = if String.eqb k k' then Some v else JsMap.get m k'.
Proof.
  destruct (String.eqb k k') eqn:E.
  - apply String.eqb_eq in E; subst. apply get_set_same.
  - apply String.eqb_neq in E. now apply get_set_other.
Qed.
End MapFacts.

Lemma In_values_set {V} (m : JsMap.t V) k v : In v (JsMap.values (JsMap.set m k v)).
Proof.
  unfold JsMap.values. induction m as [|[k' v'] m IH]; cbn; [now left|].
  destruct (String.eqb k' k); cbn; [now left | now right].
Qed.

Section SortFacts.
Context {A : Type} (after : A -> A -> bool).

Lemma sort_insert_In x y l : In y (sort_insert after x l) <-> y = x \/ In y l.
Proof.
  induction l as [|z l IH]; cbn.
  - intuition.
  - destruct (after x z); cbn; [rewrite IH|]; intuition.
Qed.

Lemma Array_sort_In y l : In y (Array_sort after l) <-> In y l.
Proof.
  induction l as [|x l IH]; cbn; [reflexivity|].
  rewrite sort_insert_In, IH. intuition.
Qed.

Lemma sort_insert_length x l :
  List.length (sort_insert after x l) = S (List.length l).
Proof.
  induction l as [|z l IH]; cbn; [reflexivity|].
  destruct (after x z); cbn; now rewrite ?IH.
Qed.

Lemma Array_sort_length l : List.length (Array_sort after l) = List.length l.
Proof.
  induction l as [|x l IH]; cbn; [reflexivity|].
  now rewrite sort_insert_length, IH.
Qed.
End SortFacts.

Section Frames.

Lemma incrementUsageCount_frame db i :
  imagePairs (ImageService.incrementUsageCount db i) = imagePairs db /\
  gameSessions (ImageService.incrementUsageCount db i) = gameSessions db /\
  gameRounds (ImageService.incrementUsageCount db i) = gameRounds db.
Proof.
  unfold ImageService.incrementUsageCount, Db.updateImage_usage_count, Db.getImage.
  destruct (JsMap.get (images db) i); cbn; auto.
Qed.

Lemma updatePairStats_effect db pairId b rt :
  imagePairs (ImagePairService.updatePairStats db pairId b rt) =
    match Db.getImagePair db pairId with
    | Some p => JsMap.set (imagePairs db) pairId (recorded p b rt)
    | None => imagePairs db
    end /\
  gameSessions (ImagePairService.updatePairStats db pairId b rt) = gameSessions db /\
  gameRounds (ImagePairService.updatePairStats db pairId b rt) = gameRounds db.
Proof.
  unfold ImagePairService.updatePairStats, Db.updateImagePair, Db.getImagePair.
  destruct (JsMap.get (imagePairs db) pairId) as [p|]; [|auto].
  cbv zeta.
  rewrite !(proj1 (incrementUsageCount_frame _ _)).
  rewrite !(proj1 (proj2 (incrementUsageCount_frame _ _))).
  rewrite !(proj2 (proj2 (incrementUsageCount_frame _ _))).
  repeat split.
Qed.

End Frames.

Section StartAndCreate.

Import GameService ImagePairService.

(** The scan of the guard is [Object.values] of the [Map] of sessions, so
    the guard finds no session. *)
Lemma getTodaysDailySession_none db playerId today :
  getTodaysDailySession db playerId today = None.
Proof. reflexivity. Qed.

Lemma startGameSession_succeeds db data uuid now today :
  exists session,
    startGameSession db data uuid now today = (Ok session, Db.createGameSession db session) /\
    session_id session = uuid /\ is_completed session = false /\
    rounds_completed session = 0%Z /\ current_streak session = 0%Z.
Proof.
  unfold startGameSession. rewrite getTodaysDailySession_none.
  destruct (GameMode_eqb (d_game_mode data) daily && truthy_string (d_player_id data));
    eexists; repeat split.
Qed.

Lemma createImagePair_new db data uuid now p db' :
  createImagePair db data uuid now = (Ok p, db') ->
  total_attempts p = 0%Z /\ correct_guesses p = 0%Z /\ success_rate p = 0 /\
  pair_id p = uuid /\
  db' = Db.createImagePair db p.
Proof.
  unfold createImagePair.
  destruct (ImageService.getImageById db (c_ai_image_id data)) as [a|]; [|discriminate].
  destruct (ImageService.getImageById db (c_real_image_id data)) as [r|]; [|discriminate].
  destruct (Bool.eqb _ _); [discriminate|].
  destruct (negb _); [discriminate|].
  destruct (is_ai_generated r); [discriminate|].
  cbv zeta. destruct (find _ _); [discriminate|].
  intros [= <- <-]. cbn. repeat split.
Qed.

End StartAndCreate.

(* ================================================================== *)
(** * submitPlayerChoice, step by step *)

Section SubmitFacts.

Import GameService.
Open Scope float_scope.

Lemma submit_completed db data uuid now s :
  Db.getGameSession db (c_session_id data) = Some s ->
  is_completed s = true ->
  submitPlayerChoice db data uuid now = (Throw SessionAlreadyCompleted, db).
Proof.
  intros Hs Hc. unfold submitPlayerChoice. now rewrite Hs, Hc.
Qed.

Lemma submit_step db data uuid now s p :
  Db.getGameSession db (c_session_id data) = Some s ->
  is_completed s = false ->
  Db.getImagePair db (c_pair_id data) = Some p ->
  let correct := PlayerChoice_eqb (c_player_choice data) ai in
  let pts :=
    calculatePoints correct (c_response_time data) (num (difficulty_level p))
      (num (current_streak s)) (game_mode s) in
  exists r db',
    submitPlayerChoice db data uuid now = (Ok r, db') /\
    isCorrect r = correct /\
    pointsEarned r = pts /\
    points_earned (round r) = pts /\
    is_correct (round r) = correct /\
    (if ends_session s correct
     then gameResult r
          = Some (summary_of (c_session_id data) (after_round s correct pts now)
                    (Db.getGameRoundsBySession db' (c_session_id data)))
     else gameResult r = None) /\
    Db.getGameSession db' (c_session_id data) = Some (after_round s correct pts now) /\
    imagePairs db' =
      JsMap.set (imagePairs db) (c_pair_id data)
        (recorded p correct (c_response_time data)) /\
    gameSessions db' =
      JsMap.set (gameSessions db) (c_session_id data) (after_round s correct pts now) /\
    gameRounds db' = JsMap.set (gameRounds db) uuid (round r) /\
    r_session_id (round r) = c_session_id data /\
    round_number (round r)
      = (len (Db.getGameRoundsBySession db (c_session_id data)) + 1)%Z.
Proof.
  intros Hs Hc Hp correct pts.
  unfold submitPlayerChoice.
  rewrite Hs, Hc. unfold ImagePairService.getImagePairById. rewrite Hp.
  cbv zeta. fold correct. fold pts.
  set (rnd := {| round_id := uuid; r_session_id := c_session_id data |}).
  set (db1 := Db.createGameRound db rnd).
  assert (Hs1 : JsMap.get (gameSessions db1) (c_session_id data) = Some s) by exact Hs.
  assert (Hp1 : forall m, Db.getImagePair (Db.with_gameSessions db1 m) (c_pair_id data)
                          = Some p) by (intros; exact Hp).
  assert (Hfin : forall u,
    ends_session s correct = true ->
    spread_session s
      {| u_total_score := Some (total_score s + pts);
         u_rounds_completed := Some (rounds_completed s + 1)%Z;
         u_current_streak := Some (current_streak s);
         u_is_completed := Some true; u_end_time := Some u |}
    = after_round s correct pts u).
  { intros u He. unfold spread_session, after_round; cbn. rewrite He.
    unfold ends_session in He.
    destruct (game_mode s); [reflexivity|].
    destruct correct; [discriminate | reflexivity]. }
  assert (Hcont : forall k,
    ends_session s correct = false ->
    k = match game_mode s with
        | streak => if correct then (current_streak s + 1)%Z else current_streak s
        | daily => current_streak s
        end ->
    spread_session s
      {| u_total_score := Some (total_score s + pts);
         u_rounds_completed := Some (rounds_completed s + 1)%Z;
         u_current_streak := Some k;
         u_is_completed := None; u_end_time := None |}
    = after_round s correct pts now).
  { intros k He ->. unfold spread_session, after_round; cbn. now rewrite He. }
  assert (Hend : ends_session s correct = true ->
    exists r db',
      match
        endGameSession db1 (c_session_id data)
          (Some {| u_total_score := Some (total_score s + pts);
                   u_rounds_completed := Some (rounds_completed s + 1)%Z;
                   u_current_streak := Some (current_streak s);
                   u_is_completed := Some true; u_end_time := Some now |}) now
      with
      | (Throw e, db) => (Throw e, db)
      | (Ok gameResult, db) =>
          (Ok {| round := rnd; isCorrect := correct; pointsEarned := pts;
                 gameResult := Some gameResult |},
           ImagePairService.updatePairStats db (c_pair_id data) correct
             (c_response_time data))
      end = (Ok r, db') /\
      isCorrect r = correct /\ pointsEarned r = pts /\
      points_earned (round r) = pts /\ is_correct (round r) = correct /\
      gameResult r
      = Some (summary_of (c_session_id data) (after_round s correct pts now)
                (Db.getGameRoundsBySession db' (c_session_id data))) /\
      Db.getGameSession db' (c_session_id data) = Some (after_round s correct pts now) /\
      imagePairs db' =
        JsMap.set (imagePairs db) (c_pair_id data)
          (recorded p correct (c_response_time data)) /\
      gameSessions db' =
        JsMap.set (gameSessions db) (c_session_id data)
          (after_round s correct pts now) /\
      gameRounds db' = JsMap.set (gameRounds db) uuid (round r) /\
      r_session_id (round r) = c_session_id data /\
      round_number (round r)
        = (len (Db.getGameRoundsBySession db (c_session_id data)) + 1)%Z).
  { intros He. unfold endGameSession, Db.getGameSession, Db.updateGameSession.
    rewrite Hs1. cbn [or_else u_total_score u_rounds_completed u_current_streak].
    rewrite (Hfin now He).
    eexists _, _. split; [reflexivity|].
    do 4 (split; [reflexivity|]).
    split.
    { cbn [gameResult]. unfold Db.getGameRoundsBySession.
      rewrite (proj2 (proj2 (updatePairStats_effect _ _ _ _))). reflexivity. }
    repeat split.
    - unfold Db.getGameSession.
      rewrite (proj1 (proj2 (updatePairStats_effect _ _ _ _))). cbn.
      apply get_set_same.
    - rewrite (proj1 (updatePairStats_effect _ _ _ _)), Hp1. reflexivity.
    - rewrite (proj1 (proj2 (updatePairStats_effect _ _ _ _))). reflexivity.
    - rewrite (proj2 (proj2 (updatePairStats_effect _ _ _ _))). reflexivity. }
  assert (Hgo : forall k,
    ends_session s correct = false ->
    k = match game_mode s with
        | streak => if correct then (current_streak s + 1)%Z else current_streak s
        | daily => current_streak s
        end ->
    exists r db',
      (Ok {| round := rnd; isCorrect := correct; pointsEarned := pts;
             gameResult := None |},
       ImagePairService.updatePairStats
         (snd (Db.updateGameSession db1 (c_session_id data)
                 {| u_total_score := Some (total_score s + pts);
                    u_rounds_completed := Some (rounds_completed s + 1)%Z;
                    u_current_streak := Some k;
                    u_is_completed := None; u_end_time := None |}))
         (c_pair_id data) correct (c_response_time data)) = (Ok r, db') /\
      isCorrect r = correct /\ pointsEarned r = pts /\
      points_earned (round r) = pts /\ is_correct (round r) = correct /\
      gameResult r = None /\
      Db.getGameSession db' (c_session_id data) = Some (after_round s correct pts now) /\
      imagePairs db' =
        JsMap.set (imagePairs db) (c_pair_id data)
          (recorded p correct (c_response_time data)) /\
      gameSessions db' =
        JsMap.set (gameSessions db) (c_session_id data)
          (after_round s correct pts now) /\
      gameRounds db' = JsMap.set (gameRounds db) uuid (round r) /\
      r_session_id (round r) = c_session_id data /\
      round_number (round r)
        = (len (Db.getGameRoundsBySession db (c_session_id data)) + 1)%Z).
  { intros k He Hk. unfold Db.updateGameSession. rewrite Hs1.
    rewrite (Hcont k He Hk). cbn [snd].
    eexists _, _. split; [reflexivity|].
    repeat split.
    - unfold Db.getGameSession.
      rewrite (proj1 (proj2 (updatePairStats_effect _ _ _ _))). cbn.
      apply get_set_same.
    - rewrite (proj1 (updatePairStats_effect _ _ _ _)), Hp1. reflexivity.
    - rewrite (proj1 (proj2 (updatePairStats_effect _ _ _ _))). reflexivity.
    - rewrite (proj2 (proj2 (updatePairStats_effect _ _ _ _))). reflexivity. }
  destruct (ends_session s correct) eqn:He; unfold ends_session in He.
  - destruct (game_mode s) eqn:Hm.
    + rewrite He. destruct (Hend eq_refl) as (r & db' & H & ?). rewrite H.
      exists r, db'. split; [reflexivity | assumption].
    + destruct correct eqn:Hcor; [discriminate|].
      destruct (Hend eq_refl) as (r & db' & H & ?). rewrite H.
      exists r, db'. split; [reflexivity | assumption].
  - destruct (game_mode s) eqn:Hm.
    + rewrite He. destruct (Hgo (current_streak s) eq_refl eq_refl) as (r & db' & H & ?).
      rewrite H. exists r, db'. split; [reflexivity | assumption].
    + destruct correct eqn:Hcor; [|discriminate].
      destruct (Hgo (current_streak s + 1)%Z eq_refl eq_refl) as (r & db' & H & ?).
      rewrite H. exists r, db'. split; [reflexivity | assumption].
Qed.

End SubmitFacts.

(* ================================================================== *)
(** * Completed is terminal *)

Section Terminal.

Import GameService.

Lemma submit_keeps_completed db data uuid now sid :
  completed_in db sid ->
  completed_in (snd (submitPlayerChoice db data uuid now)) sid.
Proof.
  intros (s & Hs & Hc).
  destruct (Db.getGameSession db (c_session_id data)) as [s0|] eqn:Hs0;
    [| unfold submitPlayerChoice; rewrite Hs0; now exists s].
  destruct (is_completed s0) eqn:Hc0;
    [rewrite (submit_completed _ _ _ _ _ Hs0 Hc0); now exists s|].
  destruct (Db.getImagePair db (c_pair_id data)) as [p|] eqn:Hp;
    [| unfold submitPlayerChoice, ImagePairService.getImagePairById;
       rewrite Hs0, Hc0, Hp; now exists s].
  destruct (submit_step db data uuid now s0 p Hs0 Hc0 Hp)
    as (r & db' & E & _ & _ & _ & _ & _ & _ & _ & Hsess & _).
  rewrite E. cbn [snd]. exists s. split; [|exact Hc].
  unfold Db.getGameSession. rewrite Hsess. rewrite get_set_other; [exact Hs|].
  intros Heq. rewrite Heq, Hs in Hs0. injection Hs0 as ->. congruence.
Qed.

Lemma end_keeps_completed db sessionId updates now sid :
  completed_in db sid ->
  completed_in (snd (endGameSession db sessionId updates now)) sid.
Proof.
  intros (s & Hs & Hc). unfold endGameSession, Db.updateGameSession.
  destruct (Db.getGameSession db sessionId) as [s0|] eqn:Hs0; [|now exists s].
  unfold Db.getGameSession in Hs0. rewrite Hs0. cbn [snd].
  unfold completed_in, Db.getGameSession. cbn [gameSessions Db.with_gameSessions].
  rewrite get_set_cases. destruct (String.eqb sessionId sid).
  - eexists. split; reflexivity.
  - now exists s.
Qed.

Lemma serve_keeps_completed db rq sid :
  starts_elsewhere sid rq ->
  completed_in db sid -> completed_in (serve db rq) sid.
Proof.
  destruct rq as [data uuid now today| |data uuid now|sessionId now|data uuid now|pairId];
    cbn [serve starts_elsewhere]; intros Hrq Hdone.
  - destruct (startGameSession_succeeds db data uuid now today)
      as (session & E & Hid & _).
    rewrite E. cbn [snd]. destruct Hdone as (s & Hs & Hc). exists s.
    split; [|exact Hc]. unfold Db.getGameSession, Db.createGameSession; cbn.
    rewrite get_set_other; [exact Hs | congruence].
  - exact Hdone.
  - now apply submit_keeps_completed.
  - now apply end_keeps_completed.
  - destruct (ImagePairService.createImagePair db data uuid now) as [[p|e] db'] eqn:E.
    + apply createImagePair_new in E. destruct E as (_ & _ & _ & _ & ->). exact Hdone.
    + unfold ImagePairService.createImagePair in E.
      repeat match type of E with
             | context [match ?x with _ => _ end] => destruct x
             end; try discriminate; injection E as _ <-; exact Hdone.
  - unfold ImagePairService.togglePairActive, Db.updateImagePair.
    destruct (Db.getImagePair db pairId) as [p|] eqn:Hp; [|exact Hdone].
    unfold Db.getImagePair in Hp. rewrite Hp. exact Hdone.
Qed.

(** Once a session is completed it stays completed whatever the engine
    serves next, and each later submission for it is refused. *)
Lemma completed_is_terminal db sid rqs :
  Forall (starts_elsewhere sid) rqs ->
  completed_in db sid ->
  completed_in (serve_all db rqs) sid /\
  forall data uuid now,
    c_session_id data = sid ->
    submitPlayerChoice (serve_all db rqs) data uuid now
      = (Throw SessionAlreadyCompleted, serve_all db rqs).
Proof.
  intros Hrqs Hdone.
  assert (H : completed_in (serve_all db rqs) sid).
  { revert db Hdone. induction Hrqs as [|rq rqs Hrq _ IH]; intros db Hdone;
      [exact Hdone|].
    cbn. apply IH. now apply serve_keeps_completed. }
  split; [exact H|].
  intros data uuid now <-. destruct H as (s & Hs & Hc).
  now apply submit_completed with (s := s).
Qed.

End Terminal.

(* ================================================================== *)
(** * Points of a round *)

Section Points.

Import GameService.
Open Scope float_scope.

Lemma calculatePoints_rule (t d s : float) (m : GameMode) :
  calculatePoints false t d s m = 0 /\
  calculatePoints true t d s m =
    Math_round ((100 + 100 * (d * 0.2) + Math_max 0 ((30 - t / 1000) * 2))
                * (match m with streak => 1 + s * 0.1 | daily => 1 end)).
Proof. split; [reflexivity|]. destruct m; reflexivity. Qed.

(** C2, as stated, fails: a correct answer after 0 ms on a pair of
    difficulty 5 with streak 0 earns 260 points, where the Score
    Calculator gives 250. *)
Lemma submit_points_differ_from_calculateScore :
  exists r db',
    submitPlayerChoice (Sample.started streak "s1") (Sample.answer "s1" ai 0)
      "r1" 11%Z = (Ok r, db') /\
    isCorrect r = true /\
    pointsEarned r = 260 /\
    points_earned (round r) = 260 /\
    Db.getGameSession (Sample.started streak "s1") "s1"
      = Some (Sample.fresh streak "s1") /\
    Db.getImagePair (Sample.started streak "s1") "pair-1" = Some Sample.pair1 /\
    ScoreCalculator.calculateScore true 0 (num 5) (num 0) = 250 /\
    (pointsEarned r =? ScoreCalculator.calculateScore true 0 (num 5) (num 0)) = false.
Proof.
  eexists _, _. split; [vm_compute; reflexivity|].
  repeat split; vm_compute; reflexivity.
Qed.

(** C2, amended.  The points of every submitted round are those of the
    engine's own rule [calculatePoints] applied to the round's correctness,
    its response time, the pair's difficulty and the session's streak before
    the update: round((100 + 100*(d*0.2) + max(0, (30 - t/1000)*2)) * m)
    with m = 1 + streak*0.1 in streak mode and m = 1 in daily mode for a
    correct answer, 0 for an incorrect one.  They agree with the Score
    Calculator when the answer is incorrect. *)
Theorem submit_points_rule db data uuid now r db' :
  submitPlayerChoice db data uuid now = (Ok r, db') ->
  exists s p,
    Db.getGameSession db (c_session_id data) = Some s /\
    Db.getImagePair db (c_pair_id data) = Some p /\
    isCorrect r = PlayerChoice_eqb (c_player_choice data) ai /\
    pointsEarned r =
      calculatePoints (isCorrect r) (c_response_time data) (num (difficulty_level p))
        (num (current_streak s)) (game_mode s) /\
    points_earned (round r) = pointsEarned r /\
    (isCorrect r = true ->
     pointsEarned r =
       Math_round ((100 + 100 * (num (difficulty_level p) * 0.2)
                    + Math_max 0 ((30 - c_response_time data / 1000) * 2))
                   * (match game_mode s with
                      | streak => 1 + num (current_streak s) * 0.1
                      | daily => 1
                      end))) /\
    (isCorrect r = false ->
     pointsEarned r = 0 /\
     pointsEarned r =
       ScoreCalculator.calculateScore (isCorrect r) (c_response_time data)
         (num (difficulty_level p)) (num (current_streak s))).
Proof.
  intros H.
  destruct (Db.getGameSession db (c_session_id data)) as [s|] eqn:Hs;
    [| unfold submitPlayerChoice in H; rewrite Hs in H; discriminate].
  destruct (is_completed s) eqn:Hc;
    [rewrite (submit_completed _ _ _ _ _ Hs Hc) in H; discriminate|].
  destruct (Db.getImagePair db (c_pair_id data)) as [p|] eqn:Hp;
    [| unfold submitPlayerChoice, ImagePairService.getImagePairById in H;
       rewrite Hs, Hc, Hp in H; discriminate].
  destruct (submit_step db data uuid now s p Hs Hc Hp)
    as (r0 & db0 & E & Hcor & Hpts & Hrp & _).
  rewrite E in H. injection H as -> ->.
  exists s, p. rewrite Hcor, Hrp, Hpts.
  do 5 (split; [reflexivity|]).
  split; intros Hx; rewrite Hx.
  - apply calculatePoints_rule.
  - split; reflexivity.
Qed.

Lemma submit_points_rule_witness :
  exists s p,
    Db.getGameSession (Sample.started streak "s1") "s1" = Some s /\
    Db.getImagePair (Sample.started streak "s1") "pair-1" = Some p /\
    PlayerChoice_eqb real ai = false /\
    calculatePoints false 1500 (num (difficulty_level p)) (num (current_streak s))
      (game_mode s) = 0.
Proof.
  destruct (submitPlayerChoice (Sample.started streak "s1")
              (Sample.answer "s1" real 1500) "r1" 11%Z) as [[r|e] db'] eqn:E;
    [| vm_compute in E; discriminate].
  destruct (submit_points_rule _ _ _ _ _ _ E)
    as (s & p & Hs & Hp & Hcor & Hpts & _ & _ & Hf).
  exists s, p. cbn [c_session_id c_pair_id Sample.answer] in Hs, Hp.
  split; [exact Hs|]. split; [exact Hp|]. split; [reflexivity|].
  cbn [c_player_choice c_response_time Sample.answer] in Hcor, Hpts, Hf.
  rewrite Hcor in Hpts, Hf. cbn [PlayerChoice_eqb] in Hpts, Hf.
  rewrite <- Hpts. exact (proj1 (Hf eq_refl)).
Defined.

End Points.

(* ================================================================== *)
(** * The session state machine *)

Section Lifecycle.

Import GameService.
Open Scope float_scope.

(** The round a submission records is among the rounds of its session. *)
Lemma recorded_round_is_listed db db' uuid sid r :
  gameRounds db' = JsMap.set (gameRounds db) uuid r ->
  r_session_id r = sid ->
  In r (Db.getGameRoundsBySession db' sid).
Proof.
  intros Hr Hsid. unfold Db.getGameRoundsBySession.
  apply Array_sort_In. apply filter_In. rewrite Hr.
  split; [apply In_values_set | now apply String.eqb_eq].
Qed.

(** C3. In streak mode one incorrect round completes the session: the
    round is accepted with 0 points, the stored session has
    [is_completed = true], and a GameResult summary is returned: it names
    the session, carries the score, the rounds and the streak of the stored
    record, and its statistics are those of the rounds of the session, the
    new round included.  Every later submission for that session, whatever
    the engine served in between, fails with SessionAlreadyCompleted and
    leaves the store as it is. *)
Theorem streak_miss_completes_session db data uuid now s p :
  Db.getGameSession db (c_session_id data) = Some s ->
  game_mode s = streak ->
  is_completed s = false ->
  Db.getImagePair db (c_pair_id data) = Some p ->
  c_player_choice data = real ->
  exists r db' g s',
    submitPlayerChoice db data uuid now = (Ok r, db') /\
    isCorrect r = false /\
    gameResult r = Some g /\ g_is_completed g = true /\
    Db.getGameSession db' (c_session_id data) = Some s' /\
    is_completed s' = true /\
    end_time s' = Some now /\
    current_streak s' = current_streak s /\
    rounds_completed s' = (rounds_completed s + 1)%Z /\
    (* the summary *)
    pointsEarned r = 0 /\
    total_score s' = total_score s + 0 /\
    g_session_id g = c_session_id data /\
    g_total_score g = total_score s' /\
    g_rounds_completed g = (rounds_completed s + 1)%Z /\
    g_current_streak g = current_streak s /\
    final_stats g = final_stats_of (Db.getGameRoundsBySession db' (c_session_id data)) /\
    In (round r) (Db.getGameRoundsBySession db' (c_session_id data)) /\
    is_correct (round r) = false /\
    forall later,
      Forall (starts_elsewhere (c_session_id data)) later ->
      forall data' uuid' now',
        c_session_id data' = c_session_id data ->
        submitPlayerChoice (serve_all db' later) data' uuid' now'
          = (Throw SessionAlreadyCompleted, serve_all db' later).
Proof.
  intros Hs Hm Hc Hp Hch.
  destruct (submit_step db data uuid now s p Hs Hc Hp)
    as (r & db' & E & Hcor & Hpts & _ & Hrc & Hres & Hs' & _ & _ & Hrounds & Hrs & _).
  rewrite Hch in *. cbn [PlayerChoice_eqb] in *.
  assert (He : ends_session s false = true) by (unfold ends_session; now rewrite Hm).
  rewrite He in Hres.
  assert (H0 : calculatePoints false (c_response_time data) (num (difficulty_level p))
                 (num (current_streak s)) (game_mode s) = 0) by reflexivity.
  rewrite H0 in *.
  eexists r, db', _, _. split; [exact E|].
  split; [exact Hcor|]. split; [exact Hres|]. split; [reflexivity|].
  split; [exact Hs'|].
  unfold summary_of, after_round;
    cbn [is_completed end_time current_streak rounds_completed total_score
         g_session_id g_total_score g_rounds_completed g_current_streak final_stats].
  rewrite He, Hm. do 4 (split; [reflexivity|]).
  split; [exact Hpts|]. do 6 (split; [reflexivity|]).
  split; [now apply recorded_round_is_listed with db uuid|].
  split; [exact Hrc|].
  intros later Hlater. apply completed_is_terminal; [exact Hlater|].
  eexists. split; [exact Hs'|].
  unfold after_round; cbn [is_completed]. now rewrite He.
Qed.

Lemma streak_miss_completes_session_witness :
  exists r db' g s',
    submitPlayerChoice (Sample.started streak "s1") (Sample.answer "s1" real 1500)
      "r1" 11%Z = (Ok r, db') /\
    isCorrect r = false /\
    gameResult r = Some g /\ g_is_completed g = true /\
    Db.getGameSession db' "s1" = Some s' /\
    is_completed s' = true /\
    end_time s' = Some 11%Z /\
    current_streak s' = 0%Z /\
    rounds_completed s' = 1%Z /\
    pointsEarned r = 0 /\
    total_score s' = 0 + 0 /\
    g_session_id g = "s1"%string /\
    g_total_score g = total_score s' /\
    g_rounds_completed g = 1%Z /\
    g_current_streak g = 0%Z /\
    final_stats g = final_stats_of (Db.getGameRoundsBySession db' "s1") /\
    In (round r) (Db.getGameRoundsBySession db' "s1") /\
    is_correct (round r) = false /\
    forall later,
      Forall (starts_elsewhere "s1") later ->
      forall data' uuid' now',
        c_session_id data' = "s1"%string ->
        submitPlayerChoice (serve_all db' later) data' uuid' now'
          = (Throw SessionAlreadyCompleted, serve_all db' later).
Proof.
  refine (streak_miss_completes_session (Sample.started streak "s1")
            (Sample.answer "s1" real 1500) "r1" 11%Z
            (Sample.fresh streak "s1") Sample.pair1 _ _ _ _ _); reflexivity.
Defined.

(** The summary of the sample run: one round, none correct, 1500 ms. *)
Example streak_miss_summary :
  option_map (fun r => gameResult r)
    (match submitPlayerChoice (Sample.started streak "s1")
             (Sample.answer "s1" real 1500) "r1" 11%Z with
     | (Ok r, _) => Some r
     | (Throw _, _) => None
     end)
  = Some (Some {| g_session_id := "s1"; g_total_score := 0; g_rounds_completed := 1;
                  g_current_streak := 0; g_is_completed := true;
                  final_stats :=
                    {| correct_answers := 0; total_rounds := 1;
                       accuracy_percentage := 0;
                       fs_average_response_time := 1500 |} |}).
Proof. vm_compute. reflexivity. Qed.

End Lifecycle.

Section DailyMode.

Import GameService.
Open Scope float_scope.

Lemma pair_survives_record (m : JsMap.t ImagePair) k v k' q :
  JsMap.get m k' = Some q -> exists q', JsMap.get (JsMap.set m k v) k' = Some q'.
Proof.
  intros H. rewrite get_set_cases. destruct (String.eqb k k'); eauto.
Qed.

(** One round of a daily session. *)
Lemma daily_round db data uuid now s p :
  Db.getGameSession db (c_session_id data) = Some s ->
  game_mode s = daily ->
  is_completed s = false ->
  Db.getImagePair db (c_pair_id data) = Some p ->
  exists r db' s',
    submitPlayerChoice db data uuid now = (Ok r, db') /\
    Db.getGameSession db' (c_session_id data) = Some s' /\
    game_mode s' = daily /\
    rounds_completed s' = (rounds_completed s + 1)%Z /\
    current_streak s' = current_streak s /\
    is_completed s' = (3 <=? rounds_completed s + 1)%Z /\
    (if (3 <=? rounds_completed s + 1)%Z
     then gameResult r
          = Some (summary_of (c_session_id data) s'
                    (Db.getGameRoundsBySession db' (c_session_id data)))
     else gameResult r = None) /\
    total_score s' = total_score s + pointsEarned r /\
    In (round r) (Db.getGameRoundsBySession db' (c_session_id data)) /\
    (forall k q, Db.getImagePair db k = Some q ->
                 exists q', Db.getImagePair db' k = Some q').
Proof.
  intros Hs Hm Hc Hp.
  destruct (submit_step db data uuid now s p Hs Hc Hp)
    as (r & db' & E & _ & Hpts & _ & _ & Hres & Hs' & Hpairs & _ & Hrounds & Hrs & _).
  assert (He : forall b, ends_session s b = (3 <=? rounds_completed s + 1)%Z)
    by (intros b; unfold ends_session; now rewrite Hm).
  rewrite He in Hres.
  eexists r, db', _. split; [exact E|]. split; [exact Hs'|].
  split; [unfold after_round; cbn [game_mode]; exact Hm|].
  split; [reflexivity|].
  split; [unfold after_round; cbn [current_streak]; now rewrite Hm|].
  split; [unfold after_round; cbn [is_completed];
          rewrite He, Hc; now destruct (3 <=? rounds_completed s + 1)%Z|].
  split; [exact Hres|].
  split; [unfold after_round; cbn [total_score]; now rewrite Hpts|].
  split; [now apply recorded_round_is_listed with db uuid|].
  intros k q Hq. unfold Db.getImagePair. rewrite Hpairs.
  now apply pair_survives_record with (q := q).
Qed.

(** C4. In daily mode the first and the second round leave the session in
    progress and return no summary; the third, whatever the answers were,
    sets [is_completed] and returns the GameResult summary: it names the
    session, carries the score of the stored record (the points of the three
    rounds added to the score at the start), 3 rounds and the streak, and its
    statistics are those of the rounds of the session, the third included.
    The streak of the session is never advanced, and a fourth submission
    fails with SessionAlreadyCompleted, at once and after whatever the engine
    serves in between. *)
Theorem daily_third_round_completes_session
    db sid s d1 d2 d3 d4 u1 u2 u3 u4 n1 n2 n3 n4 p1 p2 p3 :
  c_session_id d1 = sid -> c_session_id d2 = sid ->
  c_session_id d3 = sid -> c_session_id d4 = sid ->
  Db.getGameSession db sid = Some s ->
  game_mode s = daily ->
  is_completed s = false ->
  rounds_completed s = 0%Z ->
  Db.getImagePair db (c_pair_id d1) = Some p1 ->
  Db.getImagePair db (c_pair_id d2) = Some p2 ->
  Db.getImagePair db (c_pair_id d3) = Some p3 ->
  exists r1 db1 s1 r2 db2 s2 r3 db3 s3 g,
    submitPlayerChoice db d1 u1 n1 = (Ok r1, db1) /\
    gameResult r1 = None /\
    Db.getGameSession db1 sid = Some s1 /\ is_completed s1 = false /\
    submitPlayerChoice db1 d2 u2 n2 = (Ok r2, db2) /\
    gameResult r2 = None /\
    Db.getGameSession db2 sid = Some s2 /\ is_completed s2 = false /\
    submitPlayerChoice db2 d3 u3 n3 = (Ok r3, db3) /\
    gameResult r3 = Some g /\ g_is_completed g = true /\
    Db.getGameSession db3 sid = Some s3 /\ is_completed s3 = true /\
    rounds_completed s3 = 3%Z /\
    current_streak s1 = current_streak s /\
    current_streak s2 = current_streak s /\
    current_streak s3 = current_streak s /\
    (* the summary *)
    g_session_id g = sid /\
    g_total_score g = total_score s3 /\
    total_score s3
    = total_score s + pointsEarned r1 + pointsEarned r2 + pointsEarned r3 /\
    g_rounds_completed g = 3%Z /\
    g_current_streak g = current_streak s /\
    final_stats g = final_stats_of (Db.getGameRoundsBySession db3 sid) /\
    In (round r3) (Db.getGameRoundsBySession db3 sid) /\
    submitPlayerChoice db3 d4 u4 n4 = (Throw SessionAlreadyCompleted, db3) /\
    forall later,
      Forall (starts_elsewhere sid) later ->
      completed_in (serve_all db3 later) sid /\
      submitPlayerChoice (serve_all db3 later) d4 u4 n4
        = (Throw SessionAlreadyCompleted, serve_all db3 later).
Proof.
  intros <- E2 E3 E4 Hs Hm Hc Hn Hp1 Hp2 Hp3.
  destruct (daily_round db d1 u1 n1 s p1 Hs Hm Hc Hp1)
    as (r1 & db1 & s1 & S1 & Hs1 & Hm1 & Hn1 & Hk1 & Hc1 & Hr1 & Ht1 & _ & Hpairs1).
  rewrite Hn in Hn1, Hc1, Hr1. cbn in Hn1, Hc1, Hr1.
  destruct (Hpairs1 _ _ Hp2) as (q2 & Hq2).
  destruct (Hpairs1 _ _ Hp3) as (q3 & Hq3).
  rewrite <- E2 in Hs1.
  destruct (daily_round db1 d2 u2 n2 s1 q2 Hs1 Hm1 Hc1 Hq2)
    as (r2 & db2 & s2 & S2 & Hs2 & Hm2 & Hn2 & Hk2 & Hc2 & Hr2 & Ht2 & _ & Hpairs2).
  rewrite Hn1 in Hn2, Hc2, Hr2. cbn in Hn2, Hc2, Hr2.
  destruct (Hpairs2 _ _ Hq3) as (q3' & Hq3').
  rewrite E2, <- E3 in Hs2.
  destruct (daily_round db2 d3 u3 n3 s2 q3' Hs2 Hm2 Hc2 Hq3')
    as (r3 & db3 & s3 & S3 & Hs3 & Hm3 & Hn3 & Hk3 & Hc3 & Hr3 & Ht3 & Hin3 & _).
  rewrite Hn2 in Hn3, Hc3, Hr3. cbn in Hn3, Hc3, Hr3.
  rewrite E2 in Hs1. rewrite E3 in Hs2, Hs3, Hr3, Hin3.
  exists r1, db1, s1, r2, db2, s2, r3, db3, s3,
    (summary_of (c_session_id d1) s3 (Db.getGameRoundsBySession db3 (c_session_id d1))).
  do 9 (split; [first [assumption | congruence]|]).
  split; [exact Hr3|]. split; [reflexivity|].
  do 6 (split; [first [assumption | congruence]|]).
  cbn [summary_of g_session_id g_total_score g_rounds_completed g_current_streak
       final_stats].
  split; [reflexivity|]. split; [reflexivity|].
  split; [now rewrite Ht3, Ht2, Ht1|].
  split; [exact Hn3|]. split; [congruence|]. split; [reflexivity|].
  split; [exact Hin3|].
  split; [apply submit_completed with (s := s3); [now rewrite E4 | exact Hc3]|].
  intros later Hlater.
  destruct (completed_is_terminal db3 (c_session_id d1) later Hlater) as (Hdone & Hsub);
    [now exists s3|].
  split; [exact Hdone | now apply Hsub].
Qed.

Lemma daily_third_round_completes_session_witness :
  exists r1 db1 s1 r2 db2 s2 r3 db3 s3 g,
    submitPlayerChoice (Sample.started daily "d1") (Sample.answer "d1" ai 900)
      "r1" 11%Z = (Ok r1, db1) /\
    gameResult r1 = None /\
    Db.getGameSession db1 "d1" = Some s1 /\ is_completed s1 = false /\
    submitPlayerChoice db1 (Sample.answer "d1" real 31000) "r2" 12%Z = (Ok r2, db2) /\
    gameResult r2 = None /\
    Db.getGameSession db2 "d1" = Some s2 /\ is_completed s2 = false /\
    submitPlayerChoice db2 (Sample.answer "d1" real 2500) "r3" 13%Z = (Ok r3, db3) /\
    gameResult r3 = Some g /\ g_is_completed g = true /\
    Db.getGameSession db3 "d1" = Some s3 /\ is_completed s3 = true /\
    rounds_completed s3 = 3%Z /\
    current_streak s1 = 0%Z /\
    current_streak s2 = 0%Z /\
    current_streak s3 = 0%Z /\
    g_session_id g = "d1"%string /\
    g_total_score g = total_score s3 /\
    total_score s3 = 0 + pointsEarned r1 + pointsEarned r2 + pointsEarned r3 /\
    g_rounds_completed g = 3%Z /\
    g_current_streak g = 0%Z /\
    final_stats g = final_stats_of (Db.getGameRoundsBySession db3 "d1") /\
    In (round r3) (Db.getGameRoundsBySession db3 "d1") /\
    submitPlayerChoice db3 (Sample.answer "d1" ai 100) "r4" 14%Z
      = (Throw SessionAlreadyCompleted, db3) /\
    forall later,
      Forall (starts_elsewhere "d1") later ->
      completed_in (serve_all db3 later) "d1" /\
      submitPlayerChoice (serve_all db3 later) (Sample.answer "d1" ai 100) "r4" 14%Z
        = (Throw SessionAlreadyCompleted, serve_all db3 later).
Proof.
  refine (daily_third_round_completes_session (Sample.started daily "d1") "d1"
            (Sample.fresh daily "d1") _ _ _ _ "r1" "r2" "r3" "r4" 11%Z 12%Z 13%Z 14%Z
            Sample.pair1 Sample.pair1 Sample.pair1 _ _ _ _ _ _ _ _ _ _ _);
    reflexivity.
Defined.

End DailyMode.

Section EndSession.

Import GameService.
Open Scope float_scope.

(** C5, as stated, fails: ending the completed session ["s1"] again at
    time 99 does not fail; it returns a summary and the stored end time,
    which was 11, becomes 99. *)
Lemma end_twice_restamps_end_time :
  exists s g db' s',
    Db.getGameSession Sample.ended "s1" = Some s /\
    is_completed s = true /\ end_time s = Some 11%Z /\
    endGameSession Sample.ended "s1" None 99%Z = (Ok g, db') /\
    Db.getGameSession db' "s1" = Some s' /\
    end_time s' = Some 99%Z.
Proof.
  eexists _, _, _, _.
  split; [vm_compute; reflexivity|].
  split; [reflexivity|]. split; [reflexivity|].
  split; [vm_compute; reflexivity|].
  split; [vm_compute; reflexivity|]. reflexivity.
Qed.

(** C5, amended.  Ending a session that is already completed does not
    fail: it returns a GameResult summary, the session keeps
    [is_completed = true] and, when no overrides are passed, its score,
    rounds and streak; no other record of the store changes; the end time
    is stamped again with the current time. *)
Theorem end_completed_session db sessionId s now :
  Db.getGameSession db sessionId = Some s ->
  is_completed s = true ->
  exists g db' s',
    endGameSession db sessionId None now = (Ok g, db') /\
    g_is_completed g = true /\
    g_total_score g = total_score s /\
    g_rounds_completed g = rounds_completed s /\
    g_current_streak g = current_streak s /\
    Db.getGameSession db' sessionId = Some s' /\
    is_completed s' = true /\
    end_time s' = Some now /\
    total_score s' = total_score s /\
    rounds_completed s' = rounds_completed s /\
    current_streak s' = current_streak s /\
    game_mode s' = game_mode s /\
    player_id s' = player_id s /\
    start_time s' = start_time s /\
    daily_challenge_date s' = daily_challenge_date s /\
    (forall k, k <> sessionId -> Db.getGameSession db' k = Db.getGameSession db k) /\
    images db' = images db /\ imagePairs db' = imagePairs db /\
    gameRounds db' = gameRounds db.
Proof.
  intros Hs Hc. unfold endGameSession, Db.updateGameSession.
  rewrite Hs. unfold Db.getGameSession in Hs. rewrite Hs.
  eexists _, _, _. split; [reflexivity|].
  cbn [g_is_completed g_total_score g_rounds_completed g_current_streak
       spread_session total_score rounds_completed current_streak or_else
       u_total_score u_rounds_completed u_current_streak no_session_updates].
  do 4 (split; [reflexivity|]).
  split; [unfold Db.getGameSession; cbn; apply get_set_same|].
  cbn. do 9 (split; [reflexivity|]).
  split; [|repeat split].
  intros k Hk. unfold Db.getGameSession; cbn. apply get_set_other. congruence.
Qed.

Lemma end_completed_session_witness :
  exists g db' s',
    endGameSession Sample.ended "s1" None 99%Z = (Ok g, db') /\
    g_is_completed g = true /\
    g_total_score g = 0 /\
    g_rounds_completed g = 1%Z /\
    g_current_streak g = 0%Z /\
    Db.getGameSession db' "s1" = Some s' /\
    is_completed s' = true /\
    end_time s' = Some 99%Z.
Proof.
  destruct (end_completed_session Sample.ended "s1"
              (after_round (Sample.fresh streak "s1") false 0 11%Z) 99%Z)
    as (g & db' & s' & E & H1 & H2 & H3 & H4 & H5 & H6 & H7 & _).
  - vm_compute; reflexivity.
  - reflexivity.
  - exists g, db', s'. repeat (split; [assumption|]). assumption.
Defined.

End EndSession.

(* ================================================================== *)
(** * The Pair Selector *)


Section SliceFacts.
Context {A : Type}.

Lemma In_firstn (n : nat) (l : list A) x : In x (firstn n l) -> In x l.
Proof.
  intros H. rewrite <- (firstn_skipn n l). apply in_or_app. now left.
Qed.

Lemma In_skipn (n : nat) (l : list A) x : In x (skipn n l) -> In x l.
Proof.
  intros H. rewrite <- (firstn_skipn n l). apply in_or_app. now right.
Qed.

Lemma Array_slice_In (l : list A) s e x : In x (Array_slice l s e) -> In x l.
Proof.
  unfold Array_slice. intros H. apply In_skipn in H. now apply In_firstn in H.
Qed.

(** The shortlist [l.slice(0, Math.min(5, l.length))]. *)
Lemma shortlist_length (l : list A) :
  List.length (Array_slice l 0 (Z.min 5 (len l))) = Nat.min 5 (List.length l).
Proof.
  unfold Array_slice, len.
  assert (H0 : (0 <? 0)%Z = false) by reflexivity. rewrite H0.
  assert (H1 : (Z.min 5 (Z.of_nat (List.length l)) <? 0)%Z = false)
    by (apply Z.ltb_ge; lia).
  rewrite H1.
  replace (Z.to_nat (Z.min 0 (Z.of_nat (List.length l)))) with 0%nat by lia.
  cbn [skipn]. rewrite length_firstn. lia.
Qed.
End SliceFacts.

Section Selector.

Import ImagePairService.

Lemma existsb_pair_id (i : string) ids :
  existsb (String.eqb i) ids = false <-> ~ In i ids.
Proof.
  induction ids as [|j ids IH]; cbn; [intuition|].
  rewrite orb_false_iff, IH, String.eqb_neq. intuition.
Qed.

Lemma availablePairs_meets db criteria p :
  In p (availablePairs db criteria) <->
  In p (JsMap.values (imagePairs db)) /\ meets criteria p.
Proof.
  unfold availablePairs, Db.getAllImagePairs, meets.
  cbn [f_category f_difficulty f_is_active].
  set (act := match activeOnly criteria with Some false => false | _ => true end).
  set (all := JsMap.values (imagePairs db)).
  set (l1 := if truthy_string (s_category criteria) then _ else all).
  set (l2 := if truthy_Z (s_difficulty criteria) then _ else l1).
  assert (H1 : In p l1 <-> In p all /\
            (truthy_string (s_category criteria) = true ->
             s_category criteria = Some (category p))).
  { subst l1. destruct (s_category criteria) as [c|]; cbn.
    - destruct (negb (String.eqb c EmptyString)); [|intuition discriminate].
      rewrite filter_In, String.eqb_eq. intuition congruence.
    - intuition discriminate. }
  assert (H2 : In p l2 <-> In p l1 /\
            (truthy_Z (s_difficulty criteria) = true ->
             s_difficulty criteria = Some (difficulty_level p))).
  { subst l2. destruct (s_difficulty criteria) as [d|]; cbn.
    - destruct (negb (d =? 0)%Z); [|intuition discriminate].
      rewrite filter_In, Z.eqb_eq. intuition congruence.
    - intuition discriminate. }
  assert (H3 : In p (filter (fun q => Bool.eqb (is_active q) act) l2) <->
            In p l2 /\ is_active p = act).
  { rewrite filter_In. now rewrite Bool.eqb_true_iff. }
  destruct (excludePairIds criteria) as [ids|].
  - destruct (0 <? len ids)%Z eqn:Hn.
    + rewrite filter_In, negb_true_iff, existsb_pair_id, H3, H2, H1.
      split.
      * intros (((Ha & Hc) & Hd) & Hact) . intuition congruence.
      * intros (Ha & Hc & Hd & Hact & He). specialize (He ids eq_refl). intuition.
    + assert (ids = []) as ->.
      { destruct ids; [reflexivity|]. unfold len in Hn. cbn in Hn. discriminate. }
      rewrite H3, H2, H1. split.
      * intros (((Ha & Hc) & Hd) & Hact). repeat split; auto.
        intros ids [= <-]. intros [].
      * intuition.
  - rewrite H3, H2, H1. split.
    + intros (((Ha & Hc) & Hd) & Hact). repeat split; auto. discriminate.
    + intuition.
Qed.

Lemma selectPairForGame_In randomIndex db criteria p :
  selectPairForGame randomIndex db criteria = Some p ->
  In p (availablePairs db criteria).
Proof.
  unfold selectPairForGame.
  destruct (len (availablePairs db criteria) =? 0)%Z; [discriminate|].
  cbv zeta.
  destruct (nth_error _ _) as [c|] eqn:E; [|discriminate].
  intros [= <-]. apply nth_error_In in E. apply Array_slice_In in E.
  apply Array_sort_In in E. apply in_map_iff in E.
  destruct E as (q & <- & Hq). exact Hq.
Qed.

Lemma selectPairForGame_None randomIndex db criteria :
  (forall n, (0 < n)%nat -> (randomIndex n < n)%nat) ->
  selectPairForGame randomIndex db criteria = None <->
  availablePairs db criteria = [].
Proof.
  intros Hrnd. unfold selectPairForGame.
  destruct (availablePairs db criteria) as [|q l] eqn:Ha.
  - cbn. intuition.
  - assert (Hlen : (len (q :: l) =? 0)%Z = false)
      by (apply Z.eqb_neq; unfold len; cbn [List.length]; lia).
    rewrite Hlen. cbv zeta.
    destruct (nth_error _ _) as [c|] eqn:E; [split; discriminate|].
    exfalso. apply nth_error_None in E.
    rewrite shortlist_length, Array_sort_length, length_map in E.
    cbn [List.length] in E.
    specialize (Hrnd (Nat.min 5 (S (List.length l)))). lia.
Qed.

End Selector.

Section SelectorContract.

Import ImagePairService.





End SelectorContract.

(* ================================================================== *)
(** * The difficulty policy of streak mode *)

Section StreakPolicy.

Import GameService.

(** C9. In streak mode the difficulty that [getNextPairForGame] asks the
    selector for depends on the session's current streak only: below 3 it
    is 1, below 7 it is 2, below 12 it is 3, below 20 it is 4, and 5 from
    20 on; the pair selected at that difficulty, when there is one, is the
    pair served. *)
Theorem streak_target_difficulty randomIndex db sessionId session :
  Db.getGameSession db sessionId = Some session ->
  is_completed session = false ->
  game_mode session = streak ->
  let n := current_streak session in
  let played := Db.getGameRoundsBySession db sessionId in
  let target := targetDifficulty db session played in
  ((n < 3)%Z -> target = Some 1%Z) /\
  ((3 <= n < 7)%Z -> target = Some 2%Z) /\
  ((7 <= n < 12)%Z -> target = Some 3%Z) /\
  ((12 <= n < 20)%Z -> target = Some 4%Z) /\
  ((20 <= n)%Z -> target = Some 5%Z) /\
  (forall p,
      ImagePairService.selectPairForGame randomIndex db
        {| s_category := None; s_difficulty := target;
           excludePairIds := Some (List.map r_pair_id played);
           activeOnly := Some true |} = Some p ->
      getNextPairForGame randomIndex db sessionId =
        match ImagePairService.getImagePairWithImages db (pair_id p) with
        | None => Throw PairDataMissing
        | Some pairWithImages =>
            Ok {| n_session_id := sessionId; n_pair := pairWithImages;
                  n_round_number := (len played + 1)%Z;
                  n_current_streak := current_streak session;
                  n_total_score := total_score session |}
        end).
Proof.
  intros Hs Hc Hm n played target.
  assert (Ht : target =
               if (n <? 3)%Z then Some 1%Z
               else if (n <? 7)%Z then Some 2%Z
               else if (n <? 12)%Z then Some 3%Z
               else if (n <? 20)%Z then Some 4%Z
               else Some 5%Z).
  { subst target. unfold targetDifficulty. now rewrite Hm. }
  repeat split.
  - intros H. rewrite Ht. apply Z.ltb_lt in H. now rewrite H.
  - intros [H1 H2]. rewrite Ht.
    apply Z.ltb_ge in H1. apply Z.ltb_lt in H2. now rewrite H1, H2.
  - intros [H1 H2]. rewrite Ht.
    assert (H0 : (n <? 3)%Z = false) by (apply Z.ltb_ge; lia).
    apply Z.ltb_ge in H1. apply Z.ltb_lt in H2. now rewrite H0, H1, H2.
  - intros [H1 H2]. rewrite Ht.
    assert (H0 : (n <? 3)%Z = false) by (apply Z.ltb_ge; lia).
    assert (H0' : (n <? 7)%Z = false) by (apply Z.ltb_ge; lia).
    apply Z.ltb_ge in H1. apply Z.ltb_lt in H2. now rewrite H0, H0', H1, H2.
  - intros H1. rewrite Ht.
    assert (H0 : (n <? 3)%Z = false) by (apply Z.ltb_ge; lia).
    assert (H0' : (n <? 7)%Z = false) by (apply Z.ltb_ge; lia).
    assert (H0'' : (n <? 12)%Z = false) by (apply Z.ltb_ge; lia).
    apply Z.ltb_ge in H1. now rewrite H0, H0', H0'', H1.
  - intros p Hsel. unfold getNextPairForGame. rewrite Hs, Hc. cbv zeta.
    fold played. fold target. rewrite Hsel. reflexivity.
Qed.

Lemma streak_target_difficulty_witness :
  targetDifficulty (Sample.started streak "s1") (Sample.fresh streak "s1")
    (Db.getGameRoundsBySession (Sample.started streak "s1") "s1") = Some 1%Z.
Proof.
  refine (proj1 (streak_target_difficulty (fun _ => 0%nat)
                   (Sample.started streak "s1") "s1" (Sample.fresh streak "s1")
                   _ _ _) _); [reflexivity .. | cbn; lia].
Defined.

(** The thresholds of [ScoreCalculator.getDifficultyFromStreak] are other
    ones (5, 10, 15, 20); the engine does not call it. *)
Example getDifficultyFromStreak_differs :
  ScoreCalculator.getDifficultyFromStreak 3 = 1%float /\
  targetDifficulty Db.empty
    {| session_id := "s"; player_id := None; game_mode := streak;
       start_time := 0%Z; end_time := None; total_score := 0%float;
       rounds_completed := 3%Z; current_streak := 3%Z; is_completed := false;
       daily_challenge_date := None |} [] = Some 2%Z.
Proof. split; reflexivity. Qed.

End StreakPolicy.

(* ================================================================== *)
(** * Pair statistics *)

Section PairStatistics.

Import ImagePairService.
Open Scope float_scope.

Lemma recorded_consistent p b rt :
  (0 <= correct_guesses p <= total_attempts p)%Z ->
  consistent (recorded p b rt).
Proof.
  intros Hc. unfold consistent, recorded; cbn [correct_guesses total_attempts success_rate].
  split; [destruct b; lia|].
  unfold success_rate_spec, round2.
  assert (H0 : (total_attempts p + 1 =? 0)%Z = false) by (apply Z.eqb_neq; lia).
  rewrite H0. now rewrite (float_mul_comm 100).
Qed.

(** C7, as stated, fails: the rate is rounded in binary64.  The pair with
    22 correct guesses out of 159 attempts takes one more correct guess: 23 out
    of 160 is 14.375 per cent, and round(14.375, 2) is 14.38, but the product
    (23 / 160) * 100 * 100 is just below 1437.5 and the stored rate is
    14.37. *)
Lemma success_rate_below_rule :
  exists p',
    Db.getImagePair (updatePairStats Worn.store "pair-1" true 1200) "pair-1" = Some p' /\
    correct_guesses p' = 23%Z /\ total_attempts p' = 160%Z /\
    success_rate p' = 14.37 /\
    num (hundredths_exact 23 160) / 100 = 14.38.
Proof.
  eexists. split; [vm_compute; reflexivity|]. repeat split.
Qed.

Lemma counts_up_to_In n c t :
  (1 <= t <= Z.of_nat n)%Z -> (0 <= c <= t)%Z -> In (c, t) (counts_up_to n).
Proof.
  intros Ht Hc. unfold counts_up_to. apply in_flat_map.
  exists (Z.to_nat t). split; [apply in_seq; lia|].
  apply in_map_iff. exists (Z.to_nat c). split; [f_equal; lia | apply in_seq; lia].
Qed.

(** The rate of the code against the rate in exact arithmetic, for every
    count up to 40 attempts. *)
Lemma round2_exact_up_to_40 c t :
  (1 <= t <= 40)%Z -> (0 <= c <= t)%Z ->
  Math_round (num c / num t * 100 * 100) / 100 = num (hundredths_exact c t) / 100.
Proof.
  intros Ht Hc.
  assert (H : forallb (fun ct =>
                Leibniz.eqb (Math_round (num (fst ct) / num (snd ct) * 100 * 100) / 100)
                            (num (hundredths_exact (fst ct) (snd ct)) / 100))
              (counts_up_to 40) = true) by (vm_compute; reflexivity).
  rewrite forallb_forall in H.
  specialize (H (c, t) (counts_up_to_In 40 c t Ht Hc)).
  now apply Leibniz.eqb_spec in H.
Qed.

(** C7, amended.  A pair is created with no attempt, no correct guess and
    rate 0.  One [updatePairStats] on a pair with fewer than 2^53 attempts
    adds 1 to [total_attempts] and adds 1 to [correct_guesses] exactly when
    the guess was correct, so that [correct_guesses <= total_attempts] is
    kept.  The rate it stores is the binary64 value
    Math.round((correct / attempts) * 100 * 100) / 100 of the new counts:
    up to 40 attempts this is round(100 * correct / attempts, 2), in
    general it is not. *)
Theorem pair_statistics_rule :
  (forall db data uuid now p db',
      createImagePair db data uuid now = (Ok p, db') ->
      total_attempts p = 0%Z /\ correct_guesses p = 0%Z /\ success_rate p = 0 /\
      Db.getImagePair db' (pair_id p) = Some p) /\
  (forall db pairId b rt p,
      Db.getImagePair db pairId = Some p ->
      (0 <= correct_guesses p <= total_attempts p)%Z ->
      (total_attempts p < 2 ^ 53)%Z ->
      exists p',
        Db.getImagePair (updatePairStats db pairId b rt) pairId = Some p' /\
        total_attempts p' = (total_attempts p + 1)%Z /\
        correct_guesses p' = (correct_guesses p + (if b then 1 else 0))%Z /\
        (0 <= correct_guesses p' <= total_attempts p')%Z /\
        success_rate p'
        = Math_round (num (correct_guesses p') / num (total_attempts p') * 100 * 100)
          / 100 /\
        ((total_attempts p' <= 40)%Z ->
         success_rate p'
         = num (hundredths_exact (correct_guesses p') (total_attempts p')) / 100)).
Proof.
  split.
  - intros db data uuid now p db' H.
    destruct (createImagePair_new _ _ _ _ _ _ H) as (Ht & Hc & Hr & Hid & ->).
    do 3 (split; [assumption|]).
    unfold Db.getImagePair, Db.createImagePair; cbn. apply get_set_same.
  - intros db pairId b rt p Hp Hc Hbig. exists (recorded p b rt).
    unfold Db.getImagePair at 1.
    rewrite (proj1 (updatePairStats_effect _ _ _ _)), Hp.
    split; [apply get_set_same|].
    cbn [recorded total_attempts correct_guesses success_rate].
    split; [reflexivity|]. split; [reflexivity|].
    split; [destruct b; lia|]. split; [reflexivity|].
    intros H40. apply round2_exact_up_to_40; destruct b; lia.
Qed.

Lemma pair_statistics_rule_witness :
  exists p',
    Db.getImagePair (updatePairStats Sample.store "pair-1" true 1200) "pair-1" = Some p' /\
    total_attempts p' = 1%Z /\ correct_guesses p' = 1%Z /\
    success_rate p' = 100.
Proof.
  destruct (proj2 pair_statistics_rule Sample.store "pair-1"%string
              true 1200 Sample.pair1 eq_refl)
    as (p' & Hp & Ht & Hc & _ & _ & Hrate).
  - cbn. lia.
  - cbn. lia.
  - exists p'. split; [exact Hp|]. split; [exact Ht|]. split; [exact Hc|].
    rewrite Hrate by (rewrite Ht; cbn; lia). rewrite Ht, Hc. vm_compute. reflexivity.
Defined.

(** The rate is a rounding in binary64: one correct guess out of three is
    33.33; at a tie the product (c / t) * 100 * 100 can fall just below the
    half, as for 23 out of 160 (14.375 per cent), stored as 14.37. *)
Example success_rate_examples :
  success_rate_spec 1 3 = 33.33 /\ success_rate_spec 2 3 = 66.67 /\
  success_rate_spec 0 0 = 0 /\ success_rate_spec 5 5 = 100 /\
  success_rate_spec 23 160 = 14.37.
Proof. vm_compute. repeat split. Qed.

(** X7. A submitted round is one such update of the pair it names: the
    statistics of every stored pair stay consistent. *)
Lemma submit_keeps_pairs_consistent db data uuid now r db' :
  all_consistent db ->
  GameService.submitPlayerChoice db data uuid now = (Ok r, db') ->
  all_consistent db'.
Proof.
  intros Hall H.
  destruct (Db.getGameSession db (c_session_id data)) as [s|] eqn:Hs;
    [| unfold GameService.submitPlayerChoice in H; rewrite Hs in H; discriminate].
  destruct (is_completed s) eqn:Hc;
    [rewrite (submit_completed _ _ _ _ _ Hs Hc) in H; discriminate|].
  destruct (Db.getImagePair db (c_pair_id data)) as [p|] eqn:Hp;
    [| unfold GameService.submitPlayerChoice, getImagePairById in H;
       rewrite Hs, Hc, Hp in H; discriminate].
  destruct (submit_step db data uuid now s p Hs Hc Hp)
    as (r0 & db0 & E & _ & _ & _ & _ & _ & _ & Hpairs & _).
  rewrite E in H. injection H as -> ->.
  intros k q. unfold Db.getImagePair. rewrite Hpairs, get_set_cases.
  destruct (String.eqb (c_pair_id data) k).
  - intros [= <-]. apply recorded_consistent. apply (Hall _ _ Hp).
  - apply Hall.
Qed.

Lemma submit_keeps_pairs_consistent_witness :
  exists r db',
    GameService.submitPlayerChoice (Sample.started streak "s1")
      (Sample.answer "s1" ai 900) "r1" 11%Z = (Ok r, db') /\
    all_consistent db'.
Proof.
  destruct (GameService.submitPlayerChoice (Sample.started streak "s1")
              (Sample.answer "s1" ai 900) "r1" 11%Z) as [[r|e] db'] eqn:E;
    [| vm_compute in E; discriminate].
  exists r, db'. split; [reflexivity|].
  refine (submit_keeps_pairs_consistent _ _ _ _ _ _ _ E).
  assert (Hm : imagePairs (Sample.started streak "s1")
               = [("pair-1"%string, Sample.pair1)]) by (vm_compute; reflexivity).
  intros k p. unfold Db.getImagePair. rewrite Hm. cbn [JsMap.get].
  destruct (String.eqb "pair-1" k); [|discriminate].
  intros [= <-]. split; [cbn; lia | vm_compute; reflexivity].
Defined.

End PairStatistics.

(* ================================================================== *)
(** * The leaderboard *)

Section Leaderboard.

Import GameService.
Open Scope float_scope.

(** X6. The scan of [getLeaderboard] is [Object.values] of the [Map] of
    sessions: it lists nothing, so the leaderboard of every store is empty. *)
Lemma getLeaderboard_empty db gameMode limit : getLeaderboard db gameMode limit = [].
Proof.
  unfold getLeaderboard, leaderboardOf, JsMap.Object_values. cbn [filter].
  assert (H : Array_slice (@nil PlayerEntry) 0 (or_else limit 10%Z) = [])
    by (unfold Array_slice; now rewrite firstn_nil, skipn_nil).
  destruct gameMode; cbn [filter fold_left JsMap.empty JsMap.values List.map Array_sort];
    now rewrite H.
Qed.

(** C10.  The store holds the completed sessions of the players A, B, C and
    D with the scores 300, 500, 500 and 100, and [getLeaderboard] with limit
    3 returns no entry, for every mode asked, where three entries ranked 1 to
    3 are due: the sessions are scanned with [Object.values] of the [Map]
    that holds them, which lists nothing. *)
Theorem leaderboard_of_four_is_empty :
  List.map (fun s => (player_id s, total_score s, is_completed s))
    (JsMap.values (gameSessions Board.store))
  = [(Some "A"%string, 300, true); (Some "B"%string, 500, true);
     (Some "C"%string, 500, true); (Some "D"%string, 100, true)] /\
  getLeaderboard Board.store None (Some 3%Z) = [] /\
  getLeaderboard Board.store (Some streak) (Some 3%Z) = [] /\
  getLeaderboard Board.store (Some daily) (Some 3%Z) = [] /\
  JsMap.Object_values (gameSessions Board.store) = [].
Proof. repeat split. Qed.

(** The ranking that the body of [getLeaderboard] computes when it is handed
    the four sessions: B, then C (the tie keeps the order of the scan), then
    A with the third best score; D is left out. *)
Lemma leaderboard_of_four sA sB sC sD :
  is_completed sA = true -> is_completed sB = true ->
  is_completed sC = true -> is_completed sD = true ->
  player_id sA = Some "A"%string -> player_id sB = Some "B"%string ->
  player_id sC = Some "C"%string -> player_id sD = Some "D"%string ->
  total_score sA = 300 -> total_score sB = 500 ->
  total_score sC = 500 -> total_score sD = 100 ->
  List.map Board.row (leaderboardOf [sA; sB; sC; sD] None (Some 3%Z)) =
    [(1%Z, "B"%string, 500); (2%Z, "C"%string, 500); (3%Z, "A"%string, 300)].
Proof.
  destruct sA, sB, sC, sD; cbn [is_completed player_id total_score].
  intros -> -> -> -> -> -> -> -> -> -> -> ->.
  vm_compute. reflexivity.
Qed.

End Leaderboard.

(* ================================================================== *)
(** * One daily challenge a day *)

Section DailyAttempts.

Import GameService.

(** Had the scan listed the stored sessions, [find] would still stop at the
    first daily session of the day: a completed one behind a session that
    was started and left unfinished is not seen. *)
Lemma first_match_hides_completed_session :
  let abandoned := Sample.fresh daily "d0" in
  let done := after_round (after_round (after_round (Sample.fresh daily "d1")
                true 100%float 11%Z) true 100%float 12%Z) true 100%float 13%Z in
  is_completed done = true /\
  isTodaysDailySession "alice" Sample.today done = true /\
  find (isTodaysDailySession "alice" Sample.today) [abandoned; done] = Some abandoned /\
  is_completed abandoned = false.
Proof. repeat split. Qed.

(** C6, the failing run.  Alice starts the daily challenge ["d0"] and
    leaves it, then completes the daily challenge ["d1"]; the same day
    [startGameSession] accepts one more daily session ["d2"] for her, which
    she completes too: the store then holds two completed daily sessions of
    the same player for the same date.  The first daily session of the day
    among the stored ones is the unfinished ["d0"]. *)
Theorem second_daily_session_same_day :
  exists first first' second',
    Db.getGameSession TwoDailies.afterFirst "d1" = Some first /\
    TwoDailies.completed_daily_of "alice" Sample.today first = true /\
    TwoDailies.secondStart
      = (Ok TwoDailies.second,
         Db.createGameSession TwoDailies.afterFirst TwoDailies.second) /\
    Db.getGameSession TwoDailies.afterSecond "d1" = Some first' /\
    Db.getGameSession TwoDailies.afterSecond "d2" = Some second' /\
    TwoDailies.completed_daily_of "alice" Sample.today first' = true /\
    TwoDailies.completed_daily_of "alice" Sample.today second' = true /\
    List.length
      (filter (TwoDailies.completed_daily_of "alice" Sample.today)
         (JsMap.values (gameSessions TwoDailies.afterSecond))) = 2%nat /\
    option_map session_id
      (find (isTodaysDailySession "alice" Sample.today)
         (JsMap.values (gameSessions TwoDailies.afterFirst))) = Some "d0"%string.
Proof.
  eexists _, _, _.
  split; [vm_compute; reflexivity|].
  split; [vm_compute; reflexivity|].
  split; [vm_compute; reflexivity|].
  split; [vm_compute; reflexivity|].
  split; [vm_compute; reflexivity|].
  repeat split; vm_compute; reflexivity.
Qed.

End DailyAttempts.

(* ================================================================== *)
(** * Further properties of the engine *)

Section NextPair.

Import GameService ImagePairService.

Lemma select_none_without_active randomIndex db criteria :
  no_active_pair db -> activeOnly criteria = Some true ->
  selectPairForGame randomIndex db criteria = None.
Proof.
  intros Hno Hact. destruct (selectPairForGame randomIndex db criteria) as [p|] eqn:E;
    [|reflexivity].
  apply selectPairForGame_In, availablePairs_meets in E.
  destruct E as (Hin & _ & _ & Ha & _). rewrite Hact in Ha.
  rewrite (Hno p Hin) in Ha. discriminate.
Qed.

Lemma active_pairs_listed db :
  Db.getAllImagePairs db
    (Some {| f_category := None; f_difficulty := None; f_is_active := Some true |})
  = availablePairs db any_active.
Proof. reflexivity. Qed.

Lemma no_active_pair_iff db :
  no_active_pair db <-> availablePairs db any_active = [].
Proof.
  split.
  - intros Hno. destruct (availablePairs db any_active) as [|q l] eqn:E; [reflexivity|].
    assert (Hin : In q (availablePairs db any_active)) by (rewrite E; now left).
    apply availablePairs_meets in Hin. destruct Hin as (Hin & _ & _ & Ha & _).
    cbn in Ha. rewrite (Hno q Hin) in Ha. discriminate.
  - intros He p Hin. destruct (is_active p) eqn:Ha; [|reflexivity].
    assert (H : In p (availablePairs db any_active)).
    { apply availablePairs_meets. split; [exact Hin|].
      unfold meets, any_active; cbn. repeat split; try discriminate. exact Ha. }
    rewrite He in H. destruct H.
Qed.

(** X4. [getNextPairForGame] on a session in progress fails for want of pairs
    exactly when the store has no active pair, with the message of the empty
    catalogue; the message "No suitable image pairs available" is never
    produced, since the last fallback accepts any active pair. *)
Theorem next_pair_needs_an_active_pair randomIndex db sessionId session :
  (forall n, (0 < n)%nat -> (randomIndex n < n)%nat) ->
  Db.getGameSession db sessionId = Some session ->
  is_completed session = false ->
  (getNextPairForGame randomIndex db sessionId = Throw NoPairsAtAll <->
   no_active_pair db) /\
  (getNextPairForGame randomIndex db sessionId = Throw NoSuitablePairs -> False).
Proof.
  intros Hrnd Hs Hc. unfold getNextPairForGame. rewrite Hs, Hc. cbv zeta.
  set (played := Db.getGameRoundsBySession db sessionId).
  set (target := targetDifficulty db session played).
  destruct (availablePairs db any_active) as [|q l] eqn:Eany.
  - assert (Hno : no_active_pair db) by (now apply no_active_pair_iff).
    repeat match goal with
           | |- context [selectPairForGame randomIndex db ?c] =>
               rewrite (select_none_without_active randomIndex db c Hno eq_refl)
           end.
    cbn [is_none andb].
    assert (Hif : forall (b : bool), (if b then @None ImagePair else None) = None)
      by (now intros []).
    rewrite Hif.
    unfold ImagePairService.getAllImagePairs.
    cbn [l_category l_difficulty l_is_active l_page l_limit pairs].
    rewrite active_pairs_listed, Eany.
    assert (Hsl : forall a b, Array_slice (@nil ImagePair) a b = [])
      by (intros; unfold Array_slice; now rewrite firstn_nil, skipn_nil).
    rewrite Hsl. cbn. split; [tauto | discriminate].
  - assert (Hsome : exists x, selectPairForGame randomIndex db
                                {| s_category := None; s_difficulty := None;
                                   excludePairIds := None; activeOnly := Some true |}
                              = Some x).
    { destruct (selectPairForGame randomIndex db any_active) as [x|] eqn:E;
        [now exists x|].
      apply (selectPairForGame_None _ _ _ Hrnd) in E. rewrite Eany in E. discriminate. }
    destruct Hsome as (x & Hx).
    assert (Hactive : ~ no_active_pair db).
    { intros Hno. apply no_active_pair_iff in Hno. rewrite Eany in Hno. discriminate. }
    match goal with
    | |- context [match ?chain with Some _ => _ | None => _ end] =>
        assert (Hchain : exists y, chain = Some y)
    end.
    { rewrite Hx.
      match goal with
      | |- exists y, (if is_none ?p3 then _ else _) = Some y =>
          destruct p3 as [y|]; cbn [is_none]; eauto
      end. }
    destruct Hchain as (y & ->).
    destruct (ImagePairService.getImagePairWithImages db (pair_id y));
      (split; [split; [discriminate | tauto] | discriminate]).
Qed.

Lemma next_pair_needs_an_active_pair_witness :
  getNextPairForGame (fun _ => 0%nat) Sample.bare "s1" = Throw NoPairsAtAll.
Proof.
  apply (proj1 (next_pair_needs_an_active_pair (fun _ => 0%nat) Sample.bare "s1"
                  (Sample.fresh streak "s1") (fun n Hn => Hn) eq_refl eq_refl)).
  intros p [].
Defined.

End NextPair.

Section MoreOnSessions.

Import GameService.

(** X2. A completed session stays completed whatever the engine serves next
    (starts under new identifiers, next pairs, submissions, manual ends, pair
    creation and toggling), and every later submission for it is refused. *)
Theorem completed_session_is_terminal db sid later :
  Forall (starts_elsewhere sid) later ->
  completed_in db sid ->
  completed_in (serve_all db later) sid /\
  forall data uuid now,
    c_session_id data = sid ->
    submitPlayerChoice (serve_all db later) data uuid now
      = (Throw SessionAlreadyCompleted, serve_all db later).
Proof. apply completed_is_terminal. Qed.

Lemma completed_session_is_terminal_witness :
  completed_in
    (serve_all Sample.ended
       [EndSession "s1" 50%Z;
        Start {| d_game_mode := daily; d_player_id := Some "alice"%string |}
          "s2" 60%Z Sample.today;
        Submit (Sample.answer "s2" ai 700%float) "r2" 61%Z;
        Submit (Sample.answer "s1" ai 700%float) "r3" 62%Z;
        TogglePair "pair-1"]) "s1".
Proof.
  apply completed_session_is_terminal.
  - repeat constructor. discriminate.
  - eexists. split; [vm_compute; reflexivity | reflexivity].
Defined.

(** X5. The guard of [startGameSession] never refuses a start: a daily session
    is created for a player even when the store holds a completed daily
    session of that player for the same day. *)
Theorem daily_start_is_never_refused db player uuid now today :
  exists session,
    startGameSession db {| d_game_mode := daily; d_player_id := Some player |}
      uuid now today = (Ok session, Db.createGameSession db session) /\
    session_id session = uuid /\ is_completed session = false.
Proof.
  destruct (startGameSession_succeeds db
              {| d_game_mode := daily; d_player_id := Some player |} uuid now today)
    as (session & E & Hid & Hc & _).
  now exists session.
Qed.

End MoreOnSessions.

(* ================================================================== *)
(** * The numbering of rounds *)

Section RoundNumbers.

Import GameService.

Lemma values_set_new {V} (m : JsMap.t V) k v :
  JsMap.get m k = None -> JsMap.values (JsMap.set m k v) = JsMap.values m ++ [v].
Proof.
  unfold JsMap.values. induction m as [|[k' v'] m IH]; cbn; [reflexivity|].
  destruct (String.eqb k' k); [discriminate|]. intros H. cbn. now rewrite IH.
Qed.

Lemma get_set_defined {V} (m : JsMap.t V) k v k' :
  JsMap.get m k' <> None -> JsMap.get (JsMap.set m k v) k' <> None.
Proof.
  rewrite get_set_cases. destruct (String.eqb k k'); [discriminate | trivial].
Qed.

Lemma sort_insert_last {A} (after : A -> A -> bool) y x l :
  after y x = false ->
  sort_insert after y (l ++ [x]) = sort_insert after y l ++ [x].
Proof.
  intros H. induction l as [|z l IH]; cbn; [now rewrite H|].
  destruct (after y z); cbn; [now rewrite IH | reflexivity].
Qed.

Lemma Array_sort_last {A} (after : A -> A -> bool) x l :
  (forall y, In y l -> after y x = false) ->
  Array_sort after (l ++ [x]) = Array_sort after l ++ [x].
Proof.
  induction l as [|y l IH]; intros H; cbn; [reflexivity|].
  rewrite IH by (intros z Hz; apply H; now right).
  apply sort_insert_last. apply H. now left.
Qed.

Lemma one_to_next n : (0 <= n)%Z -> one_to (n + 1) = one_to n ++ [(n + 1)%Z].
Proof.
  intros Hn. unfold one_to.
  replace (Z.to_nat (n + 1)) with (Z.to_nat n + 1)%nat by lia.
  rewrite seq_app, map_app. cbn. f_equal. f_equal. lia.
Qed.

Lemma one_to_bound n k : In k (one_to n) -> (1 <= k <= n)%Z.
Proof.
  unfold one_to. rewrite in_map_iff. intros (i & <- & Hi).
  apply in_seq in Hi. lia.
Qed.

Lemma one_to_length n : (0 <= n)%Z -> len (one_to n) = n.
Proof.
  intros Hn. unfold len, one_to. rewrite length_map, length_seq. lia.
Qed.

Lemma filter_none {A} (f : A -> bool) l :
  (forall x, In x l -> f x = false) -> filter f l = [].
Proof.
  induction l as [|x l IH]; intros H; cbn; [reflexivity|].
  rewrite (H x) by now left. apply IH. intros y Hy. apply H. now right.
Qed.

(** The two properties read the sessions and the rounds only. *)
Lemma numbered_same_sessions_and_rounds db db' :
  gameSessions db' = gameSessions db -> gameRounds db' = gameRounds db ->
  rounds_numbered db /\ rounds_belong db ->
  rounds_numbered db' /\ rounds_belong db'.
Proof.
  intros Hs Hr (Hn & Hb). split.
  - intros sid s. unfold Db.getGameSession, Db.getGameRoundsBySession.
    rewrite Hs, Hr. apply Hn.
  - intros r. unfold Db.getGameSession. rewrite Hs, Hr. apply Hb.
Qed.

Lemma start_keeps_numbered db data uuid now today :
  Db.getGameSession db uuid = None ->
  rounds_numbered db /\ rounds_belong db ->
  rounds_numbered (snd (startGameSession db data uuid now today)) /\
  rounds_belong (snd (startGameSession db data uuid now today)).
Proof.
  intros Hnew (Hn & Hb).
  destruct (startGameSession_succeeds db data uuid now today)
    as (session & E & Hid & _ & Hz & _).
  rewrite E. cbn [snd]. split.
  - intros sid s. unfold Db.getGameSession, Db.getGameRoundsBySession, Db.createGameSession.
    cbn [gameSessions gameRounds Db.with_gameSessions]. rewrite Hid, get_set_cases.
    destruct (String.eqb uuid sid) eqn:Ek.
    + apply String.eqb_eq in Ek. subst sid. intros [= <-]. rewrite Hz.
      split; [lia|].
      rewrite filter_none; [reflexivity|].
      intros r Hr. destruct (String.eqb (r_session_id r) uuid) eqn:Er; [|reflexivity].
      apply String.eqb_eq in Er. apply Hb in Hr. rewrite Er in Hr. contradiction.
    + apply Hn.
  - intros r Hr. unfold Db.getGameSession, Db.createGameSession.
    cbn [gameSessions Db.with_gameSessions]. apply get_set_defined. now apply Hb.
Qed.

Lemma end_keeps_numbered db sessionId now :
  rounds_numbered db /\ rounds_belong db ->
  rounds_numbered (snd (endGameSession db sessionId None now)) /\
  rounds_belong (snd (endGameSession db sessionId None now)).
Proof.
  intros (Hn & Hb). unfold endGameSession, Db.updateGameSession.
  destruct (Db.getGameSession db sessionId) as [s0|] eqn:Hs0; [|now split].
  unfold Db.getGameSession in Hs0. rewrite Hs0. cbn [snd or_else]. split.
  - intros sid s. unfold Db.getGameSession, Db.getGameRoundsBySession.
    cbn [gameSessions gameRounds Db.with_gameSessions]. rewrite get_set_cases.
    destruct (String.eqb sessionId sid) eqn:Ek; [|apply Hn].
    apply String.eqb_eq in Ek. subst sid. intros [= <-].
    cbn [spread_session rounds_completed or_else u_rounds_completed no_session_updates].
    now apply Hn.
  - intros r Hr. unfold Db.getGameSession.
    cbn [gameSessions Db.with_gameSessions]. apply get_set_defined. now apply Hb.
Qed.

Lemma submit_keeps_numbered db data uuid now :
  JsMap.get (gameRounds db) uuid = None ->
  rounds_numbered db /\ rounds_belong db ->
  rounds_numbered (snd (submitPlayerChoice db data uuid now)) /\
  rounds_belong (snd (submitPlayerChoice db data uuid now)).
Proof.
  intros Hnew (Hn & Hb).
  destruct (Db.getGameSession db (c_session_id data)) as [s0|] eqn:Hs0;
    [| unfold submitPlayerChoice; rewrite Hs0; now split].
  destruct (is_completed s0) eqn:Hc0;
    [rewrite (submit_completed _ _ _ _ _ Hs0 Hc0); now split|].
  destruct (Db.getImagePair db (c_pair_id data)) as [p|] eqn:Hp;
    [| unfold submitPlayerChoice, ImagePairService.getImagePairById;
       rewrite Hs0, Hc0, Hp; now split].
  destruct (submit_step db data uuid now s0 p Hs0 Hc0 Hp)
    as (r & db' & E & _ & _ & _ & _ & _ & _ & _ & Hsess & Hrounds & Hrs & Hrn).
  rewrite E. cbn [snd].
  destruct (Hn _ _ Hs0) as (H0 & Hnum).
  assert (Hlen : len (Db.getGameRoundsBySession db (c_session_id data))
                 = rounds_completed s0).
  { rewrite <- (one_to_length _ H0), <- Hnum. unfold len. now rewrite length_map. }
  rewrite Hlen in Hrn.
  split.
  - intros sid s. unfold Db.getGameSession, Db.getGameRoundsBySession.
    rewrite Hsess, Hrounds, (values_set_new _ _ _ Hnew), filter_app, get_set_cases.
    cbn [filter]. rewrite Hrs.
    destruct (String.eqb (c_session_id data) sid) eqn:Ek.
    + apply String.eqb_eq in Ek. subst sid. intros [= <-].
      cbn [after_round rounds_completed]. split; [lia|].
      rewrite Array_sort_last.
      * rewrite map_app. cbn [List.map]. rewrite Hrn.
        change (Array_sort _ (filter _ (JsMap.values (gameRounds db))))
          with (Db.getGameRoundsBySession db (c_session_id data)).
        rewrite Hnum. symmetry. now apply one_to_next.
      * intros y Hy. rewrite Hrn. apply Z.ltb_ge.
        assert (Hin : In (round_number y) (one_to (rounds_completed s0))).
        { rewrite <- Hnum. apply in_map. unfold Db.getGameRoundsBySession.
          now apply Array_sort_In. }
        apply one_to_bound in Hin. lia.
    + rewrite app_nil_r. apply Hn.
  - intros r0. rewrite Hrounds, (values_set_new _ _ _ Hnew).
    unfold Db.getGameSession. rewrite Hsess. intros Hin.
    apply get_set_defined. apply in_app_or in Hin. destruct Hin as [Hin|[<-|[]]].
    + now apply Hb.
    + rewrite Hrs. unfold Db.getGameSession in Hs0. now rewrite Hs0.
Qed.

Lemma serve_keeps_numbered db rq :
  draws_new db rq ->
  rounds_numbered db /\ rounds_belong db ->
  rounds_numbered (serve db rq) /\ rounds_belong (serve db rq).
Proof.
  destruct rq as [data uuid now today| |data uuid now|sessionId now|data uuid now|pairId];
    cbn [serve draws_new]; intros Hnew Hinv.
  - now apply start_keeps_numbered.
  - exact Hinv.
  - now apply submit_keeps_numbered.
  - now apply end_keeps_numbered.
  - apply numbered_same_sessions_and_rounds with (db := db); [| |exact Hinv].
    + destruct (ImagePairService.createImagePair db data uuid now) as [[p|e] db'] eqn:E.
      * apply createImagePair_new in E. now destruct E as (_ & _ & _ & _ & ->).
      * unfold ImagePairService.createImagePair in E.
        repeat match type of E with
               | context [match ?x with _ => _ end] => destruct x
               end; try discriminate; now injection E as _ <-.
    + destruct (ImagePairService.createImagePair db data uuid now) as [[p|e] db'] eqn:E.
      * apply createImagePair_new in E. now destruct E as (_ & _ & _ & _ & ->).
      * unfold ImagePairService.createImagePair in E.
        repeat match type of E with
               | context [match ?x with _ => _ end] => destruct x
               end; try discriminate; now injection E as _ <-.
  - apply numbered_same_sessions_and_rounds with (db := db); [| |exact Hinv];
      unfold ImagePairService.togglePairActive, Db.updateImagePair;
      destruct (Db.getImagePair db pairId) as [p|] eqn:Hp; try reflexivity;
      unfold Db.getImagePair in Hp; now rewrite Hp.
Qed.

(** X3. Whatever the engine serves, with new identifiers for the sessions and
    the rounds it creates, the rounds of each session stay numbered 1 to
    [rounds_completed] without a gap, so [rounds_completed] is the number of
    rounds recorded for the session. *)
Theorem rounds_stay_numbered db rqs :
  all_new db rqs ->
  rounds_numbered db -> rounds_belong db ->
  rounds_numbered (serve_all db rqs) /\
  rounds_belong (serve_all db rqs) /\
  forall sid s,
    Db.getGameSession (serve_all db rqs) sid = Some s ->
    rounds_completed s = len (Db.getGameRoundsBySession (serve_all db rqs) sid).
Proof.
  intros Hnew Hn Hb.
  assert (H : rounds_numbered (serve_all db rqs) /\ rounds_belong (serve_all db rqs)).
  { revert db Hnew Hn Hb. induction rqs as [|rq rqs IH]; intros db Hnew Hn Hb;
      [now split|].
    cbn in Hnew |- *. destruct Hnew as (Hrq & Hrest).
    destruct (serve_keeps_numbered db rq Hrq (conj Hn Hb)) as (Hn' & Hb').
    now apply IH. }
  destruct H as (Hn' & Hb'). split; [exact Hn'|]. split; [exact Hb'|].
  intros sid s Hs. destruct (Hn' _ _ Hs) as (H0 & Hnum).
  rewrite <- (one_to_length _ H0), <- Hnum. unfold len. now rewrite length_map.
Qed.

Lemma rounds_stay_numbered_witness :
  exists s,
    Db.getGameSession TwoDailies.afterFirst "d1" = Some s /\
    rounds_completed s = 3%Z /\
    List.map round_number (Db.getGameRoundsBySession TwoDailies.afterFirst "d1")
      = [1; 2; 3]%Z.
Proof.
  destruct (rounds_stay_numbered Sample.store
              [Start TwoDailies.alice_daily "d0" 5%Z Sample.today;
               Start TwoDailies.alice_daily "d1" 10%Z Sample.today;
               Submit (Sample.answer "d1" ai 900%float) "d1-1" 11%Z;
               Submit (Sample.answer "d1" real 1500%float) "d1-2" 12%Z;
               Submit (Sample.answer "d1" ai 2500%float) "d1-3" 13%Z])
    as (Hn & _ & _).
  - cbn [all_new draws_new]. repeat split; vm_compute; reflexivity.
  - intros sid s H. discriminate H.
  - intros r [].
  - eexists. split; [vm_compute; reflexivity|].
    split; [reflexivity|].
    destruct (Hn "d1"%string _ ltac:(vm_compute; reflexivity)) as (_ & Hnum).
    vm_compute in Hnum. vm_compute. exact Hnum.
Defined.

End RoundNumbers.

(* ================================================================== *)
(** * Sorting, deleting and keys *)

Section SortedFacts.
Context {A : Type} (after : A -> A -> bool) (R : A -> A -> Prop).
Hypothesis R_trans : forall x y z, R x y -> R y z -> R x z.
Hypothesis after_false : forall x y, after x y = false -> R x y.
Hypothesis after_true : forall x y, after x y = true -> R y x.

Lemma sort_insert_perm x l : Permutation (sort_insert after x l) (x :: l).
Proof.
  induction l as [|y l IH]; cbn; [reflexivity|].
  destruct (after x y); [|reflexivity].
  rewrite IH. apply perm_swap.
Qed.

Lemma Array_sort_perm l : Permutation (Array_sort after l) l.
Proof.
  induction l as [|x l IH]; cbn; [reflexivity|].
  rewrite sort_insert_perm. now constructor.
Qed.

Lemma sort_insert_sorted x l :
  StronglySorted R l -> StronglySorted R (sort_insert after x l).
Proof.
  induction 1 as [|y l Hs IH Hy]; cbn.
  - constructor; constructor.
  - destruct (after x y) eqn:E.
    + constructor; [exact IH|].
      rewrite Forall_forall in *. intros z Hz.
      apply sort_insert_In in Hz. destruct Hz as [->|Hz]; [now apply after_true | auto].
    + constructor; [now constructor|].
      constructor; [now apply after_false|].
      rewrite Forall_forall in *. intros z Hz.
      apply R_trans with y; [now apply after_false | auto].
Qed.

Lemma Array_sort_sorted l : StronglySorted R (Array_sort after l).
Proof.
  induction l as [|x l IH]; cbn; [constructor | now apply sort_insert_sorted].
Qed.
End SortedFacts.

Section DeleteFacts.
Context {V : Type}.
Implicit Types (m : JsMap.t V) (k : string) (v : V).

Lemma get_delete_same m k : JsMap.get (Map_delete m k) k = None.
Proof.
  unfold Map_delete. induction m as [|[k' v'] m IH]; cbn; [reflexivity|].
  destruct (String.eqb k' k) eqn:E; cbn; [exact IH | now rewrite E].
Qed.

Lemma get_delete_other m k k' :
  k <> k' -> JsMap.get (Map_delete m k) k' = JsMap.get m k'.
Proof.
  intros Hne. unfold Map_delete. induction m as [|[k0 v0] m IH]; cbn; [reflexivity|].
  destruct (String.eqb k0 k) eqn:E; cbn.
  - apply String.eqb_eq in E; subst k0.
    apply String.eqb_neq in Hne. now rewrite Hne.
  - now rewrite IH.
Qed.

Lemma delete_absent m k : JsMap.get m k = None -> Map_delete m k = m.
Proof.
  unfold Map_delete. induction m as [|[k' v'] m IH]; cbn; [reflexivity|].
  destruct (String.eqb k' k); [discriminate|]. cbn. intros H. now rewrite IH.
Qed.

Lemma In_delete m k k' v : In (k', v) (Map_delete m k) <-> In (k', v) m /\ k' <> k.
Proof.
  unfold Map_delete. rewrite filter_In. cbn. rewrite negb_true_iff, String.eqb_neq.
  reflexivity.
Qed.

Lemma set_get m k v : JsMap.get m k = Some v -> JsMap.set m k v = m.
Proof.
  induction m as [|[k' v'] m IH]; cbn; [discriminate|].
  destruct (String.eqb k' k) eqn:E.
  - now intros [= ->].
  - intros H. now rewrite IH.
Qed.

Lemma set_set m k v v' : JsMap.set (JsMap.set m k v) k v' = JsMap.set m k v'.
Proof.
  induction m as [|[k0 v0] m IH]; cbn.
  - now rewrite String.eqb_refl.
  - destruct (String.eqb k0 k) eqn:E; cbn; rewrite E; [reflexivity | now rewrite IH].
Qed.

Lemma keys_set m k v :
  List.map fst (JsMap.set m k v)
  = if Map_has m k then List.map fst m else List.map fst m ++ [k].
Proof.
  unfold Map_has. induction m as [|[k0 v0] m IH]; cbn; [reflexivity|].
  destruct (String.eqb k0 k) eqn:E; cbn; [reflexivity|].
  rewrite IH. now destruct (JsMap.get m k).
Qed.

Lemma get_In m k v : JsMap.get m k = Some v -> In (k, v) m.
Proof.
  induction m as [|[k0 v0] m IH]; cbn; [discriminate|].
  destruct (String.eqb k0 k) eqn:E.
  - apply String.eqb_eq in E. intros [= ->]. left. now subst.
  - intros H. right. now apply IH.
Qed.

Lemma get_None_keys m k : JsMap.get m k = None <-> ~ In k (List.map fst m).
Proof.
  induction m as [|[k0 v0] m IH]; cbn; [intuition|].
  destruct (String.eqb k0 k) eqn:E.
  - apply String.eqb_eq in E. split; [discriminate | intros H; exfalso; apply H; now left].
  - apply String.eqb_neq in E. rewrite IH. intuition.
Qed.

Lemma In_get m k v : NoDup (List.map fst m) -> In (k, v) m -> JsMap.get m k = Some v.
Proof.
  induction m as [|[k0 v0] m IH]; cbn; [intros _ []|].
  intros Hnd [H|H]; inversion Hnd as [|? ? Hnot Hnd']; subst.
  - injection H as -> ->. now rewrite String.eqb_refl.
  - destruct (String.eqb k0 k) eqn:E.
    + apply String.eqb_eq in E; subst k0. exfalso. apply Hnot.
      apply in_map_iff. now exists (k, v).
    + now apply IH.
Qed.

Lemma In_set m k v k' v' :
  In (k', v') (JsMap.set m k v) -> (k' = k /\ v' = v) \/ In (k', v') m.
Proof.
  induction m as [|[k0 v0] m IH]; cbn.
  - intros [[= <- <-]|[]]. now left.
  - destruct (String.eqb k0 k) eqn:E; cbn.
    + apply String.eqb_eq in E; subst k0.
      intros [[= <- <-]|H]; [now left | right; now right].
    + intros [H|H]; [right; now left|].
      destruct (IH H) as [?|?]; [now left | right; now right].
Qed.

Lemma keyed_set (key : V -> string) m k v :
  keyed_by key m -> key v = k -> keyed_by key (JsMap.set m k v).
Proof.
  intros (Hnd & Hk) Hv. split.
  - rewrite keys_set. unfold Map_has.
    destruct (JsMap.get m k) eqn:E; [exact Hnd|].
    apply get_None_keys in E.
    apply NoDup_rev in Hnd. rewrite <- (rev_involutive (_ ++ [k])).
    apply NoDup_rev. rewrite rev_app_distr. cbn. constructor; [|exact Hnd].
    now rewrite <- in_rev.
  - intros k' v' H. apply In_set in H. destruct H as [(-> & ->)|H]; [exact Hv | now apply Hk].
Qed.

Lemma keyed_get (key : V -> string) m v :
  keyed_by key m -> In v (JsMap.values m) -> JsMap.get m (key v) = Some v.
Proof.
  intros (Hnd & Hk) Hin. unfold JsMap.values in Hin. apply in_map_iff in Hin.
  destruct Hin as ([k v'] & Hv & Hin). cbn in Hv; subst v'.
  rewrite (Hk _ _ Hin). now apply In_get.
Qed.

Lemma get_values m k v : JsMap.get m k = Some v -> In v (JsMap.values m).
Proof.
  intros H. apply get_In in H. unfold JsMap.values. apply in_map_iff. now exists (k, v).
Qed.
End DeleteFacts.

(* ================================================================== *)
(** * The rounds of a session *)

Section RoundsOfSession.

(** X8. [getGameRoundsBySession] returns the stored rounds of the session and
    no other round, each as often as it is stored, in ascending order of
    their round numbers. *)
Theorem getGameRoundsBySession_sorted db sessionId :
  let rounds := Db.getGameRoundsBySession db sessionId in
  Permutation rounds
    (filter (fun r => String.eqb (r_session_id r) sessionId)
       (JsMap.values (gameRounds db))) /\
  (forall r, In r rounds <->
             In r (JsMap.values (gameRounds db)) /\ r_session_id r = sessionId) /\
  StronglySorted (fun a b => (round_number a <= round_number b)%Z) rounds.
Proof.
  unfold Db.getGameRoundsBySession. cbv zeta. split; [|split].
  - apply Array_sort_perm.
  - intros r. rewrite Array_sort_In, filter_In, String.eqb_eq. reflexivity.
  - apply Array_sort_sorted.
    + intros x y z. lia.
    + intros x y H. apply Z.ltb_ge in H. lia.
    + intros x y H. apply Z.ltb_lt in H. lia.
Qed.

End RoundsOfSession.

(* ================================================================== *)
(** * Deleting and toggling a pair *)

Section PairAdministration.

Import GameService ImagePairService.

(** X9. [deletePair] reports whether the pair was stored; afterwards the pair
    is not found, alone or with its images, every other pair is found as
    before, the images, sessions and rounds are as before (the rounds played
    on the pair included), and a choice submitted on the pair is refused
    without a round being recorded. *)
Theorem deletePair_forgets_the_pair db i :
  let existed := fst (Pairs.deletePair db i) in
  let db' := snd (Pairs.deletePair db i) in
  (existed = true <-> Db.getImagePair db i <> None) /\
  getImagePairById db' i = None /\
  getImagePairWithImages db' i = None /\
  (forall j, j <> i -> getImagePairById db' j = getImagePairById db j) /\
  images db' = images db /\ gameSessions db' = gameSessions db /\
  gameRounds db' = gameRounds db /\
  (forall session choice ms uuid now,
     exists e,
       submitPlayerChoice db'
         {| c_session_id := session; c_pair_id := i; c_player_choice := choice;
            c_response_time := ms |} uuid now = (Throw e, db')).
Proof.
  cbn. unfold getImagePairById, getImagePairWithImages, Db.getImagePair. cbn.
  rewrite get_delete_same. repeat split.
  - unfold Map_has. destruct (JsMap.get (imagePairs db) i); [discriminate|discriminate].
  - unfold Map_has. destruct (JsMap.get (imagePairs db) i); [reflexivity|]. intros H. now elim H.
  - intros j Hj. apply get_delete_other. congruence.
  - intros session choice ms uuid now. unfold submitPlayerChoice. cbn.
    destruct (JsMap.get (gameSessions db) session) as [s|]; [|now eexists].
    destruct (is_completed s); [now eexists|].
    unfold getImagePairById, Db.getImagePair. cbn. rewrite get_delete_same. now eexists.
Qed.

(** X10. [togglePairActive] on a stored pair flips its active flag and
    nothing else; a second toggle returns the pair as it was and leaves the
    store exactly as it was before the first. *)
Theorem togglePairActive_twice db i p :
  Db.getImagePair db i = Some p ->
  exists p',
    fst (togglePairActive db i) = Some p' /\
    is_active p' = negb (is_active p) /\
    same_identity p p' /\
    total_attempts p' = total_attempts p /\ correct_guesses p' = correct_guesses p /\
    success_rate p' = success_rate p /\
    average_response_time p' = average_response_time p /\
    Db.getImagePair (snd (togglePairActive db i)) i = Some p' /\
    togglePairActive (snd (togglePairActive db i)) i = (Some p, db).
Proof.
  intros Hp. unfold togglePairActive, Db.updateImagePair. unfold Db.getImagePair in *.
  rewrite Hp. cbn [fst snd imagePairs Db.with_imagePairs]. eexists.
  split; [reflexivity|].
  split; [reflexivity|]. split; [repeat split|].
  do 4 (split; [reflexivity|]).
  rewrite !get_set_same. split; [reflexivity|].
  rewrite set_set.
  match goal with
  | |- context [spread_pair (spread_pair p ?a) ?b] =>
      replace (spread_pair (spread_pair p a) b) with p
        by (destruct p; cbn; now rewrite negb_involutive)
  end.
  f_equal. rewrite (set_get _ _ p Hp). destruct db; reflexivity.
Qed.

Lemma togglePairActive_twice_witness :
  exists p',
    fst (togglePairActive Sample.store "pair-1") = Some p' /\
    is_active p' = negb (is_active Sample.pair1) /\
    same_identity Sample.pair1 p' /\
    total_attempts p' = total_attempts Sample.pair1 /\
    correct_guesses p' = correct_guesses Sample.pair1 /\
    success_rate p' = success_rate Sample.pair1 /\
    average_response_time p' = average_response_time Sample.pair1 /\
    Db.getImagePair (snd (togglePairActive Sample.store "pair-1")) "pair-1" = Some p' /\
    togglePairActive (snd (togglePairActive Sample.store "pair-1")) "pair-1"
      = (Some Sample.pair1, Sample.store).
Proof.
  apply (togglePairActive_twice Sample.store "pair-1" Sample.pair1).
  reflexivity.
Defined.

End PairAdministration.

(* ================================================================== *)
(** * The pairs under the requests of the engine *)

Section PairsUnderRequests.

Import GameService ImagePairService.

Lemma submit_imagePairs db data uuid now :
  imagePairs (snd (submitPlayerChoice db data uuid now)) = imagePairs db \/
  exists p,
    Db.getImagePair db (c_pair_id data) = Some p /\
    imagePairs (snd (submitPlayerChoice db data uuid now))
    = JsMap.set (imagePairs db) (c_pair_id data)
        (recorded p (PlayerChoice_eqb (c_player_choice data) ai) (c_response_time data)).
Proof.
  destruct (Db.getGameSession db (c_session_id data)) as [s|] eqn:Hs;
    [| unfold submitPlayerChoice; rewrite Hs; now left].
  destruct (is_completed s) eqn:Hc;
    [rewrite (submit_completed _ _ _ _ _ Hs Hc); now left|].
  destruct (Db.getImagePair db (c_pair_id data)) as [p|] eqn:Hp;
    [| unfold submitPlayerChoice, getImagePairById; rewrite Hs, Hc, Hp; now left].
  destruct (submit_step db data uuid now s p Hs Hc Hp)
    as (r & db' & E & _ & _ & _ & _ & _ & _ & Hpairs & _).
  right. exists p. rewrite E. split; [reflexivity | exact Hpairs].
Qed.

Lemma end_imagePairs db sessionId updates now :
  imagePairs (snd (endGameSession db sessionId updates now)) = imagePairs db.
Proof.
  unfold endGameSession, Db.updateGameSession, Db.getGameSession.
  destruct (JsMap.get (gameSessions db) sessionId); reflexivity.
Qed.

Lemma createImagePair_cases db data uuid now :
  snd (createImagePair db data uuid now) = db \/
  exists p, pair_id p = uuid /\
            snd (createImagePair db data uuid now) = Db.createImagePair db p.
Proof.
  destruct (createImagePair db data uuid now) as [[p|e] db'] eqn:E.
  - right. exists p. apply createImagePair_new in E. cbn. intuition.
  - left. revert E. unfold createImagePair.
    destruct (ImageService.getImageById db (c_ai_image_id data)) as [a|];
      [|now intros [= _ <-]].
    destruct (ImageService.getImageById db (c_real_image_id data)) as [r|];
      [|now intros [= _ <-]].
    destruct (Bool.eqb _ _); [now intros [= _ <-]|].
    destruct (negb _); [now intros [= _ <-]|].
    destruct (is_ai_generated r); [now intros [= _ <-]|].
    cbv zeta. destruct (find _ _); [now intros [= _ <-] | discriminate].
Qed.

Lemma same_identity_refl p : same_identity p p.
Proof. repeat split. Qed.

Lemma same_identity_trans p q r :
  same_identity p q -> same_identity q r -> same_identity p r.
Proof. unfold same_identity. intuition congruence. Qed.

(** Replacing the record of a key by one of the same identity. *)
Lemma rewrite_keeps_pairs (m : JsMap.t ImagePair) i p0 p1 :
  keyed_by pair_id m -> JsMap.get m i = Some p0 -> same_identity p0 p1 ->
  keyed_by pair_id (JsMap.set m i p1) /\
  forall k p, JsMap.get m k = Some p ->
              exists q, JsMap.get (JsMap.set m i p1) k = Some q /\ same_identity p q.
Proof.
  intros Hk H0 Hid. split.
  - apply keyed_set; [exact Hk|]. destruct Hid as (-> & _).
    apply (proj2 Hk). now apply get_In.
  - intros k p Hp. rewrite get_set_cases. destruct (String.eqb i k) eqn:E.
    + apply String.eqb_eq in E; subst k. exists p1. split; [reflexivity|]. congruence.
    + exists p. split; [exact Hp | apply same_identity_refl].
Qed.

Lemma serve_keeps_pairs db rq :
  pairs_keyed db ->
  match rq with
  | CreatePair _ uuid _ => Db.getImagePair db uuid = None
  | _ => True
  end ->
  pairs_keyed (serve db rq) /\
  forall k p, Db.getImagePair db k = Some p ->
              exists q, Db.getImagePair (serve db rq) k = Some q /\ same_identity p q.
Proof.
  unfold pairs_keyed, Db.getImagePair. intros Hk Hnew.
  assert (Hsame : forall db', imagePairs db' = imagePairs db ->
            keyed_by pair_id (imagePairs db') /\
            forall k p, JsMap.get (imagePairs db) k = Some p ->
                        exists q, JsMap.get (imagePairs db') k = Some q /\ same_identity p q).
  { intros db' ->. split; [exact Hk|]. intros k p Hp. exists p.
    split; [exact Hp | apply same_identity_refl]. }
  destruct rq as [data uuid now today| sid | data uuid now | sid now | data uuid now | i];
    cbn [serve].
  - destruct (startGameSession_succeeds db data uuid now today) as (s & E & _).
    rewrite E. now apply Hsame.
  - now apply Hsame.
  - destruct (submit_imagePairs db data uuid now) as [E|(p0 & Hp0 & E)];
      [now apply Hsame|].
    rewrite E. apply rewrite_keeps_pairs with p0; [exact Hk | exact Hp0 | repeat split].
  - apply Hsame, end_imagePairs.
  - destruct (createImagePair_cases db data uuid now) as [E|(p0 & Hid & E)];
      rewrite E; [now apply Hsame|].
    unfold Db.createImagePair. cbn [imagePairs Db.with_imagePairs]. rewrite Hid. split.
    + now apply keyed_set.
    + intros k p Hp. exists p. split; [|apply same_identity_refl].
      rewrite get_set_other; [exact Hp|]. unfold Db.getImagePair in Hnew. congruence.
  - unfold togglePairActive, Db.updateImagePair, Db.getImagePair.
    destruct (JsMap.get (imagePairs db) i) as [p0|] eqn:Hp0; [|now apply Hsame].
    cbn [snd imagePairs Db.with_imagePairs].
    apply rewrite_keeps_pairs with p0; [exact Hk | exact Hp0 | repeat split].
Qed.

(** X11. Whatever requests the engine serves, a stored pair stays stored
    under its key with the identifier, the two images, the category, the
    difficulty and the creation date it had, and the pairs stay filed under
    their own identifiers: playing, ending, creating and toggling rewrite the
    statistics and the active flag only. *)
Theorem pairs_keep_their_identity db rqs :
  pairs_keyed db -> new_pair_ids db rqs ->
  pairs_keyed (serve_all db rqs) /\
  forall k p, Db.getImagePair db k = Some p ->
              exists q, Db.getImagePair (serve_all db rqs) k = Some q /\
                        same_identity p q.
Proof.
  unfold serve_all. revert db.
  induction rqs as [|rq rqs IH]; intros db Hk Hnew; cbn [fold_left].
  - split; [exact Hk|]. intros k p Hp. exists p. split; [exact Hp | apply same_identity_refl].
  - destruct Hnew as (Hrq & Hrest).
    destruct (serve_keeps_pairs db rq Hk Hrq) as (Hk1 & Hid1).
    destruct (IH _ Hk1 Hrest) as (Hk2 & Hid2). split; [exact Hk2|].
    intros k p Hp. destruct (Hid1 _ _ Hp) as (q & Hq & Hpq).
    destruct (Hid2 _ _ Hq) as (r & Hr & Hqr). exists r.
    split; [exact Hr | now apply same_identity_trans with q].
Qed.

Lemma pairs_keep_their_identity_witness :
  pairs_keyed (serve_all Sample.store
     [Start {| d_game_mode := streak; d_player_id := Some "alice"%string |}
        "s1" 10%Z Sample.today;
      Submit (Sample.answer "s1" ai 1500%float) "r1" 11%Z;
      TogglePair "pair-1"]) /\
  forall k p, Db.getImagePair Sample.store k = Some p ->
     exists q,
       Db.getImagePair (serve_all Sample.store
         [Start {| d_game_mode := streak; d_player_id := Some "alice"%string |}
            "s1" 10%Z Sample.today;
          Submit (Sample.answer "s1" ai 1500%float) "r1" 11%Z;
          TogglePair "pair-1"]) k = Some q /\ same_identity p q.
Proof.
  apply (pairs_keep_their_identity Sample.store).
  - split.
    + repeat constructor. intros [].
    + intros k v [H|[]]. injection H as <- <-. reflexivity.
  - cbn. tauto.
Defined.

(** The exclusion list of the first two selections of [getNextPairForGame]
    is empty-handed only when every active pair was played. *)
Lemma all_active_pairs_played randomIndex db played :
  (forall n, (0 < n)%nat -> (randomIndex n < n)%nat) ->
  selectPairForGame randomIndex db
    {| s_category := None; s_difficulty := None; excludePairIds := Some played;
       activeOnly := Some true |} = None ->
  forall q, In q (JsMap.values (imagePairs db)) -> is_active q = true ->
            In (pair_id q) played.
Proof.
  intros Hrnd E q Hq Ha. apply (selectPairForGame_None _ _ _ Hrnd) in E.
  destruct (in_dec string_dec (pair_id q) played) as [Hin|Hout]; [exact Hin|].
  exfalso.
  assert (H : In q (availablePairs db
                      {| s_category := None; s_difficulty := None;
                         excludePairIds := Some played; activeOnly := Some true |})).
  { apply availablePairs_meets. split; [exact Hq|]. unfold meets; cbn.
    repeat split; try discriminate; [exact Ha|]. now intros ids [= <-]. }
  rewrite E in H. destruct H.
Qed.

Lemma selected_pair randomIndex db criteria p :
  activeOnly criteria = Some true ->
  selectPairForGame randomIndex db criteria = Some p ->
  In p (JsMap.values (imagePairs db)) /\ is_active p = true /\
  forall ids, excludePairIds criteria = Some ids -> ~ In (pair_id p) ids.
Proof.
  intros Hact E. apply selectPairForGame_In, availablePairs_meets in E.
  destruct E as (Hin & _ & _ & Ha & Hex). rewrite Hact in Ha. auto.
Qed.

(** X12. The pair [getNextPairForGame] serves is a stored pair that is
    active, and its round number is one more than the number of rounds
    played; a pair the session has already played is served again only when
    every active pair of the store has been played in the session. *)
Theorem next_pair_is_active_and_unplayed randomIndex db sessionId np :
  (forall n, (0 < n)%nat -> (randomIndex n < n)%nat) ->
  pairs_keyed db ->
  getNextPairForGame randomIndex db sessionId = Ok np ->
  let served := the_pair (n_pair np) in
  let played := List.map r_pair_id (Db.getGameRoundsBySession db sessionId) in
  In served (JsMap.values (imagePairs db)) /\
  is_active served = true /\
  n_round_number np = (len (Db.getGameRoundsBySession db sessionId) + 1)%Z /\
  (In (pair_id served) played ->
   forall q, In q (JsMap.values (imagePairs db)) -> is_active q = true ->
             In (pair_id q) played).
Proof.
  intros Hrnd Hk. unfold getNextPairForGame.
  destruct (Db.getGameSession db sessionId) as [s|]; [|discriminate].
  destruct (is_completed s); [discriminate|]. cbv zeta.
  set (rounds := Db.getGameRoundsBySession db sessionId).
  set (played := List.map r_pair_id rounds).
  set (d := targetDifficulty db s rounds).
  set (c1 := {| s_category := None; s_difficulty := d;
                excludePairIds := Some played; activeOnly := Some true |}).
  set (c2 := {| s_category := None; s_difficulty := None;
                excludePairIds := Some played; activeOnly := Some true |}).
  set (c3 := {| s_category := None; s_difficulty := d;
                excludePairIds := None; activeOnly := Some true |}).
  set (c4 := {| s_category := None; s_difficulty := None;
                excludePairIds := None; activeOnly := Some true |}).
  set (chosen := if is_none _ then selectPairForGame randomIndex db c4 else _).
  assert (Hchosen : forall p, chosen = Some p ->
            In p (JsMap.values (imagePairs db)) /\ is_active p = true /\
            (In (pair_id p) played ->
             forall q, In q (JsMap.values (imagePairs db)) -> is_active q = true ->
                       In (pair_id q) played)).
  { intros p. subst chosen.
    assert (Hnone : d = None -> c1 = c2) by (intros E; subst c1 c2; now rewrite E).
    destruct (selectPairForGame randomIndex db c1) as [p1|] eqn:E1; cbn [is_none andb].
    - intros [= ->]. destruct (selected_pair _ _ c1 _ eq_refl E1) as (Hin & Ha & Hex).
      split; [exact Hin|]. split; [exact Ha|]. intros Hp. now elim (Hex played eq_refl).
    - assert (Hplayed : (if negb (is_none d) then selectPairForGame randomIndex db c2
                         else None) = None ->
                forall q, In q (JsMap.values (imagePairs db)) -> is_active q = true ->
                          In (pair_id q) played).
      { destruct d as [dv|] eqn:Ed; cbn [is_none negb]; intros E2.
        - now apply (all_active_pairs_played randomIndex db played Hrnd).
        - rewrite (Hnone eq_refl) in E1.
          now apply (all_active_pairs_played randomIndex db played Hrnd). }
      destruct (if negb (is_none d) then selectPairForGame randomIndex db c2 else None)
        as [p2|] eqn:E2.
      + assert (E2' : selectPairForGame randomIndex db c2 = Some p2)
          by (destruct (negb (is_none d)); [exact E2 | discriminate]).
        replace (if negb (is_none d) then selectPairForGame randomIndex db c2 else None)
          with (Some p2) in *.
        cbn [is_none]. intros [= ->].
        destruct (selected_pair _ _ c2 _ eq_refl E2') as (Hin & Ha & Hex).
        split; [exact Hin|]. split; [exact Ha|]. intros Hp. now elim (Hex played eq_refl).
      + specialize (Hplayed eq_refl).
        replace (if negb (is_none d) then selectPairForGame randomIndex db c2 else None)
          with (@None ImagePair) in *.
        cbn [is_none].
        destruct (selectPairForGame randomIndex db c3) as [p3|] eqn:E3; cbn [is_none].
        * intros [= ->]. destruct (selected_pair _ _ c3 _ eq_refl E3) as (Hin & Ha & _).
          auto.
        * intros E4. destruct (selected_pair _ _ c4 _ eq_refl E4) as (Hin & Ha & _).
          auto. }
  destruct chosen as [p|] eqn:Ec.
  - destruct (Hchosen p eq_refl) as (Hin & Ha & Hpl).
    unfold getImagePairWithImages, Db.getImagePair.
    rewrite (keyed_get pair_id _ _ Hk Hin).
    destruct (ImageService.getImageById db (ai_image_id p)); [|discriminate].
    destruct (ImageService.getImageById db (real_image_id p)); [|discriminate].
    intros [= <-]. cbn. auto.
  - destruct (len _ =? 0)%Z; discriminate.
Qed.

Lemma next_pair_is_active_and_unplayed_witness :
  match getNextPairForGame (fun _ => 0%nat) (Sample.started streak "s1") "s1" with
  | Ok np =>
      In (the_pair (n_pair np)) (JsMap.values (imagePairs (Sample.started streak "s1"))) /\
      is_active (the_pair (n_pair np)) = true /\
      n_round_number np
        = (len (Db.getGameRoundsBySession (Sample.started streak "s1") "s1") + 1)%Z /\
      (In (pair_id (the_pair (n_pair np)))
          (List.map r_pair_id (Db.getGameRoundsBySession (Sample.started streak "s1") "s1")) ->
       forall q, In q (JsMap.values (imagePairs (Sample.started streak "s1"))) ->
                 is_active q = true ->
                 In (pair_id q)
                   (List.map r_pair_id
                      (Db.getGameRoundsBySession (Sample.started streak "s1") "s1")))
  | Throw _ => False
  end.
Proof.
  destruct (getNextPairForGame (fun _ => 0%nat) (Sample.started streak "s1") "s1")
    as [np|e] eqn:E.
  - apply (next_pair_is_active_and_unplayed (fun _ => 0%nat)
             (Sample.started streak "s1") "s1" np).
    + intros n Hn. exact Hn.
    + split.
      * repeat constructor. intros [].
      * intros k v [H|[]]. injection H as <- <-. reflexivity.
    + exact E.
  - vm_compute in E. discriminate.
Defined.

End PairsUnderRequests.

(* ================================================================== *)
(** * The leaderboard in general *)

Section LeaderboardShape.

Import GameService.
Open Scope float_scope.

Lemma filter_filter_andb {A} (f g : A -> bool) l :
  filter g (filter f l) = filter (fun x => f x && g x) l.
Proof.
  induction l as [|x l IH]; cbn; [reflexivity|].
  destruct (f x); cbn; [destruct (g x); now rewrite IH | exact IH].
Qed.

Lemma In_set_NoDup {V} (m : JsMap.t V) k v k' v' :
  NoDup (List.map fst (JsMap.set m k v)) ->
  In (k', v') (JsMap.set m k v) ->
  (k' = k /\ v' = v) \/ (k' <> k /\ In (k', v') m).
Proof.
  intros Hnd Hin. apply (In_get _ _ _ Hnd) in Hin. rewrite get_set_cases in Hin.
  destruct (String.eqb k k') eqn:E.
  - apply String.eqb_eq in E. left. split; congruence.
  - apply String.eqb_neq in E. right. split; [congruence | now apply get_In].
Qed.

Lemma NoDup_keys_set {V} (m : JsMap.t V) k v :
  NoDup (List.map fst m) -> NoDup (List.map fst (JsMap.set m k v)).
Proof.
  intros Hnd. rewrite keys_set. unfold Map_has.
  destruct (JsMap.get m k) eqn:E; [exact Hnd|].
  apply get_None_keys in E.
  apply NoDup_rev in Hnd. rewrite <- (rev_involutive (_ ++ [k])).
  apply NoDup_rev. rewrite rev_app_distr. cbn. constructor; [|exact Hnd].
  now rewrite <- in_rev.
Qed.

Lemma recordSession_entry m s :
  exists e,
    recordSession m s = JsMap.set m (player_key s) e /\
    e_player_id e = match JsMap.get m (player_key s) with
                    | Some ex => if best_score ex <? total_score s
                                 then player_key s else e_player_id ex
                    | None => player_key s
                    end /\
    total_games e = match JsMap.get m (player_key s) with
                    | Some ex => (total_games ex + 1)%Z
                    | None => 1%Z
                    end /\
    (best_score e = total_score s \/
     exists ex, JsMap.get m (player_key s) = Some ex /\ best_score e = best_score ex).
Proof.
  unfold recordSession. fold (player_key s).
  destruct (JsMap.get m (player_key s)) as [ex|] eqn:E.
  - destruct (best_score ex <? total_score s).
    + eexists. split; [reflexivity|]. cbn. split; [reflexivity|]. split; [|now left].
      destruct (total_games ex =? 0)%Z eqn:Ez; [|reflexivity].
      apply Z.eqb_eq in Ez. now rewrite Ez.
    + eexists. split; [reflexivity|]. cbn. split; [reflexivity|]. split; [reflexivity|].
      right. now exists ex.
  - eexists. split; [reflexivity|]. cbn. repeat split. now left.
Qed.

Lemma recordSession_table done m s :
  table_of done m -> table_of (done ++ [s]) (recordSession m s).
Proof.
  intros (Hnd & Hcov & Hent).
  destruct (recordSession_entry m s) as (e & -> & Hid & Htg & Hbest).
  assert (Hnd' := NoDup_keys_set m (player_key s) e Hnd).
  split; [exact Hnd'|]. split.
  - intros s' Hs'. apply in_app_iff in Hs'. rewrite keys_set. unfold Map_has.
    destruct Hs' as [Hs'|[<-|[]]].
    + destruct (JsMap.get m (player_key s)); [now apply Hcov|].
      apply in_app_iff. left. now apply Hcov.
    + destruct (JsMap.get m (player_key s)) eqn:E.
      * destruct (in_dec string_dec (player_key s) (List.map fst m)) as [H|H]; [exact H|].
        apply get_None_keys in H. congruence.
      * apply in_app_iff. right. now left.
  - intros k e' Hin. apply (In_set_NoDup _ _ _ _ _ Hnd') in Hin.
    rewrite filter_app. cbn [filter].
    destruct Hin as [(-> & ->)|(Hne & Hin)].
    + rewrite String.eqb_refl.
      destruct (JsMap.get m (player_key s)) as [ex|] eqn:E.
      * apply get_In in E. destruct (Hent _ _ E) as (Hi & Ht & s0 & Hs0 & Hk0 & Hb0).
        split; [rewrite Hid; now destruct (best_score ex <? total_score s)|].
        split.
        { rewrite Htg, Ht. unfold len. rewrite length_app. cbn. lia. }
        destruct Hbest as [Hb|(ex' & Hex' & Hb)].
        { exists s. split; [apply in_app_iff; right; now left | auto]. }
        { exists s0. split; [apply in_app_iff; now left|]. split; [exact Hk0|].
          apply (In_get _ _ _ Hnd) in E. congruence. }
      * split; [exact Hid|]. split.
        { rewrite Htg. rewrite filter_none; [reflexivity|].
          intros s' Hs'. apply String.eqb_neq. intros Heq.
          apply Hcov in Hs'. rewrite Heq in Hs'. apply get_None_keys in E. contradiction. }
        destruct Hbest as [Hb|(ex' & Hex' & _)]; [|discriminate].
        exists s. split; [apply in_app_iff; right; now left | auto].
    + destruct (Hent _ _ Hin) as (Hi & Ht & s0 & Hs0 & Hk0 & Hb0).
      split; [exact Hi|]. split.
      * assert (String.eqb (player_key s) k = false) as -> by (apply String.eqb_neq; congruence).
        now rewrite app_nil_r.
      * exists s0. split; [apply in_app_iff; now left | auto].
Qed.

Lemma fold_recordSession_table l done m :
  table_of done m -> table_of (done ++ l) (fold_left recordSession l m).
Proof.
  revert done m. induction l as [|s l IH]; intros done m H; cbn [fold_left].
  - now rewrite app_nil_r.
  - replace (done ++ s :: l) with ((done ++ [s]) ++ l) by now rewrite <- app_assoc.
    apply IH. now apply recordSession_table.
Qed.

Lemma addRanks_ranks i l :
  List.map rank (addRanks i l) = List.map (Z.add i) (one_to (len l)).
Proof.
  revert i. induction l as [|p l IH]; intros i; [reflexivity|].
  cbn [addRanks List.map]. rewrite IH. unfold one_to, len.
  cbn [List.length]. rewrite Nat2Z.id. rewrite Nat2Z.id.
  cbn [seq List.map rank]. f_equal; try lia.
  rewrite <- (seq_shift (List.length l) 1), !map_map. apply map_ext. intros a. lia.
Qed.

Lemma addRanks_players i l : List.map player (addRanks i l) = l.
Proof.
  revert i. induction l as [|p l IH]; intros i; cbn; [reflexivity | now rewrite IH].
Qed.

Lemma NoDup_firstn {A} (n : nat) (l : list A) : NoDup l -> NoDup (firstn n l).
Proof.
  intros H. rewrite <- (firstn_skipn n l) in H. now apply NoDup_app_remove_r in H.
Qed.

Lemma NoDup_skipn {A} (n : nat) (l : list A) : NoDup l -> NoDup (skipn n l).
Proof.
  intros H. rewrite <- (firstn_skipn n l) in H. now apply NoDup_app_remove_l in H.
Qed.

Lemma Array_slice_from_0 {A} (l : list A) (e : Z) :
  (0 <= e)%Z -> Array_slice l 0 e = firstn (Z.to_nat e) l.
Proof.
  intros He. unfold Array_slice.
  assert ((0 <? 0)%Z = false) as -> by reflexivity.
  assert ((e <? 0)%Z = false) as -> by (apply Z.ltb_ge; lia).
  rewrite Z.min_l by (unfold len; lia). cbn [Z.to_nat skipn].
  destruct (Z.min_spec e (len l)) as [(_ & ->)|(Hle & ->)]; [reflexivity|].
  unfold len. rewrite Nat2Z.id, firstn_all.
  symmetry. apply firstn_all2. unfold len in Hle. lia.
Qed.

(** X13. The leaderboard computed from a list of sessions: the ranks are 1,
    2, ... in order; with a limit that is not negative there are at most
    that many rows (10 without a limit); no player has two rows; a row
    belongs to a player with a counted session, its number of games is the
    number of counted sessions of the player (an absent or empty player
    counting as "anonymous"), and its best score is the score of one of
    them. *)
Theorem leaderboardOf_shape sessions gameMode limit :
  let board := leaderboardOf sessions gameMode limit in
  List.map rank board = one_to (len board) /\
  ((0 <= or_else limit 10)%Z -> (len board <= or_else limit 10)%Z) /\
  NoDup (List.map (fun e => e_player_id (player e)) board) /\
  forall e, In e board ->
    let games := games_of gameMode sessions (e_player_id (player e)) in
    total_games (player e) = len games /\
    (1 <= total_games (player e))%Z /\
    exists s, In s games /\ best_score (player e) = total_score s.
Proof.
  unfold leaderboardOf. cbv zeta.
  set (counted := match gameMode with
                  | Some m => filter (fun s => GameMode_eqb (game_mode s) m)
                                (filter is_completed sessions)
                  | None => filter is_completed sessions
                  end).
  assert (Hcounted : counted = filter (listed gameMode) sessions).
  { subst counted. unfold listed. destruct gameMode as [m|].
    - apply filter_filter_andb.
    - apply filter_ext. intros s. now rewrite andb_true_r. }
  set (m := fold_left recordSession counted JsMap.empty).
  assert (Ht : table_of counted m).
  { apply (fold_recordSession_table counted [] JsMap.empty).
    split; [constructor|]. split; [intros s []|intros k e []]. }
  destruct Ht as (Hnd & _ & Hent).
  set (sorted := Array_sort (fun a b => 0 <? best_score b - best_score a) (JsMap.values m)).
  set (rows := Array_slice sorted 0 (or_else limit 10%Z)).
  assert (Hrows : forall p, In p rows -> exists k, In (k, p) m).
  { intros p Hp. apply Array_slice_In in Hp. apply Array_sort_In in Hp.
    unfold JsMap.values in Hp. apply in_map_iff in Hp.
    destruct Hp as ([k p'] & Hp' & Hin). cbn in Hp'; subst p'. now exists k. }
  assert (Hids : List.map e_player_id (JsMap.values m) = List.map fst m).
  { unfold JsMap.values. rewrite map_map. apply map_ext_in.
    intros [k e] Hin. cbn. now destruct (Hent _ _ Hin). }
  split; [|split; [|split]].
  - rewrite addRanks_ranks.
    assert (Hlen : len (addRanks 0 rows) = len rows).
    { unfold len. now rewrite <- (length_map player (addRanks 0 rows)), addRanks_players. }
    rewrite Hlen. rewrite <- (map_id (one_to (len rows))) at 2.
    apply map_ext. intros a. lia.
  - intros Hl. unfold len. rewrite <- (length_map player), addRanks_players.
    subst rows. rewrite Array_slice_from_0 by exact Hl.
    rewrite length_firstn. lia.
  - rewrite <- (map_map player e_player_id), addRanks_players.
    assert (Hs : NoDup (List.map e_player_id sorted)).
    { apply Permutation_NoDup with (List.map e_player_id (JsMap.values m)).
      - apply Permutation_map. symmetry. apply Array_sort_perm.
      - now rewrite Hids. }
    subst rows. unfold Array_slice. rewrite <- skipn_map, <- firstn_map.
    now apply NoDup_skipn, NoDup_firstn.
  - intros e He. cbv zeta. unfold games_of. rewrite <- Hcounted.
    assert (Hp : In (player e) rows).
    { rewrite <- (addRanks_players 0 rows). now apply in_map. }
    destruct (Hrows _ Hp) as (k & Hin).
    destruct (Hent _ _ Hin) as (Hi & Htg & s & Hs & Hk & Hb).
    rewrite Hi. split; [exact Htg|].
    assert (Hg : In s (filter (fun s0 => String.eqb (player_key s0) k) counted)).
    { apply filter_In. split; [exact Hs | now apply String.eqb_eq]. }
    split.
    + rewrite Htg. unfold len.
      destruct (filter (fun s0 => String.eqb (player_key s0) k) counted); [destruct Hg|].
      cbn [List.length]. lia.
    + now exists s.
Qed.

End LeaderboardShape.

(* ================================================================== *)
(** * The daily challenges *)

Section DailyChallenges.

Import DailyChallengeService.

Lemma find_set_new {V} (f : V -> bool) (m : JsMap.t V) k v :
  find f (JsMap.values m) = None -> f v = true ->
  find f (JsMap.values (JsMap.set m k v)) = Some v.
Proof.
  unfold JsMap.values. intros Hnone Hv.
  induction m as [|[k0 v0] m IH]; cbn in *; [now rewrite Hv|].
  destruct (f v0) eqn:E0; [discriminate|].
  destruct (String.eqb k0 k); cbn.
  - now rewrite Hv.
  - rewrite E0. now apply IH.
Qed.

Lemma count_set {V} (f : V -> bool) (m : JsMap.t V) k v :
  (len (filter f (JsMap.values (JsMap.set m k v)))
   <= len (filter f (JsMap.values m)) + (if f v then 1 else 0))%Z.
Proof.
  unfold JsMap.values, len.
  induction m as [|[k0 v0] m IH]; cbn.
  - destruct (f v); cbn; lia.
  - destruct (String.eqb k0 k); cbn.
    + destruct (f v), (f v0); cbn; lia.
    + destruct (f v0); cbn; destruct (f v); lia.
Qed.

Lemma count_replace {V} (f : V -> bool) (m : JsMap.t V) k v v' :
  JsMap.get m k = Some v -> (f v' = true -> f v = true) ->
  (len (filter f (JsMap.values (JsMap.set m k v')))
   <= len (filter f (JsMap.values m)))%Z.
Proof.
  unfold JsMap.values, len. intros Hget Himp.
  induction m as [|[k0 v0] m IH]; cbn in *; [discriminate|].
  destruct (String.eqb k0 k); cbn.
  - injection Hget as ->. destruct (f v') eqn:E'.
    + rewrite (Himp eq_refl). cbn. lia.
    + destruct (f v); cbn; lia.
  - specialize (IH Hget). destruct (f v0); cbn; lia.
Qed.

Lemma count_delete {V} (f : V -> bool) (m : JsMap.t V) k :
  (len (filter f (JsMap.values (Map_delete m k))) <= len (filter f (JsMap.values m)))%Z.
Proof.
  unfold JsMap.values, Map_delete, len.
  induction m as [|[k0 v0] m IH]; cbn; [lia|].
  destruct (String.eqb k0 k); cbn; destruct (f v0); cbn; lia.
Qed.

Lemma find_none_count {A} (f : A -> bool) l : find f l = None -> filter f l = [].
Proof.
  induction l as [|x l IH]; cbn; [reflexivity|].
  destruct (f x); [discriminate | exact IH].
Qed.

(** X14. [createDailyChallenge] is refused, with the store untouched, exactly
    when the date has an active challenge.  Otherwise it files an active
    challenge of the date under the new identifier, [getDailyChallengeByDate]
    then returns this challenge, and every later creation for the date is
    refused. *)
Theorem createDailyChallenge_once_per_date dailyChallenges data uuid now :
  match getDailyChallengeByDate dailyChallenges (cd_date data) with
  | Some _ =>
      createDailyChallenge dailyChallenges data uuid now
      = (Refused ("Daily challenge already exists for " ++ cd_date data)%string,
         dailyChallenges)
  | None =>
      exists c,
        createDailyChallenge dailyChallenges data uuid now
          = (Created c, JsMap.set dailyChallenges uuid c) /\
        ch_id c = uuid /\ ch_date c = cd_date data /\ ch_is_active c = true /\
        ch_created_at c = now /\
        JsMap.get (JsMap.set dailyChallenges uuid c) uuid = Some c /\
        getDailyChallengeByDate (JsMap.set dailyChallenges uuid c) (cd_date data) = Some c /\
        forall title description level category points uuid' now',
          createDailyChallenge (JsMap.set dailyChallenges uuid c)
            {| cd_date := cd_date data; cd_title := title;
               cd_description := description; cd_difficulty_level := level;
               cd_category := category; cd_points_reward := points |} uuid' now'
          = (Refused ("Daily challenge already exists for " ++ cd_date data)%string,
             JsMap.set dailyChallenges uuid c)
  end.
Proof.
  unfold createDailyChallenge.
  destruct (getDailyChallengeByDate dailyChallenges (cd_date data)) eqn:E; [reflexivity|].
  eexists. split; [reflexivity|]. cbn [ch_id ch_date ch_is_active ch_created_at].
  do 4 (split; [reflexivity|]). split; [apply get_set_same|].
  match goal with
  | |- getDailyChallengeByDate ?m ?d = Some ?c /\ _ =>
      assert (Hfound : getDailyChallengeByDate m d = Some c)
  end.
  { unfold getDailyChallengeByDate in *. cbv zeta in *.
    apply find_set_new; [exact E|]. cbn. now rewrite String.eqb_refl. }
  split; [exact Hfound|]. intros. cbn [cd_date]. now rewrite Hfound.
Qed.

Lemma serve_challenge_keeps_one dailyChallenges rq :
  keeps_dates rq ->
  one_active_per_date dailyChallenges ->
  one_active_per_date (serve_challenge dailyChallenges rq).
Proof.
  intros Hrq Hone date. specialize (Hone date).
  destruct rq as [data uuid now|i updates now|i]; cbn [serve_challenge].
  - unfold createDailyChallenge.
    destruct (getDailyChallengeByDate dailyChallenges (cd_date data)) eqn:E; [exact Hone|].
    cbn [snd ch_id].
    match goal with |- context [JsMap.set _ _ ?c] => set (new := c) end.
    pose proof (count_set (active_on date) dailyChallenges uuid new) as Hc.
    destruct (active_on date new) eqn:Ea; [|lia].
    unfold active_on in Ea. cbn in Ea. rewrite andb_true_r in Ea.
    apply String.eqb_eq in Ea. subst date.
    unfold getDailyChallengeByDate in E. cbv zeta in E.
    apply find_none_count in E. unfold active_on in Hc at 2. rewrite E in Hc.
    exact Hc.
  - unfold updateDailyChallenge.
    destruct (JsMap.get dailyChallenges i) as [c|] eqn:E; [|exact Hone].
    cbn [snd]. destruct Hrq as (Hd & Ha).
    etransitivity; [|exact Hone].
    apply count_replace with c; [exact E|].
    unfold active_on. cbn. rewrite Hd. cbn.
    destruct (uc_is_active updates) as [[|]|]; cbn; [congruence | | trivial].
    rewrite andb_false_r. discriminate.
  - cbn [deleteDailyChallenge snd]. etransitivity; [apply count_delete | exact Hone].
Qed.

(** X15. If every date has at most one active challenge, it stays so under
    creations, deletions, and the updates that neither change the date nor
    activate a challenge. *)
Theorem one_active_challenge_per_date dailyChallenges rqs :
  one_active_per_date dailyChallenges ->
  Forall keeps_dates rqs ->
  one_active_per_date (fold_left serve_challenge rqs dailyChallenges).
Proof.
  revert dailyChallenges. induction rqs as [|rq rqs IH]; intros m Hone Hall; cbn.
  - exact Hone.
  - inversion Hall as [|? ? Hrq Hrest]; subst. apply IH; [|exact Hrest].
    now apply serve_challenge_keeps_one.
Qed.

Lemma one_active_challenge_per_date_witness :
  one_active_per_date
    (fold_left serve_challenge
       [CreateChallenge Challenges.newYear "c1" 1%Z;
        CreateChallenge Challenges.newYear "c2" 2%Z;
        UpdateChallenge "c1" (Challenges.retitle "Happy new year") 3%Z;
        CreateChallenge Challenges.second "c3" 4%Z;
        DeleteChallenge "c3"]
       JsMap.empty).
Proof.
  apply (one_active_challenge_per_date JsMap.empty).
  - intros date. cbn. lia.
  - repeat constructor; cbn; discriminate.
Defined.

(** An update that moves a challenge to a date that has one leaves the date
    with two active challenges; [getDailyChallengeByDate] returns the older
    entry. *)
Example update_can_double_a_date :
  let m :=
    fold_left serve_challenge
      [CreateChallenge Challenges.newYear "c1" 1%Z;
       CreateChallenge Challenges.second "c2" 2%Z;
       UpdateChallenge "c2" (Challenges.move_to "2026-01-01") 3%Z]
      JsMap.empty in
  List.map ch_id (filter (active_on "2026-01-01") (JsMap.values m)) = ["c1"; "c2"]%string /\
  option_map ch_id (getDailyChallengeByDate m "2026-01-01") = Some "c1"%string.
Proof. vm_compute. split; reflexivity. Qed.

End DailyChallenges.

(* ================================================================== *)
(** * The rate limit *)

Section RateLimit.

Import Auth.

Lemma requests_in_window store clientIP c r later :
  JsMap.get store (key_of clientIP) = Some {| count := c; resetTime := r |} ->
  Forall (fun t => (t <= r)%Z) later ->
  (1 <= c <= maxRequests)%Z ->
  let outcomes := fst (requests store clientIP later) in
  let store' := snd (requests store clientIP later) in
  (forall i o, nth_error outcomes i = Some o ->
     exists t, nth_error later i = Some t /\
       o = if (c + Z.of_nat i <? maxRequests)%Z then Next
           else TooManyRequests (Math_ceil (num (r - t) / 1000)%float)) /\
  len outcomes = len later /\
  len (filter is_next outcomes) = Z.min (len later) (maxRequests - c) /\
  JsMap.get store' (key_of clientIP)
    = Some {| count := Z.min (c + len later) maxRequests; resetTime := r |} /\
  (forall k, k <> key_of clientIP -> JsMap.get store' k = JsMap.get store k).
Proof.
  revert store c. induction later as [|t later IH]; intros store c Hget Hall Hc; cbn zeta.
  - cbn [requests fst snd]. split; [intros [|i] o; discriminate|].
    split; [reflexivity|].
    split; [unfold len; cbn [List.length filter Z.of_nat]; lia|]. split; [|reflexivity].
    rewrite Hget. do 2 f_equal. unfold len. cbn [List.length Z.of_nat]. lia.
  - inversion Hall as [|? ? Ht Hlater]; subst.
    cbn [requests].
    assert (Hstep : adminRateLimit store clientIP t
              = if (c <? maxRequests)%Z
                then (Next, JsMap.set store (key_of clientIP)
                              {| count := c + 1; resetTime := r |})
                else (TooManyRequests (Math_ceil (num (r - t) / 1000)%float), store)).
    { unfold adminRateLimit. cbv zeta. rewrite Hget. cbn [resetTime count].
      assert ((r <? t)%Z = false) as -> by (apply Z.ltb_ge; lia). reflexivity. }
    rewrite Hstep. clear Hstep.
    destruct (c <? maxRequests)%Z eqn:Elt.
    + apply Z.ltb_lt in Elt.
      set (store1 := JsMap.set store (key_of clientIP) _).
      assert (Hget1 : JsMap.get store1 (key_of clientIP)
                      = Some {| count := c + 1; resetTime := r |})
        by apply get_set_same.
      specialize (IH store1 (c + 1)%Z Hget1 Hlater ltac:(lia)). cbv zeta in IH.
      destruct (requests store1 clientIP later) as [outs store2]. cbn [fst snd] in *.
      destruct IH as (Hnth & Hlen & Hcnt & Hrec & Hother).
      split; [|split; [|split; [|split]]].
      * intros [|i] o; cbn [nth_error].
        { intros [= <-]. exists t. split; [reflexivity|].
          assert ((c + Z.of_nat 0 <? maxRequests)%Z = true) as ->
            by (apply Z.ltb_lt; lia). reflexivity. }
        { intros Ho. destruct (Hnth _ _ Ho) as (t' & Ht' & ->). exists t'.
          split; [exact Ht'|].
          now replace (c + Z.of_nat (S i))%Z with (c + 1 + Z.of_nat i)%Z by lia. }
      * unfold len in *. cbn [List.length]. lia.
      * cbn [filter is_next]. unfold len in *. cbn [List.length]. lia.
      * rewrite Hrec. do 2 f_equal. unfold len. cbn [List.length]. lia.
      * intros k Hk. rewrite (Hother k Hk). subst store1.
        apply get_set_other. congruence.
    + apply Z.ltb_ge in Elt. assert (c = maxRequests) by lia. subst c.
      specialize (IH store maxRequests Hget Hlater Hc). cbv zeta in IH.
      destruct (requests store clientIP later) as [outs store2]. cbn [fst snd] in *.
      destruct IH as (Hnth & Hlen & Hcnt & Hrec & Hother).
      split; [|split; [|split; [|split]]].
      * intros [|i] o; cbn [nth_error].
        { intros [= <-]. exists t. split; [reflexivity|]. reflexivity. }
        { intros Ho. destruct (Hnth _ _ Ho) as (t' & Ht' & ->). exists t'.
          split; [exact Ht'|].
          assert ((maxRequests + Z.of_nat i <? maxRequests)%Z = false) as ->
            by (apply Z.ltb_ge; lia).
          assert ((maxRequests + Z.of_nat (S i) <? maxRequests)%Z = false) as ->
            by (apply Z.ltb_ge; lia).
          reflexivity. }
      * unfold len in *. cbn [List.length]. lia.
      * cbn [filter is_next]. unfold len in *. lia.
      * rewrite Hrec. do 2 f_equal. unfold len. cbn [List.length]. lia.
      * exact Hother.
Qed.

(** X16. A client without an open window sends requests at the times
    [now :: later], none of the later ones after the window of 15 minutes
    that the first one opens.  Then the first 50 requests pass and every
    further one is refused with the seconds left until the window closes,
    rounded up; the record of the client counts the requests passed, and the
    records of the other clients are not touched. *)
Theorem adminRateLimit_window store clientIP now later :
  no_open_window store clientIP now ->
  Forall (fun t => (t <= now + windowMs)%Z) later ->
  let outcomes := fst (requests store clientIP (now :: later)) in
  let store' := snd (requests store clientIP (now :: later)) in
  (forall i o, nth_error outcomes i = Some o ->
     exists t, nth_error (now :: later) i = Some t /\
       o = if (Z.of_nat i <? 50)%Z then Next
           else TooManyRequests (Math_ceil (num (now + windowMs - t) / 1000)%float)) /\
  len outcomes = (1 + len later)%Z /\
  len (filter is_next outcomes) = Z.min (1 + len later) 50 /\
  JsMap.get store' (key_of clientIP)
    = Some {| count := Z.min (1 + len later) 50; resetTime := now + windowMs |} /\
  (forall k, k <> key_of clientIP -> JsMap.get store' k = JsMap.get store k).
Proof.
  intros Hopen Hall. cbv zeta. cbn [requests].
  assert (Hstep : adminRateLimit store clientIP now
            = (Next, JsMap.set store (key_of clientIP)
                       {| count := 1; resetTime := now + windowMs |})).
  { unfold adminRateLimit. cbv zeta. unfold no_open_window in Hopen.
    destruct (JsMap.get store (key_of clientIP)) as [record|]; [|reflexivity].
    apply Z.ltb_lt in Hopen. now rewrite Hopen. }
  rewrite Hstep. clear Hstep.
  set (store1 := JsMap.set store (key_of clientIP) _).
  assert (Hget1 : JsMap.get store1 (key_of clientIP)
                  = Some {| count := 1; resetTime := now + windowMs |})
    by apply get_set_same.
  pose proof (requests_in_window store1 clientIP 1%Z (now + windowMs)%Z later Hget1 Hall
                ltac:(unfold maxRequests; lia)) as H.
  cbv zeta in H.
  destruct (requests store1 clientIP later) as [outs store2]. cbn [fst snd] in *.
  destruct H as (Hnth & Hlen & Hcnt & Hrec & Hother).
  unfold maxRequests in *.
  split; [|split; [|split; [|split]]].
  - intros [|i] o; cbn [nth_error].
    + intros [= <-]. exists now. split; reflexivity.
    + intros Ho. destruct (Hnth _ _ Ho) as (t' & Ht' & ->). exists t'.
      split; [exact Ht'|].
      now replace (Z.of_nat (S i)) with (1 + Z.of_nat i)%Z by lia.
  - unfold len in *. cbn [List.length]. lia.
  - cbn [filter is_next]. unfold len in *. cbn [List.length]. lia.
  - rewrite Hrec. do 2 f_equal; lia.
  - intros k Hk. rewrite (Hother k Hk). subst store1. apply get_set_other. congruence.
Qed.

Lemma adminRateLimit_window_witness :
  len (filter is_next
         (fst (requests JsMap.empty (Some "10.0.0.1"%string) [0; 1000; 900000]%Z)))
  = Z.min (1 + len [1000; 900000]%Z) 50.
Proof.
  apply (adminRateLimit_window JsMap.empty (Some "10.0.0.1"%string) 0%Z
           [1000; 900000]%Z).
  - exact I.
  - repeat constructor; unfold windowMs; lia.
Defined.

End RateLimit.

(* ================================================================== *)
(** * Metadata from a file name *)

Section FilenameMetadata.

Open Scope string_scope.

Lemma append_assoc (a b c : string) : (a ++ b) ++ c = a ++ (b ++ c).
Proof. induction a as [|x a IH]; cbn; [reflexivity | now rewrite IH]. Qed.

Lemma prefix_append sub b : String.prefix sub (sub ++ b) = true.
Proof.
  induction sub as [|x sub IH]; cbn; [now destruct b|].
  destruct (Ascii.ascii_dec x x); [exact IH | contradiction].
Qed.

Lemma prefix_elim sub s : String.prefix sub s = true -> exists b, s = sub ++ b.
Proof.
  revert s. induction sub as [|x sub IH]; intros s.
  - intros _. now exists s.
  - destruct s as [|y s]; cbn; [discriminate|].
    destruct (Ascii.ascii_dec x y) as [->|]; [|discriminate].
    intros H. destruct (IH _ H) as (b & ->). now exists b.
Qed.

Lemma includes_append a sub b : includes (a ++ sub ++ b) sub = true.
Proof.
  induction a as [|x a IH].
  - cbn [append]. pose proof (prefix_append sub b) as H.
    destruct (sub ++ b); cbn [includes]; now rewrite H.
  - cbn [append includes]. rewrite IH. apply orb_true_r.
Qed.

Lemma includes_elim s sub :
  includes s sub = true -> exists a b, s = a ++ sub ++ b.
Proof.
  induction s as [|x s IH]; cbn [includes].
  - rewrite orb_false_r. intros H. apply prefix_elim in H. destruct H as (b & ->).
    now exists EmptyString, b.
  - intros H. apply orb_true_iff in H. destruct H as [H|H].
    + apply prefix_elim in H. destruct H as (b & ->). now exists EmptyString, b.
    + destruct (IH H) as (a & b & ->). now exists (String x a), b.
Qed.

Lemma includes_trans s t u :
  includes s t = true -> includes t u = true -> includes s u = true.
Proof.
  intros Hs Ht. apply includes_elim in Hs, Ht.
  destruct Hs as (a & b & ->). destruct Ht as (c & d & ->).
  replace (a ++ (c ++ u ++ d) ++ b) with ((a ++ c) ++ u ++ (d ++ b))
    by now rewrite !append_assoc.
  apply includes_append.
Qed.

(** X17. [extractMetadataFromFilename] marks an image as AI-generated as
    soon as its lower-cased file name contains "portrait", since "portrait"
    contains "ai": the defaults and the words "real", "photo" and "camera"
    in the name are then not looked at.  The category of such a name is
    "portrait". *)
Theorem portrait_filenames_are_marked_ai toLowerCase filename defaults :
  includes (toLowerCase filename) "portrait" = true ->
  let metadata := extractMetadataFromFilename toLowerCase filename defaults in
  i_category metadata = "portrait" /\
  i_is_ai_generated metadata = true /\
  i_filename metadata = filename.
Proof.
  intros H. unfold extractMetadataFromFilename. cbv zeta. cbn.
  rewrite H. cbn.
  assert (Hai : includes (toLowerCase filename) "ai" = true).
  { apply includes_trans with "portrait"; [exact H | reflexivity]. }
  rewrite Hai. cbn. repeat split.
Qed.

Lemma portrait_filenames_are_marked_ai_witness :
  i_category
    (extractMetadataFromFilename Catalogue.lower "Portrait_real_photo.JPG"
       {| p_category := Some "landscape"; p_difficulty_level := None;
          p_is_ai_generated := Some false; p_source_info := None;
          p_quality_score := None; p_tags := None |}) = "portrait" /\
  i_is_ai_generated
    (extractMetadataFromFilename Catalogue.lower "Portrait_real_photo.JPG"
       {| p_category := Some "landscape"; p_difficulty_level := None;
          p_is_ai_generated := Some false; p_source_info := None;
          p_quality_score := None; p_tags := None |}) = true /\
  i_filename
    (extractMetadataFromFilename Catalogue.lower "Portrait_real_photo.JPG"
       {| p_category := Some "landscape"; p_difficulty_level := None;
          p_is_ai_generated := Some false; p_source_info := None;
          p_quality_score := None; p_tags := None |}) = "Portrait_real_photo.JPG".
Proof.
  apply (portrait_filenames_are_marked_ai Catalogue.lower "Portrait_real_photo.JPG").
  vm_compute. reflexivity.
Defined.

End FilenameMetadata.

(* ================================================================== *)
(** * Cleaning up the images *)

Section Cleanup.

Import ImagePairService.
Variable file_size : Image -> float.

Lemma deleteImage_get db i k :
  Db.getImage (snd (Images.deleteImage db i)) k
  = if String.eqb i k then None else Db.getImage db k.
Proof.
  unfold Images.deleteImage, Store.deleteImage, Db.getImage.
  destruct (JsMap.get (images db) i) eqn:E; cbn [snd images Db.with_images].
  - destruct (String.eqb i k) eqn:Ek.
    + apply String.eqb_eq in Ek; subst k. apply get_delete_same.
    + apply String.eqb_neq in Ek. now apply get_delete_other.
  - destruct (String.eqb i k) eqn:Ek; [|reflexivity].
    apply String.eqb_eq in Ek; now subst k.
Qed.

Lemma deleteImage_frame db i :
  imagePairs (snd (Images.deleteImage db i)) = imagePairs db /\
  gameSessions (snd (Images.deleteImage db i)) = gameSessions db /\
  gameRounds (snd (Images.deleteImage db i)) = gameRounds db.
Proof.
  unfold Images.deleteImage, Store.deleteImage.
  destruct (Db.getImage db i); cbn; auto.
Qed.

Lemma cleanup_loop l result db :
  let result' := fst (fold_left (cleanup_step file_size) l (result, db)) in
  let db' := snd (fold_left (cleanup_step file_size) l (result, db)) in
  deleted result' = (deleted result + len l)%Z /\
  cleanup_errors result' = cleanup_errors result /\
  (forall k, Db.getImage db' k
             = if existsb (String.eqb k) (List.map id l) then None else Db.getImage db k) /\
  imagePairs db' = imagePairs db /\ gameSessions db' = gameSessions db /\
  gameRounds db' = gameRounds db.
Proof.
  revert result db. induction l as [|img l IH]; intros result db; cbv zeta.
  - cbn. unfold len. cbn. repeat split. lia.
  - cbn [fold_left]. unfold cleanup_step at 2 4 6 8 10 12. 
    specialize (IH {| deleted := deleted result + 1;
                      freedSpace := (freedSpace result + file_size img)%float;
                      cleanup_errors := cleanup_errors result |}
                   (snd (Images.deleteImage db (id img)))).
    cbv zeta in IH. destruct IH as (Hd & He & Hg & Hp & Hs & Hr).
    destruct (deleteImage_frame db (id img)) as (Fp & Fs & Fr).
    split; [rewrite Hd; cbn [deleted]; unfold len; cbn [List.length]; lia|].
    split; [rewrite He; reflexivity|].
    split; [|split; [congruence | split; congruence]].
    intros k. rewrite Hg, deleteImage_get. cbn [List.map existsb].
    rewrite (String.eqb_sym k (id img)).
    destruct (String.eqb (id img) k); cbn [orb]; [|reflexivity].
    now destruct (existsb _ _).
Qed.

Lemma first_page_of_images db :
  ip_images (Images.getAllImages db None) = firstn 20 (JsMap.values (images db)).
Proof.
  unfold Images.getAllImages, Images.db_getAllImages. cbn.
  now rewrite Array_slice_from_0 by lia.
Qed.

Lemma first_page_of_pairs db :
  pairs (getAllImagePairs db None) = firstn 20 (JsMap.values (imagePairs db)).
Proof.
  unfold getAllImagePairs, Db.getAllImagePairs. cbn.
  now rewrite Array_slice_from_0 by lia.
Qed.

Lemma unusedImages_In db img :
  In img (unusedImages db) <->
  In img (firstn 20 (JsMap.values (images db))) /\
  forall p, In p (firstn 20 (JsMap.values (imagePairs db))) ->
            ai_image_id p <> id img /\ real_image_id p <> id img.
Proof.
  unfold unusedImages, usedImageIds. cbv zeta.
  rewrite filter_In, first_page_of_images, first_page_of_pairs, negb_true_iff.
  rewrite existsb_pair_id. rewrite in_flat_map.
  split; intros (Hin & H); (split; [exact Hin|]).
  - intros p Hp. split; intros Heq; apply H; exists p; (split; [exact Hp|]); cbn; auto.
  - intros (p & Hp & Hi). destruct (H p Hp) as (Ha & Hr).
    cbn in Hi. destruct Hi as [Hi|[Hi|[]]]; congruence.
Qed.

(** The effect of the cleanup on the store. *)
Lemma cleanup_effect db :
  let result := fst (cleanupUnusedImages file_size db) in
  let db' := snd (cleanupUnusedImages file_size db) in
  let removed i :=
    exists img, In img (firstn 20 (JsMap.values (images db))) /\ id img = i /\
      forall p, In p (firstn 20 (JsMap.values (imagePairs db))) ->
                ai_image_id p <> i /\ real_image_id p <> i in
  (forall i, removed i -> Db.getImage db' i = None) /\
  (forall i, ~ removed i -> Db.getImage db' i = Db.getImage db i) /\
  deleted result = len (unusedImages db) /\
  (deleted result <= 20)%Z /\
  cleanup_errors result = [] /\
  imagePairs db' = imagePairs db /\ gameSessions db' = gameSessions db /\
  gameRounds db' = gameRounds db.
Proof.
  cbv zeta. unfold cleanupUnusedImages.
  destruct (cleanup_loop (unusedImages db)
              {| deleted := 0; freedSpace := 0; cleanup_errors := [] |} db)
    as (Hd & He & Hg & Hp & Hs & Hr).
  assert (Hrem : forall i,
            existsb (String.eqb i) (List.map id (unusedImages db)) = true <->
            exists img, In img (firstn 20 (JsMap.values (images db))) /\ id img = i /\
              forall p, In p (firstn 20 (JsMap.values (imagePairs db))) ->
                        ai_image_id p <> i /\ real_image_id p <> i).
  { intros i. rewrite existsb_exists. split.
    - intros (j & Hj & Heq). apply String.eqb_eq in Heq. subst j.
      apply in_map_iff in Hj. destruct Hj as (img & Hid & Hin).
      apply unusedImages_In in Hin. destruct Hin as (Hin & Hno).
      exists img. rewrite <- Hid. auto.
    - intros (img & Hin & Hid & Hno). exists i. split; [|apply String.eqb_refl].
      apply in_map_iff. exists img. split; [exact Hid|].
      apply unusedImages_In. rewrite Hid. auto. }
  split; [|split; [|split; [|split; [|split]]]].
  - intros i Hi. rewrite Hg. apply Hrem in Hi. now rewrite Hi.
  - intros i Hi. rewrite Hg.
    destruct (existsb (String.eqb i) (List.map id (unusedImages db))) eqn:E; [|reflexivity].
    apply Hrem in E. contradiction.
  - rewrite Hd. cbn. lia.
  - rewrite Hd. cbn [deleted]. unfold unusedImages. cbv zeta.
    rewrite first_page_of_images. unfold len.
    pose proof (filter_length_le
                  (fun img => negb (existsb (String.eqb (id img)) (usedImageIds db)))
                  (firstn 20 (JsMap.values (images db)))) as Hle.
    pose proof (firstn_le_length 20 (JsMap.values (images db))). lia.
  - rewrite He. reflexivity.
  - auto.
Qed.

(** X18. [cleanupUnusedImages] looks at the first 20 images and at the first
    20 pairs of the store only: it removes exactly the images among the first
    20 whose identifier none of the first 20 pairs names, reports their
    number with no error, and leaves every other image, the pairs, the
    sessions and the rounds as they are. *)
Theorem cleanupUnusedImages_first_pages db :
  let result := fst (cleanupUnusedImages file_size db) in
  let db' := snd (cleanupUnusedImages file_size db) in
  let removed i :=
    exists img, In img (firstn 20 (JsMap.values (images db))) /\ id img = i /\
      forall p, In p (firstn 20 (JsMap.values (imagePairs db))) ->
                ai_image_id p <> i /\ real_image_id p <> i in
  (forall i, removed i -> Db.getImage db' i = None) /\
  (forall i, ~ removed i -> Db.getImage db' i = Db.getImage db i) /\
  deleted result = len (unusedImages db) /\
  (deleted result <= 20)%Z /\
  cleanup_errors result = [] /\
  imagePairs db' = imagePairs db /\ gameSessions db' = gameSessions db /\
  gameRounds db' = gameRounds db.
Proof. exact (cleanup_effect db). Qed.

(** X19. A pair stored behind the first 20 pairs does not protect its
    images: if one of them is among the first 20 images and no pair among
    the first 20 names it, [cleanupUnusedImages] removes the image, the pair
    stays in the store, and [getImagePairWithImages] no longer finds the
    pair's data. *)
Theorem cleanup_orphans_pairs_behind_the_first_page db p img :
  pairs_keyed db ->
  In p (JsMap.values (imagePairs db)) ->
  In img (firstn 20 (JsMap.values (images db))) ->
  ai_image_id p = id img \/ real_image_id p = id img ->
  (forall q, In q (firstn 20 (JsMap.values (imagePairs db))) ->
             ai_image_id q <> id img /\ real_image_id q <> id img) ->
  let db' := snd (cleanupUnusedImages file_size db) in
  Db.getImage db' (id img) = None /\
  getImagePairById db' (pair_id p) = Some p /\
  getImagePairWithImages db' (pair_id p) = None.
Proof.
  intros Hk Hp Himg Hname Hfirst. cbv zeta.
  destruct (cleanup_effect db) as (Hrem & _ & _ & _ & _ & Hpairs & _).
  cbv zeta in Hrem.
  assert (Hgone : Db.getImage (snd (cleanupUnusedImages file_size db)) (id img) = None).
  { apply Hrem. exists img. auto. }
  assert (Hstill : Db.getImagePair (snd (cleanupUnusedImages file_size db)) (pair_id p)
                   = Some p).
  { unfold Db.getImagePair. rewrite Hpairs. now apply keyed_get. }
  split; [exact Hgone|]. split; [exact Hstill|].
  unfold getImagePairWithImages. rewrite Hstill. unfold ImageService.getImageById.
  destruct Hname as [-> | ->]; rewrite Hgone; [reflexivity|].
  now destruct (Db.getImage _ (ai_image_id p)).
Qed.

End Cleanup.

Lemma cleanup_orphans_pairs_behind_the_first_page_witness :
  Db.getImage (snd (cleanupUnusedImages (fun _ => 1000%float) (Catalogue.store 21)))
    "ai-21" = None /\
  ImagePairService.getImagePairById
    (snd (cleanupUnusedImages (fun _ => 1000%float) (Catalogue.store 21))) "pair-21"
  = Some (snd (Catalogue.pairOf 21)) /\
  ImagePairService.getImagePairWithImages
    (snd (cleanupUnusedImages (fun _ => 1000%float) (Catalogue.store 21))) "pair-21"
  = None.
Proof.
  apply (cleanup_orphans_pairs_behind_the_first_page (fun _ => 1000%float)
           (Catalogue.store 21) (snd (Catalogue.pairOf 21))
           (Sample.image "ai-21" true 1%Z)).
  - split.
    + vm_compute. repeat constructor; cbn; intuition discriminate.
    + intros k v H. vm_compute in H.
      repeat (destruct H as [H|H]; [injection H as <- <-; reflexivity|]). destruct H.
  - vm_compute. do 20 right. left. reflexivity.
  - vm_compute. left. reflexivity.
  - left. reflexivity.
  - intros q H. vm_compute in H.
    repeat (destruct H as [H|H]; [subst q; split; discriminate|]). destruct H.
Defined.

(* ================================================================== *)
(** * The difficulty of a daily round *)

Section DailyPolicy.

Import GameService ImagePairService.

Lemma sort_insert_ext {A} (after after' : A -> A -> bool) x l :
  (forall y, In y l -> after x y = after' x y) ->
  sort_insert after x l = sort_insert after' x l.
Proof.
  induction l as [|y l IH]; intros H; cbn; [reflexivity|].
  rewrite <- (H y) by now left. rewrite IH by (intros z Hz; apply H; now right).
  reflexivity.
Qed.

Lemma Array_sort_ext {A} (after after' : A -> A -> bool) l :
  (forall x y, In x l -> In y l -> after x y = after' x y) ->
  Array_sort after l = Array_sort after' l.
Proof.
  induction l as [|x l IH]; intros H; cbn; [reflexivity|].
  rewrite IH by (intros a b Ha Hb; apply H; now right).
  apply sort_insert_ext. intros y Hy. apply Array_sort_In in Hy.
  apply H; [now left | now right].
Qed.

Lemma default_after_digits a b :
  (0 <= a <= 9)%Z -> (0 <= b <= 9)%Z -> default_after a b = (b <? a)%Z.
Proof.
  intros Ha Hb.
  assert (Hall : forallb (fun a => forallb (fun b =>
                   Bool.eqb (default_after a b) (b <? a)%Z)
                   [0; 1; 2; 3; 4; 5; 6; 7; 8; 9]%Z)
                   [0; 1; 2; 3; 4; 5; 6; 7; 8; 9]%Z = true)
    by (vm_compute; reflexivity).
  rewrite forallb_forall in Hall.
  assert (Ia : In a [0; 1; 2; 3; 4; 5; 6; 7; 8; 9]%Z) by (cbn; lia).
  assert (Ib : In b [0; 1; 2; 3; 4; 5; 6; 7; 8; 9]%Z) by (cbn; lia).
  specialize (Hall a Ia). rewrite forallb_forall in Hall. specialize (Hall b Ib).
  now apply eqb_prop in Hall.
Qed.

Lemma existsb_Z_eqb x l : existsb (Z.eqb x) l = true <-> In x l.
Proof.
  rewrite existsb_exists. split.
  - intros (y & Hy & E). apply Z.eqb_eq in E. now subst.
  - intros H. exists x. split; [exact H | apply Z.eqb_refl].
Qed.

Lemma Set_of_In l seen x : In x (Set_of l seen) <-> In x l /\ ~ In x seen.
Proof.
  revert seen. induction l as [|y l IH]; intros seen; cbn; [tauto|].
  destruct (existsb (Z.eqb y) seen) eqn:E.
  - apply existsb_Z_eqb in E. rewrite IH. split; [tauto|].
    intros ([<-|H] & Hn); tauto.
  - assert (Hy : ~ In y seen) by (rewrite <- existsb_Z_eqb, E; discriminate).
    cbn. rewrite IH. cbn. destruct (Z.eq_dec y x) as [<-|Hne]; tauto.
Qed.

Lemma Set_of_NoDup l seen : NoDup (Set_of l seen).
Proof.
  revert seen. induction l as [|y l IH]; intros seen; cbn; [constructor|].
  destruct (existsb (Z.eqb y) seen); [apply IH|].
  constructor; [|apply IH]. rewrite Set_of_In. cbn. tauto.
Qed.

Lemma sorted_by_index (l : list Z) :
  StronglySorted Z.le l ->
  forall i j a b, (i <= j)%nat -> nth_error l i = Some a -> nth_error l j = Some b ->
                  (a <= b)%Z.
Proof.
  induction 1 as [|x l Hs IH Hx]; intros i j a b Hij Ha Hb.
  - destruct i; discriminate.
  - destruct i as [|i], j as [|j]; cbn in *.
    + injection Ha as <-. injection Hb as <-. lia.
    + injection Ha as <-. apply nth_error_In in Hb.
      rewrite Forall_forall in Hx. now apply Hx.
    + lia.
    + apply (IH i j); [lia | assumption | assumption].
Qed.

Lemma sorted_position (l : list Z) i d :
  StronglySorted Z.le l -> NoDup l -> nth_error l i = Some d ->
  (i = 0%nat -> forall x, In x l -> (d <= x)%Z) /\
  (S i = List.length l -> forall x, In x l -> (x <= d)%Z) /\
  ((0 < i)%nat -> (S i < List.length l)%nat ->
   exists lo hi, In lo l /\ In hi l /\ (lo < d < hi)%Z).
Proof.
  intros Hs Hnd Hd.
  assert (Hi : (i < List.length l)%nat) by (apply nth_error_Some; congruence).
  split; [|split].
  - intros -> x Hx. apply In_nth_error in Hx. destruct Hx as (j & Hj).
    apply (sorted_by_index l Hs 0 j); [lia | assumption | assumption].
  - intros Hlast x Hx. apply In_nth_error in Hx. destruct Hx as (j & Hj).
    assert (j < List.length l)%nat by (apply nth_error_Some; congruence).
    apply (sorted_by_index l Hs j i); [lia | assumption | assumption].
  - intros H0 Hn.
    destruct (nth_error l 0) as [lo|] eqn:Elo;
      [|apply nth_error_None in Elo; lia].
    destruct (nth_error l (S i)) as [hi|] eqn:Ehi;
      [|apply nth_error_None in Ehi; lia].
    exists lo, hi.
    split; [now apply nth_error_In in Elo|]. split; [now apply nth_error_In in Ehi|].
    pose proof (sorted_by_index l Hs 0 i lo d ltac:(lia) Elo Hd).
    pose proof (sorted_by_index l Hs i (S i) d hi ltac:(lia) Hd Ehi).
    rewrite NoDup_nth_error in Hnd.
    assert (lo <> d).
    { intros ->. assert (0 = i)%nat by (apply Hnd; [lia | congruence]). lia. }
    assert (d <> hi).
    { intros ->. assert (i = S i)%nat by (apply Hnd; [lia | congruence]). lia. }
    lia.
Qed.

Lemma first_page_of_active_pairs db :
  pairs (getAllImagePairs db
           (Some {| l_category := None; l_difficulty := None; l_is_active := Some true;
                    l_page := None; l_limit := None |}))
  = firstn 20 (filter is_active (JsMap.values (imagePairs db))).
Proof.
  unfold getAllImagePairs, Db.getAllImagePairs.
  cbn [l_category l_difficulty l_is_active l_page l_limit f_category f_difficulty
       f_is_active truthy_string truthy_Z pairs].
  change ((1 - 1) * 20)%Z with 0%Z. change (0 + 20)%Z with 20%Z.
  rewrite Array_slice_from_0 by lia. change (Z.to_nat 20) with 20%nat. f_equal.
  apply filter_ext. intros p. now destruct (is_active p).
Qed.

(** X20. The difficulty a daily session asks for, when the levels of the
    first 20 active pairs are single digits: there is none exactly when there
    is no active pair; otherwise it is one of these levels, the lowest for
    the first round, the highest from the third round on, and for the second
    round a level strictly between the lowest and the highest when there are
    three distinct levels or more, and the lowest otherwise. *)
Theorem daily_target_difficulty db session played :
  game_mode session = daily ->
  (forall x, In x (daily_levels db) -> (0 <= x <= 9)%Z) ->
  let distinct := len (Set_of (daily_levels db) []) in
  match targetDifficulty db session played with
  | None => daily_levels db = []
  | Some d =>
      In d (daily_levels db) /\
      (len played = 0%Z \/ (len played = 1%Z /\ (distinct <= 2)%Z) ->
       forall x, In x (daily_levels db) -> (d <= x)%Z) /\
      ((2 <= len played)%Z -> forall x, In x (daily_levels db) -> (x <= d)%Z) /\
      (len played = 1%Z -> (3 <= distinct)%Z ->
       exists lo hi, In lo (daily_levels db) /\ In hi (daily_levels db) /\
                     (lo < d < hi)%Z)
  end.
Proof.
  intros Hmode Hdigits. cbv zeta. unfold targetDifficulty. rewrite Hmode. cbv zeta.
  rewrite first_page_of_active_pairs. fold (daily_levels db).
  set (levels := daily_levels db) in *.
  set (sorted := Array_sort default_after (Set_of levels [])).
  assert (Hin : forall x, In x sorted <-> In x levels).
  { intros x. subst sorted. rewrite Array_sort_In, Set_of_In. cbn. tauto. }
  assert (Hperm : Permutation sorted (Set_of levels [])) by apply Array_sort_perm.
  assert (Hnd : NoDup sorted).
  { apply Permutation_NoDup with (Set_of levels []);
      [now symmetry | apply Set_of_NoDup]. }
  assert (Hs : StronglySorted Z.le sorted).
  { subst sorted.
    rewrite (Array_sort_ext default_after (fun a b => (b <? a)%Z)).
    - apply Array_sort_sorted.
      + intros x y z. lia.
      + intros x y H. apply Z.ltb_ge in H. lia.
      + intros x y H. apply Z.ltb_lt in H. lia.
    - intros x y Hx Hy. apply Set_of_In in Hx, Hy.
      apply default_after_digits; apply Hdigits; tauto. }
  assert (Hlen : len (Set_of levels []) = len sorted).
  { unfold len. now rewrite (Permutation_length Hperm). }
  rewrite Hlen.
  assert (Hpos : forall i d, nth_error sorted i = Some d ->
            In d levels /\
            (i = 0%nat -> forall x, In x levels -> (d <= x)%Z) /\
            (S i = List.length sorted -> forall x, In x levels -> (x <= d)%Z) /\
            ((0 < i)%nat -> (S i < List.length sorted)%nat ->
             exists lo hi, In lo levels /\ In hi levels /\ (lo < d < hi)%Z)).
  { intros i d Hd. destruct (sorted_position sorted i d Hs Hnd Hd) as (H0 & Hl & Hm).
    split; [apply Hin; now apply nth_error_In in Hd|]. split; [|split].
    - intros Hi x Hx. apply H0; [exact Hi | now apply Hin].
    - intros Hi x Hx. apply Hl; [exact Hi | now apply Hin].
    - intros Hi Hj. destruct (Hm Hi Hj) as (lo & hi & Hlo & Hhi & Hlt).
      exists lo, hi. rewrite <- !Hin. auto. }
  assert (Hplayed : (0 <= len played)%Z) by (unfold len; lia).
  destruct (0 <? len sorted)%Z eqn:En.
  2:{ apply Z.ltb_ge in En. destruct levels as [|x levels'] eqn:El; [reflexivity|].
      assert (Hx : In x sorted) by (apply Hin; now left).
      destruct sorted; [destruct Hx | unfold len in En; cbn in En; lia]. }
  apply Z.ltb_lt in En.
  assert (Hidx : forall i, (i < List.length sorted)%nat ->
            exists d, nth_error sorted i = Some d).
  { intros i Hi. destruct (nth_error sorted i) eqn:E; [now eexists|].
    apply nth_error_None in E. lia. }
  unfold len in *.
  destruct (Z.of_nat (List.length sorted) =? 1)%Z eqn:E1.
  - apply Z.eqb_eq in E1.
    destruct (Hidx 0%nat ltac:(lia)) as (d & Hd). rewrite Hd.
    destruct (Hpos _ _ Hd) as (Hi & Hmin & Hmax & _).
    split; [exact Hi|]. split; [intros _; now apply Hmin|].
    split; [intros _; apply Hmax; lia|]. intros _ H3. lia.
  - apply Z.eqb_neq in E1.
    destruct (3 <=? Z.of_nat (List.length sorted))%Z eqn:E3.
    + apply Z.leb_le in E3.
      destruct (Z.of_nat (List.length played) + 1 =? 1)%Z eqn:R1;
        [|destruct (Z.of_nat (List.length played) + 1 =? 2)%Z eqn:R2].
      * apply Z.eqb_eq in R1.
        destruct (Hidx 0%nat ltac:(lia)) as (d & Hd). rewrite Hd.
        destruct (Hpos _ _ Hd) as (Hi & Hmin & _ & _).
        split; [exact Hi|]. split; [intros _; now apply Hmin|].
        split; [intros; lia | intros; lia].
      * apply Z.eqb_eq in R2.
        set (i := Z.to_nat (Z.of_nat (List.length sorted) / 2)).
        assert (Hi2 : (0 < i)%nat /\ (S i < List.length sorted)%nat).
        { subst i.
          pose proof (Z.div_le_lower_bound (Z.of_nat (List.length sorted)) 2 1
                        ltac:(lia) ltac:(lia)).
          pose proof (Z.div_lt_upper_bound (Z.of_nat (List.length sorted)) 2
                        (Z.of_nat (List.length sorted) - 1) ltac:(lia) ltac:(lia)).
          lia. }
        destruct (Hidx i ltac:(lia)) as (d & Hd). rewrite Hd.
        destruct (Hpos _ _ Hd) as (Hi & _ & _ & Hmid).
        split; [exact Hi|]. split; [intros [?|(_ & ?)]; lia|].
        split; [intros; lia|]. intros _ _. apply Hmid; tauto.
      * apply Z.eqb_neq in R1, R2.
        set (i := Z.to_nat (Z.of_nat (List.length sorted) - 1)).
        destruct (Hidx i ltac:(subst i; lia)) as (d & Hd). rewrite Hd.
        destruct (Hpos _ _ Hd) as (Hi & _ & Hmax & _).
        split; [exact Hi|]. split; [intros [?|(? & _)]; lia|].
        split; [intros _; apply Hmax; subst i; lia | intros; lia].
    + apply Z.leb_gt in E3.
      destruct (Z.of_nat (List.length played) + 1 <=? 2)%Z eqn:R2.
      * apply Z.leb_le in R2.
        destruct (Hidx 0%nat ltac:(lia)) as (d & Hd). rewrite Hd.
        destruct (Hpos _ _ Hd) as (Hi & Hmin & _ & _).
        split; [exact Hi|]. split; [intros _; now apply Hmin|].
        split; [intros; lia | intros; lia].
      * apply Z.leb_gt in R2.
        destruct (Hidx 1%nat ltac:(lia)) as (d & Hd). rewrite Hd.
        destruct (Hpos _ _ Hd) as (Hi & _ & Hmax & _).
        split; [exact Hi|]. split; [intros [?|(? & _)]; lia|].
        split; [intros _; apply Hmax; lia | intros; lia].
Qed.

Lemma daily_target_difficulty_witness :
  match targetDifficulty Sample.store (Sample.fresh daily "d1") [] with
  | None => daily_levels Sample.store = []
  | Some d =>
      In d (daily_levels Sample.store) /\
      (len (@nil GameRound) = 0%Z \/
       (len (@nil GameRound) = 1%Z /\ (len (Set_of (daily_levels Sample.store) []) <= 2)%Z) ->
       forall x, In x (daily_levels Sample.store) -> (d <= x)%Z) /\
      ((2 <= len (@nil GameRound))%Z ->
       forall x, In x (daily_levels Sample.store) -> (x <= d)%Z) /\
      (len (@nil GameRound) = 1%Z -> (3 <= len (Set_of (daily_levels Sample.store) []))%Z ->
       exists lo hi, In lo (daily_levels Sample.store) /\ In hi (daily_levels Sample.store) /\
                     (lo < d < hi)%Z)
  end.
Proof.
  apply (daily_target_difficulty Sample.store (Sample.fresh daily "d1") []).
  - reflexivity.
  - intros x H. vm_compute in H. destruct H as [<-|[]]. lia.
Defined.

End DailyPolicy.

(* ================================================================== *)
(** * The statistics of a player *)

Section PlayerStatisticsFacts.

Import PlayerStatistics.
Open Scope Z_scope.

Lemma fold_max_spec (l : list Z) (x : Z) :
  (forall y, In y (x :: l) -> y <= fold_left Z.max l x) /\
  In (fold_left Z.max l x) (x :: l).
Proof.
  revert x. induction l as [|z l IH]; intros x; cbn [fold_left].
  - split; [intros y [<-|[]]; lia | now left].
  - destruct (IH (Z.max x z)) as (Hle & Hin). split.
    + intros y [<-|[<-|Hy]].
      * specialize (Hle (Z.max x z) (or_introl eq_refl)). lia.
      * specialize (Hle (Z.max x z) (or_introl eq_refl)). lia.
      * apply Hle. now right.
    + destruct Hin as [Hin|Hin]; [|right; now right].
      rewrite <- Hin. destruct (Z.max_spec x z) as [(_ & ->)|(_ & ->)];
        [right; now left | now left].
Qed.

Lemma modes_partition (l : list GameSession) :
  len l = len (filter (fun s => GameMode_eqb (game_mode s) daily) l)
          + len (filter (fun s => GameMode_eqb (game_mode s) streak) l).
Proof.
  unfold len. induction l as [|s l IH]; cbn [filter List.length]; [reflexivity|].
  destruct (game_mode s); cbn [GameMode_eqb List.length]; lia.
Qed.

(** X21. The statistics computed from a list of sessions and a list of
    rounds: a player without a session gets the all-zero record and no date;
    otherwise the number of games is the number of the player's sessions and
    the sum of the daily and the streak games, the best streak is the
    greatest streak of these sessions and belongs to one of them, and the
    last-played time is their latest start.  [getPlayerStats] itself reads
    the two maps with [Object.values] and so answers the all-zero record for
    every store and every player. *)
Theorem playerStats_shape allSessions allRounds playerId :
  let stats := playerStatsOf allSessions allRounds playerId in
  let mine := sessions_of playerId allSessions in
  totalGames stats = len mine /\
  totalGames stats = dailyGames stats + streakGames stats /\
  (forall s, In s mine -> current_streak s <= bestStreak stats) /\
  (mine = [] ->
   bestStreak stats = 0 /\ lastPlayed stats = None /\
   ps_totalScore stats = 0%float /\ averageAccuracy stats = 0%float /\
   ps_averageResponseTime stats = 0%float) /\
  (mine <> [] ->
   (exists s, In s mine /\ current_streak s = bestStreak stats) /\
   exists t, lastPlayed stats = Some t /\
             (forall s, In s mine -> start_time s <= t) /\
             exists s, In s mine /\ start_time s = t) /\
  forall db, getPlayerStats db playerId
             = {| totalGames := 0; dailyGames := 0; streakGames := 0;
                  ps_totalScore := 0; bestStreak := 0; averageAccuracy := 0;
                  ps_averageResponseTime := 0; lastPlayed := None |}.
Proof.
  cbv zeta. unfold playerStatsOf. fold (sessions_of playerId allSessions).
  destruct (sessions_of playerId allSessions) as [|first rest] eqn:E.
  - cbn [totalGames dailyGames streakGames bestStreak lastPlayed ps_totalScore
         averageAccuracy ps_averageResponseTime].
    split; [reflexivity|]. split; [reflexivity|]. split; [intros s []|].
    split; [intros _; repeat split|]. split; [intros H; now elim H | reflexivity].
  - cbv zeta.
    cbn [totalGames dailyGames streakGames bestStreak lastPlayed ps_totalScore
         averageAccuracy ps_averageResponseTime].
    destruct (fold_max_spec (List.map current_streak rest) (current_streak first))
      as (Hle & Hin).
    destruct (fold_max_spec (List.map start_time rest) (start_time first))
      as (Tle & Tin).
    change (current_streak first :: List.map current_streak rest)
      with (List.map current_streak (first :: rest)) in *.
    change (start_time first :: List.map start_time rest)
      with (List.map start_time (first :: rest)) in *.
    split; [reflexivity|]. split; [apply modes_partition|].
    split; [intros s Hs; apply Hle; now apply in_map|].
    split; [discriminate|]. split; [|reflexivity].
    intros _. split.
    + apply in_map_iff in Hin. destruct Hin as (s & Hs & Hi). now exists s.
    + eexists. split; [reflexivity|]. split.
      * intros s Hs. apply Tle. now apply in_map.
      * apply in_map_iff in Tin. destruct Tin as (s & Hs & Hi). now exists s.
Qed.

End PlayerStatisticsFacts.

(* ================================================================== *)
(** * The daily score, the breakdown and the rank *)

Section ScoresFacts.

Import ScoreCalculator Scores.
Open Scope float_scope.

Lemma sum_of_zeros (l : list float) :
  (forall x, In x l -> x = 0) -> fold_left (fun sum score => sum + score) l 0 = 0.
Proof.
  induction l as [|x l IH]; intros H; cbn [fold_left]; [reflexivity|].
  rewrite (H x) by now left.
  change (0 + 0) with 0. apply IH. intros y Hy. apply H. now right.
Qed.

(** X22. [calculateDailyScore] gives one score for every round, the score of
    [calculateScore] without a streak, and a bonus that is 0, 50, 100 or
    150.  A game without any round still earns the perfect-game bonus and
    totals 100; a game whose rounds are all wrong totals its bonus, which is
    then the speed bonus alone. *)
Theorem calculateDailyScore_bonus rounds :
  let result := calculateDailyScore rounds in
  In (bonusPoints result) [0; 50; 100; 150] /\
  (forall i round, nth_error rounds i = Some round ->
     nth_error (roundScores result) i
     = Some (calculateScore (ri_isCorrect round) (ri_responseTime round)
               (ri_difficulty round) 0)) /\
  len (roundScores result) = len rounds /\
  (rounds = [] -> ds_totalScore result = 100 /\ bonusPoints result = 100) /\
  (rounds <> [] -> (forall round, In round rounds -> ri_isCorrect round = false) ->
   ds_totalScore result = bonusPoints result /\ In (bonusPoints result) [0; 50]).
Proof.
  cbv zeta. unfold calculateDailyScore. cbv zeta.
  cbn [bonusPoints roundScores ds_totalScore].
  set (avg := fold_left _ rounds 0 / num (len rounds) / 1000).
  split; [|split; [|split; [|split]]].
  - destruct (forallb ri_isCorrect rounds), (avg <? 10); vm_compute; tauto.
  - intros i round H. now rewrite nth_error_map, H.
  - unfold len. now rewrite length_map.
  - intros ->. subst avg. vm_compute. split; reflexivity.
  - intros Hne Hwrong.
    assert (Hall : forallb ri_isCorrect rounds = false).
    { destruct rounds as [|r rounds]; [now elim Hne|]. cbn.
      now rewrite (Hwrong r) by now left. }
    rewrite Hall. rewrite sum_of_zeros.
    + destruct (avg <? 10); vm_compute; split; tauto.
    + intros x Hx. apply in_map_iff in Hx. destruct Hx as (r & <- & Hr).
      now rewrite (Hwrong r Hr).
Qed.

(** X23. The final score of the breakdown [calculateStreakScore] is the score
    of [calculateScore], its multiplier is [getStreakMultiplier], and for a
    correct answer the final score is the floor of the product of the sum of
    the three listed parts and the multiplier. *)
Theorem calculateStreakScore_agrees isCorrect responseTime difficulty currentStreak :
  let b := calculateStreakScore isCorrect responseTime difficulty currentStreak in
  finalScore b = calculateScore isCorrect responseTime difficulty currentStreak /\
  streakMultiplier b = getStreakMultiplier currentStreak /\
  finalScore b
  = (if isCorrect
     then Math_floor ((baseScore b + difficultyBonus b + timeBonus b) * streakMultiplier b)
     else 0).
Proof.
  cbv zeta. unfold calculateStreakScore, calculateScore, getStreakMultiplier.
  destruct isCorrect; repeat split.
Qed.

Lemma findIndex_range {A} (test : A -> bool) l :
  (-1 <= findIndex test l < len l)%Z.
Proof.
  unfold len. induction l as [|x l IH]; cbn [findIndex List.length]; [lia|].
  destruct (test x); [lia|].
  destruct (findIndex test l <? 0)%Z eqn:E; [lia|]. apply Z.ltb_ge in E. lia.
Qed.

Lemma findIndex_none {A} (test : A -> bool) l :
  findIndex test l = (-1)%Z <-> forall x, In x l -> test x = false.
Proof.
  induction l as [|x l IH]; cbn [findIndex]; [split; [intros _ y []| reflexivity]|].
  destruct (test x) eqn:Ex.
  - split; [discriminate|]. intros H. specialize (H x (or_introl eq_refl)). congruence.
  - pose proof (findIndex_range test l) as Hr.
    destruct (findIndex test l <? 0)%Z eqn:E.
    + apply Z.ltb_lt in E. assert (H1 : findIndex test l = (-1)%Z) by lia.
      split; [|reflexivity]. intros _ y [<-|Hy]; [exact Ex | now apply IH].
    + apply Z.ltb_ge in E. split; [lia|]. intros H.
      assert (findIndex test l = (-1)%Z) by (apply IH; intros y Hy; apply H; now right).
      lia.
Qed.

Lemma findIndex_found {A} (test : A -> bool) l i :
  (0 <= i)%Z -> findIndex test l = i ->
  exists x, nth_error l (Z.to_nat i) = Some x /\ test x = true /\
            forall j y, (j < Z.to_nat i)%nat -> nth_error l j = Some y -> test y = false.
Proof.
  revert i. induction l as [|x l IH]; intros i Hi; cbn [findIndex]; [lia|].
  destruct (test x) eqn:Ex.
  - intros <-. exists x. cbn. repeat split; [exact Ex|]. intros j y Hj. lia.
  - destruct (findIndex test l <? 0)%Z eqn:E; [lia|]. apply Z.ltb_ge in E.
    intros <-. destruct (IH _ E eq_refl) as (y & Hy & Ty & Hbefore).
    exists y. replace (Z.to_nat (findIndex test l + 1)) with (S (Z.to_nat (findIndex test l)))
      by lia.
    cbn [nth_error]. repeat split; [exact Hy | exact Ty|].
    intros [|j] z Hj; cbn [nth_error]; [now intros [= <-]|].
    intros Hz. apply (Hbefore j z); [lia | exact Hz].
Qed.

(** X24. [calculateRank] counts the listed scores as the players, and its
    rank lies between 0 and their number.  The rank is 0 exactly when no
    listed score is below or equal to the given one, the empty list
    included; otherwise it is the first place, in descending order, whose
    score is below or equal to the given one. *)
Theorem calculateRank_rank score allScores :
  let result := calculateRank score allScores in
  let sorted := Array_sort (fun a b => 0 <? b - a) allScores in
  totalPlayers result = len allScores /\
  (0 <= rk_rank result <= len allScores)%Z /\
  (rk_rank result = 0%Z <-> forall s, In s allScores -> (s <=? score) = false) /\
  ((1 <= rk_rank result)%Z ->
   exists s, nth_error sorted (Z.to_nat (rk_rank result - 1)) = Some s /\
             (s <=? score) = true /\
             forall j t, (Z.of_nat j < rk_rank result - 1)%Z ->
                         nth_error sorted j = Some t -> (t <=? score) = false).
Proof.
  cbv zeta. unfold calculateRank. cbv zeta. cbn [rk_rank totalPlayers].
  set (sorted := Array_sort (fun a b => 0 <? b - a) allScores).
  pose proof (findIndex_range (fun s => s <=? score) sorted) as Hr.
  assert (Hlen : len sorted = len allScores).
  { unfold len, sorted. now rewrite Array_sort_length. }
  rewrite Hlen in Hr.
  pose proof (findIndex_none (fun s => s <=? score) sorted) as Hnone.
  pose proof (findIndex_found (fun s => s <=? score) sorted) as Hfound.
  set (ix := findIndex (fun s => s <=? score) sorted) in *.
  split; [reflexivity|]. split; [lia|]. split.
  - assert (Hix : (ix + 1 = 0 <-> ix = -1)%Z) by lia.
    rewrite Hix, Hnone.
    split; intros H s Hs; apply H; [now apply Array_sort_In | now apply Array_sort_In in Hs].
  - intros H1.
    destruct (Hfound ix ltac:(lia) eq_refl) as (s & Hs & Ts & Hbefore).
    exists s. replace (ix + 1 - 1)%Z with ix by lia.
    repeat split; [exact Hs | exact Ts|].
    intros j t Hj. apply Hbefore. lia.
Qed.

(** A score below all four listed scores: rank 0 and a percentile of 125. *)
Example calculateRank_below_everyone :
  calculateRank 10 [50; 40; 30; 20]
  = {| rk_rank := 0; percentile := 125; totalPlayers := 4 |}.
Proof. vm_compute. reflexivity. Qed.

End ScoresFacts.

(* ================================================================== *)
(** * Pages *)

Section Pages.

Import ImagePairService.

Lemma Array_slice_window {A} (l : list A) (s n : Z) :
  (0 <= s)%Z -> (0 <= n)%Z ->
  Array_slice l s (s + n) = firstn (Z.to_nat n) (skipn (Z.to_nat s) l).
Proof.
  intros Hs Hn. unfold Array_slice.
  assert ((s <? 0)%Z = false) as -> by (apply Z.ltb_ge; lia).
  assert ((s + n <? 0)%Z = false) as -> by (apply Z.ltb_ge; lia).
  unfold len.
  destruct (Z_lt_le_dec (Z.of_nat (List.length l)) s) as [Hbig|Hsmall].
  - rewrite (skipn_all2 (n := Z.to_nat s)) by lia. rewrite firstn_nil.
    apply skipn_all2. rewrite length_firstn. lia.
  - rewrite (Z.min_l s) by lia.
    destruct (Z_le_gt_dec (s + n) (Z.of_nat (List.length l))) as [Hin|Hout].
    + rewrite Z.min_l by lia. rewrite skipn_firstn_comm. f_equal. lia.
    + rewrite Z.min_r by lia. rewrite Nat2Z.id, firstn_all.
      symmetry. apply firstn_all2. rewrite length_skipn. lia.
Qed.

Lemma firstn_plus {A} (a b : nat) (l : list A) :
  firstn (a + b) l = firstn a l ++ firstn b (skipn a l).
Proof.
  revert l. induction a as [|a IH]; intros l; [reflexivity|].
  destruct l as [|x l]; cbn [Nat.add firstn skipn app].
  - now rewrite firstn_nil.
  - now rewrite IH.
Qed.

(** X25. The pages of [getAllImagePairs] for a limit of at least 1: page [i]
    holds at most [limit] pairs and reports the total of the filtered list;
    the pages 1 to [k], one after the other, are the first [k * limit] pairs
    of the filtered list, so that they are the whole list, each pair once and
    in order, as soon as [k * limit] reaches the total. *)
Theorem getAllImagePairs_pages db category difficulty active limit k :
  (1 <= limit)%Z -> (0 <= k)%Z ->
  let all :=
    Db.getAllImagePairs db
      (Some {| f_category := category; f_difficulty := difficulty;
               f_is_active := active |}) in
  let pageOf i :=
    getAllImagePairs db
      (Some {| l_category := category; l_difficulty := difficulty;
               l_is_active := active; l_page := Some i; l_limit := Some limit |}) in
  (forall i, (1 <= i)%Z ->
     (len (pairs (pageOf i)) <= limit)%Z /\ total (pageOf i) = len all /\
     page (pageOf i) = i) /\
  flat_map (fun i => pairs (pageOf i)) (one_to k) = firstn (Z.to_nat (k * limit)) all /\
  ((len all <= k * limit)%Z -> flat_map (fun i => pairs (pageOf i)) (one_to k) = all).
Proof.
  intros Hl Hk. cbv zeta.
  set (all := Db.getAllImagePairs db _).
  assert (Hpage : forall i, (1 <= i)%Z ->
            pairs (getAllImagePairs db
                     (Some {| l_category := category; l_difficulty := difficulty;
                              l_is_active := active; l_page := Some i;
                              l_limit := Some limit |}))
            = firstn (Z.to_nat limit) (skipn (Z.to_nat ((i - 1) * limit)) all)).
  { intros i Hi. unfold getAllImagePairs.
    cbn [l_category l_difficulty l_is_active l_page l_limit truthy_Z or_else pairs].
    assert ((i =? 0)%Z = false) as -> by (apply Z.eqb_neq; lia).
    assert ((limit =? 0)%Z = false) as -> by (apply Z.eqb_neq; lia).
    cbn [negb]. fold all. apply Array_slice_window; nia. }
  assert (Hcat : flat_map
            (fun i => pairs (getAllImagePairs db
                       (Some {| l_category := category; l_difficulty := difficulty;
                                l_is_active := active; l_page := Some i;
                                l_limit := Some limit |})))
            (one_to k)
          = firstn (Z.to_nat (k * limit)) all).
  { pattern k. apply natlike_ind; [reflexivity| |exact Hk].
    intros j Hj IH. replace (Z.succ j) with (j + 1)%Z by lia.
    rewrite one_to_next by exact Hj.
    rewrite flat_map_app, IH. cbn [flat_map]. rewrite app_nil_r.
    rewrite Hpage by lia.
    replace (Z.to_nat ((j + 1) * limit))
      with (Z.to_nat (j * limit) + Z.to_nat limit)%nat by nia.
    rewrite firstn_plus. do 3 f_equal. lia. }
  split; [|split].
  - intros i Hi. split; [|split].
    + rewrite Hpage by exact Hi. unfold len. rewrite length_firstn. lia.
    + reflexivity.
    + unfold getAllImagePairs. cbn [l_page truthy_Z or_else page].
      assert ((i =? 0)%Z = false) as -> by (apply Z.eqb_neq; lia). reflexivity.
  - exact Hcat.
  - intros Hall. rewrite Hcat. apply firstn_all2. unfold len in Hall. lia.
Qed.

Lemma getAllImagePairs_pages_witness :
  flat_map
    (fun i => pairs (getAllImagePairs (Catalogue.store 21)
                       (Some {| l_category := None; l_difficulty := None;
                                l_is_active := None; l_page := Some i;
                                l_limit := Some 20%Z |})))
    (one_to 2)
  = Db.getAllImagePairs (Catalogue.store 21)
      (Some {| f_category := None; f_difficulty := None; f_is_active := None |}).
Proof.
  apply (getAllImagePairs_pages (Catalogue.store 21) None None None 20%Z 2%Z).
  - lia.
  - lia.
  - vm_compute. discriminate.
Defined.

End Pages.

(* ================================================================== *)
(** * Tallies *)

Section Tallies.

Import Statistics.






End Tallies.

(* ================================================================== *)
(** * The integrity check *)

Section IntegrityFacts.

Variable fileExists : string -> bool.

Open Scope string_scope.

(** X27. [checkDataIntegrity] compares the first 20 pairs with the first 20
    images of the store.  It reports nothing exactly when the two images of
    each of these pairs are among these images and each of these images has
    its file; a pair among the first 20 whose AI image, or real image, is not
    among the first 20 images is reported as referencing a non-existent
    image, whether or not the store holds the image further on. *)
Theorem checkDataIntegrity_first_pages db :
  let images20 := firstn 20 (JsMap.values (images db)) in
  let pairs20 := firstn 20 (JsMap.values (imagePairs db)) in
  let listed i := In i (List.map id images20) in
  (checkDataIntegrity fileExists db = [] <->
   (forall p, In p pairs20 -> listed (ai_image_id p) /\ listed (real_image_id p)) /\
   (forall image, In image images20 -> fileExists (storedFilename image) = true)) /\
  (forall p, In p pairs20 -> ~ listed (ai_image_id p) ->
     In ("Pair " ++ pair_id p ++ " references non-existent AI image " ++ ai_image_id p)
        (checkDataIntegrity fileExists db)) /\
  (forall p, In p pairs20 -> ~ listed (real_image_id p) ->
     In ("Pair " ++ pair_id p ++ " references non-existent real image "
         ++ real_image_id p)
        (checkDataIntegrity fileExists db)).
Proof.
  cbv zeta. unfold checkDataIntegrity. cbv zeta.
  rewrite first_page_of_images, first_page_of_pairs.
  set (images20 := firstn 20 (JsMap.values (images db))).
  set (pairs20 := firstn 20 (JsMap.values (imagePairs db))).
  assert (Hhas : forall i, existsb (String.eqb i) (List.map id images20) = true
                           <-> In i (List.map id images20)).
  { intros i. rewrite existsb_exists. split.
    - intros (j & Hj & E). apply String.eqb_eq in E. now subst.
    - intros H. exists i. split; [exact H | apply String.eqb_refl]. }
  split; [|split].
  - split.
    + intros H. apply app_eq_nil in H. destruct H as (Hp & Hf). split.
      * intros p Hp'.
        assert (Hnil : forall x, In x pairs20 ->
                  List.app
                    (if existsb (String.eqb (ai_image_id x)) (List.map id images20)
                     then []
                     else ["Pair " ++ pair_id x ++ " references non-existent AI image "
                           ++ ai_image_id x])
                    (if existsb (String.eqb (real_image_id x)) (List.map id images20)
                     then []
                     else ["Pair " ++ pair_id x
                           ++ " references non-existent real image "
                           ++ real_image_id x]) = []).
        { intros x Hx. destruct (List.app _ _) as [|m ms] eqn:E; [reflexivity|].
          assert (Hin : In m (@nil string)).
          { rewrite <- Hp. apply in_flat_map. exists x. split; [exact Hx|].
            rewrite E. now left. }
          destruct Hin. }
        specialize (Hnil p Hp'). apply app_eq_nil in Hnil. destruct Hnil as (Ha & Hr).
        split; apply Hhas.
        { destruct (existsb _ _); [reflexivity | discriminate]. }
        { destruct (existsb (String.eqb (real_image_id p)) _); [reflexivity | discriminate]. }
      * intros image Himg. destruct (fileExists (storedFilename image)) eqn:E; [reflexivity|].
        assert (Hin : In ("Image file missing: " ++ storedFilename image ++ " for image "
                          ++ id image) (@nil string)).
        { rewrite <- Hf. apply in_flat_map. exists image. split; [exact Himg|].
          rewrite E. now left. }
        destruct Hin.
    + intros (Hp & Hf).
      assert (H1 : forall (A : Type) (f : A -> list string) l,
                (forall x, In x l -> f x = []) -> flat_map f l = []).
      { intros A f l. induction l as [|x l IH]; intros H; cbn; [reflexivity|].
        rewrite (H x) by now left. apply IH. intros y Hy. apply H. now right. }
      rewrite !H1; [reflexivity | |].
      * intros image Himg. now rewrite (Hf image Himg).
      * intros p Hp'. destruct (Hp p Hp') as (Ha & Hr).
        apply Hhas in Ha, Hr. now rewrite Ha, Hr.
  - intros p Hp Hno. apply in_app_iff. left. apply in_flat_map. exists p.
    split; [exact Hp|]. apply in_app_iff. left.
    destruct (existsb (String.eqb (ai_image_id p)) (List.map id images20)) eqn:E;
      [apply Hhas in E; contradiction | now left].
  - intros p Hp Hno. apply in_app_iff. left. apply in_flat_map. exists p.
    split; [exact Hp|]. apply in_app_iff. right.
    destruct (existsb (String.eqb (real_image_id p)) (List.map id images20)) eqn:E;
      [apply Hhas in E; contradiction | now left].
Qed.

End IntegrityFacts.

(** The 21 pairs of the catalogue have all their images, yet the first pair
    is reported: its images are stored behind the first 20. *)
Example integrity_false_alarm :
  Db.getImage (Catalogue.store 21) "ai-1" = Some (Sample.image "ai-1" true 1%Z) /\
  In "Pair pair-1 references non-existent AI image ai-1"%string
     (checkDataIntegrity (fun _ => true) (Catalogue.store 21)).
Proof. split; [vm_compute; reflexivity|]. vm_compute. tauto. Qed.

(* ================================================================== *)
(** * Automatic pairing *)

Section AutoPairsFacts.

Import ImagePairService AutoPairs.

Lemma Image_eqb_eq a b : Image_eqb a b = true <-> a = b.
Proof.
  unfold Image_eqb. rewrite !andb_true_iff, !String.eqb_eq, !Z.eqb_eq, Bool.eqb_true_iff.
  split.
  - destruct a, b; cbn. intros ((((((-> & ->) & ->) & ->) & ->) & ->) & ->). reflexivity.
  - intros ->. repeat split.
Qed.

Lemma remove_first_In x y l : In y (remove_first x l) -> In y l.
Proof.
  induction l as [|z l IH]; cbn; [trivial|].
  destruct (Image_eqb z x); [now right|]. intros [<-|H]; [now left | right; now apply IH].
Qed.

Lemma remove_first_length x l :
  In x l -> (len (remove_first x l) + 1 = len l)%Z.
Proof.
  unfold len. induction l as [|z l IH]; cbn [remove_first List.length]; [intros []|].
  destruct (Image_eqb z x) eqn:E; [lia|].
  intros [->|H].
  - assert (Image_eqb x x = true) by now apply Image_eqb_eq. congruence.
  - specialize (IH H). cbn [List.length]. lia.
Qed.

Lemma remove_first_ids x l :
  NoDup (List.map id l) -> In x l ->
  NoDup (List.map id (remove_first x l)) /\
  ~ In (id x) (List.map id (remove_first x l)).
Proof.
  induction l as [|z l IH]; cbn [remove_first List.map]; [intros _ []|].
  intros Hnd Hin. inversion Hnd as [|? ? Hz Hl]; subst.
  destruct (Image_eqb z x) eqn:E.
  - apply Image_eqb_eq in E. subst z. auto.
  - destruct Hin as [->|Hin].
    + assert (Image_eqb x x = true) by now apply Image_eqb_eq. congruence.
    + destruct (IH Hl Hin) as (Hnd' & Hno). cbn [List.map]. split.
      * constructor; [|exact Hnd']. intros H. apply Hz.
        apply in_map_iff in H. destruct H as (w & Hw & Hin').
        apply in_map_iff. exists w. split; [exact Hw | now apply remove_first_In in Hin'].
      * intros [H|H]; [|contradiction]. apply Hz. rewrite H. now apply in_map.
Qed.

Lemma best_is_listed {A} (better : A -> A -> bool) rest first :
  In (fold_left (fun best current => if better current best then current else best)
        rest first) (first :: rest).
Proof.
  revert first. induction rest as [|x rest IH]; intros first; cbn [fold_left];
    [now left|].
  destruct (IH (if better x first then x else first)) as [H|H]; [|right; now right].
  rewrite <- H. destruct (better x first); [right; now left | now left].
Qed.

Lemma createImagePair_made db data uuid now p db' :
  createImagePair db data uuid now = (Ok p, db') ->
  ai_image_id p = c_ai_image_id data /\ real_image_id p = c_real_image_id data /\
  is_active p = true /\ total_attempts p = 0%Z /\
  db' = Db.createImagePair db p.
Proof.
  unfold createImagePair.
  destruct (ImageService.getImageById db (c_ai_image_id data)) as [a|]; [|discriminate].
  destruct (ImageService.getImageById db (c_real_image_id data)) as [r|]; [|discriminate].
  destruct (Bool.eqb _ _); [discriminate|].
  destruct (negb _); [discriminate|].
  destruct (is_ai_generated r); [discriminate|].
  cbv zeta. destruct (find _ _); [discriminate|].
  intros [= <- <-]. cbn. repeat split.
Qed.

Lemma createImagePair_refused db data uuid now e db' :
  createImagePair db data uuid now = (Throw e, db') -> db' = db.
Proof.
  unfold createImagePair.
  destruct (ImageService.getImageById db (c_ai_image_id data)) as [a|];
    [|now intros [= _ <-]].
  destruct (ImageService.getImageById db (c_real_image_id data)) as [r|];
    [|now intros [= _ <-]].
  destruct (Bool.eqb _ _); [now intros [= _ <-]|].
  destruct (negb _); [now intros [= _ <-]|].
  destruct (is_ai_generated r); [now intros [= _ <-]|].
  cbv zeta. destruct (find _ _); [now intros [= _ <-] | discriminate].
Qed.

Lemma step_keeps_invariant uuid now db candidates aiDone state aiImage :
  In aiImage candidates -> is_ai_generated aiImage = true ->
  auto_pairs_invariant db candidates aiDone state ->
  auto_pairs_invariant db candidates (aiDone + 1) (step uuid now state aiImage).
Proof.
  intros Hai Hisai (Hc & Hsum & Hpool & Hi & Hs & Hr & Hpairs & Huniq).
  unfold step. cbv zeta.
  destruct (filter (matches aiImage) (ap_pool state)) as [|first rest] eqn:Ematch.
  - (* no matching real image *)
    split; [cbn; lia|]. split; [exact Hsum|]. split; [exact Hpool|].
    split; [exact Hi|]. split; [exact Hs|]. split; [exact Hr|].
    split; [exact Hpairs | exact Huniq].
  - set (bestMatch := fold_left _ rest first).
    assert (Hbest : In bestMatch (ap_pool state) /\ matches aiImage bestMatch = true).
    { apply filter_In. rewrite Ematch. apply best_is_listed. }
    destruct Hbest as (Hbin & Hbm).
    destruct (createImagePair (ap_db state) _ _ _) as [[p|e] db'] eqn:Ecreate.
    + (* the pair is created *)
      destruct (createImagePair_made _ _ _ _ _ _ Ecreate)
        as (Hpa & Hpr & Hact & Hatt & ->).
      cbn [c_ai_image_id c_real_image_id] in Hpa, Hpr.
      unfold auto_pairs_invariant. cbn [ap_result ap_db ap_pool created].
      assert (Hget : forall k,
                Db.getImagePair (Db.createImagePair (ap_db state) p) k
                = if String.eqb (pair_id p) k then Some p
                  else Db.getImagePair (ap_db state) k).
      { intros k. unfold Db.getImagePair, Db.createImagePair.
        cbn [imagePairs Db.with_imagePairs]. apply get_set_cases. }
      assert (Hwell : well_matched candidates p).
      { exists aiImage, bestMatch. destruct (Hpool _ Hbin) as (Hbc & Hbr).
        unfold matches in Hbm. apply andb_true_iff in Hbm. destruct Hbm as (Hcat & Hd).
        apply String.eqb_eq in Hcat. apply Z.leb_le in Hd. repeat split; assumption. }
      split; [lia|].
      split; [pose proof (remove_first_length bestMatch (ap_pool state) Hbin); lia|].
      split; [intros r Hr'; apply Hpool; now apply remove_first_In in Hr'|].
      split; [exact Hi|]. split; [exact Hs|]. split; [exact Hr|]. split.
      * intros k q. rewrite Hget. destruct (String.eqb (pair_id p) k).
        { intros [= <-]. now right. }
        { apply Hpairs. }
      * intros Hnd. destruct (Huniq Hnd) as (Hndp & Hout & Hdiff).
        destruct (remove_first_ids bestMatch (ap_pool state) Hndp Hbin) as (Hnd' & Hgone).
        assert (Hold : forall k q,
                  new_pair db (Db.createImagePair (ap_db state) p) k q ->
                  (k = pair_id p /\ q = p) \/
                  (k <> pair_id p /\ new_pair db (ap_db state) k q)).
        { intros k q (Hq & Hnone). rewrite Hget in Hq.
          destruct (String.eqb (pair_id p) k) eqn:Ek.
          - apply String.eqb_eq in Ek. left. split; congruence.
          - apply String.eqb_neq in Ek. right. split; [congruence | now split]. }
        split; [exact Hnd'|]. split.
        { intros k q Hnew. destruct (Hold _ _ Hnew) as [(-> & ->)|(_ & Hq)].
          - now rewrite Hpr.
          - intros H. apply (Hout _ _ Hq). apply in_map_iff in H.
            destruct H as (w & Hw & Hin'). apply in_map_iff. exists w.
            split; [exact Hw | now apply remove_first_In in Hin']. }
        { intros k1 k2 p1 p2 H1 H2 Hne.
          destruct (Hold _ _ H1) as [(-> & ->)|(Hk1 & Hq1)];
            destruct (Hold _ _ H2) as [(-> & ->)|(Hk2 & Hq2)].
          - now elim Hne.
          - rewrite Hpr. intros Heq. apply (Hout _ _ Hq2). rewrite <- Heq.
            now apply in_map.
          - rewrite Hpr. intros Heq. apply (Hout _ _ Hq1). rewrite Heq.
            now apply in_map.
          - now apply (Hdiff k1 k2). }
    + (* the creation is refused *)
      apply createImagePair_refused in Ecreate. subst db'.
      split; [cbn; lia|]. split; [exact Hsum|]. split; [exact Hpool|].
      split; [exact Hi|]. split; [exact Hs|]. split; [exact Hr|].
      split; [exact Hpairs | exact Huniq].
Qed.

Lemma loop_keeps_invariant uuid now db candidates l aiDone state :
  (forall a, In a l -> In a candidates /\ is_ai_generated a = true) ->
  auto_pairs_invariant db candidates aiDone state ->
  auto_pairs_invariant db candidates (aiDone + len l)
    (fold_left (step uuid now) l state).
Proof.
  revert aiDone state. induction l as [|a l IH]; intros aiDone state Hl Hinv;
    cbn [fold_left].
  - unfold len. cbn. now rewrite Z.add_0_r.
  - replace (aiDone + len (a :: l))%Z with (aiDone + 1 + len l)%Z
      by (unfold len; cbn [List.length]; lia).
    apply IH; [intros b Hb; apply Hl; now right|].
    destruct (Hl a (or_introl eq_refl)). now apply step_keeps_invariant.
Qed.

(** X28. [createAutoPairs] works on the first page of the image listing (20
    images at most).  It leaves the images, the sessions and the rounds as
    they are; it creates at most one pair for each AI image and at most as
    many pairs as there are real images listed; every pair of the store
    afterwards was there before or joins a listed AI image with a listed real
    image of the same category whose difficulty differs by 1 at most, active
    and without attempts; and when the listed real images have distinct
    identifiers, no two pairs under new keys share their real image. *)
Theorem createAutoPairs_matches uuid now db category :
  let candidates := listing db category in
  let result := fst (createAutoPairs uuid now db category) in
  let db' := snd (createAutoPairs uuid now db category) in
  (len candidates <= 20)%Z /\
  (0 <= created result <= len (filter is_ai_generated candidates))%Z /\
  (created result
   <= len (filter (fun img => negb (is_ai_generated img)) candidates))%Z /\
  images db' = images db /\ gameSessions db' = gameSessions db /\
  gameRounds db' = gameRounds db /\
  (forall k p, Db.getImagePair db' k = Some p ->
               Db.getImagePair db k = Some p \/ well_matched candidates p) /\
  (NoDup (List.map id (filter (fun img => negb (is_ai_generated img)) candidates)) ->
   forall k1 k2 p1 p2,
     new_pair db db' k1 p1 -> new_pair db db' k2 p2 -> k1 <> k2 ->
     real_image_id p1 <> real_image_id p2).
Proof.
  cbv zeta. unfold createAutoPairs. cbv zeta. cbn [fst snd].
  set (candidates := listing db category).
  set (realImages := filter (fun img => negb (is_ai_generated img)) candidates).
  set (start := {| ap_result := {| created := 0; ap_errors := [] |};
                   ap_db := db; ap_pool := realImages |}).
  assert (Hstart : auto_pairs_invariant db candidates 0 start).
  { split; [cbn; lia|]. split; [reflexivity|]. split.
    { intros r Hr. apply filter_In in Hr. destruct Hr as (Hin & Hb).
      split; [exact Hin|]. now apply negb_true_iff in Hb. }
    split; [reflexivity|]. split; [reflexivity|]. split; [reflexivity|].
    split; [intros k p Hp; now left|].
    intros Hnd. split; [exact Hnd|]. split.
    - intros k p (Hp & Hnone). cbn [ap_db start] in Hp. congruence.
    - intros k1 k2 p1 p2 (Hp & Hnone). cbn [ap_db start] in Hp. congruence. }
  pose proof (loop_keeps_invariant uuid now db candidates
                (filter is_ai_generated candidates) 0 start) as Hloop.
  destruct Hloop as (Hc & Hsum & _ & Hi & Hs & Hr & Hpairs & Huniq);
    [intros a Ha; now apply filter_In in Ha | exact Hstart |].
  split.
  { subst candidates. unfold listing, Images.getAllImages.
    cbn [ip_images]. unfold len.
    destruct (truthy_string category);
      cbn [if_page if_limit truthy_Z or_else];
      change ((1 - 1) * 20)%Z with 0%Z; change (0 + 20)%Z with 20%Z;
      rewrite Array_slice_from_0 by lia; rewrite length_firstn; lia. }
  split; [lia|].
  split; [subst realImages; unfold len in *; lia|].
  split; [exact Hi|]. split; [exact Hs|]. split; [exact Hr|].
  split; [exact Hpairs|].
  intros Hnd. now destruct (Huniq Hnd) as (_ & _ & Hdiff).
Qed.

End AutoPairsFacts.

Lemma createAutoPairs_matches_witness :
  (created (fst (AutoPairs.createAutoPairs Unpaired.uuid Unpaired.now Unpaired.store None))
   <= len (filter (fun img => negb (is_ai_generated img))
             (AutoPairs.listing Unpaired.store None)))%Z /\
  forall k1 k2 p1 p2,
    new_pair Unpaired.store
      (snd (AutoPairs.createAutoPairs Unpaired.uuid Unpaired.now Unpaired.store None))
      k1 p1 ->
    new_pair Unpaired.store
      (snd (AutoPairs.createAutoPairs Unpaired.uuid Unpaired.now Unpaired.store None))
      k2 p2 ->
    k1 <> k2 -> real_image_id p1 <> real_image_id p2.
Proof.
  pose proof (createAutoPairs_matches Unpaired.uuid Unpaired.now Unpaired.store None) as H.
  cbv zeta in H. destruct H as (_ & _ & H3 & _ & _ & _ & _ & H8).
  split; [exact H3 | apply H8].
  vm_compute. repeat constructor; cbn; intuition discriminate.
Defined.

Lemma leaderboardOf_shape_witness :
  List.map rank (GameService.leaderboardOf Board.sessions None (Some 3%Z))
  = one_to (len (GameService.leaderboardOf Board.sessions None (Some 3%Z))) /\
  (len (GameService.leaderboardOf Board.sessions None (Some 3%Z)) <= 3)%Z.
Proof.
  pose proof (leaderboardOf_shape Board.sessions None (Some 3%Z)) as H.
  cbv zeta in H. destruct H as (H1 & H2 & _).
  split; [exact H1 | apply H2]. cbn. lia.
Defined.

(* ================================================================== *)
(** * The further properties on the sample stores *)

Lemma deletePair_forgets_the_pair_witness :
  ImagePairService.getImagePairById (snd (Pairs.deletePair Sample.store "pair-1")) "pair-0"
  = ImagePairService.getImagePairById Sample.store "pair-0".
Proof.
  pose proof (deletePair_forgets_the_pair Sample.store "pair-1") as H.
  cbv zeta in H. destruct H as (_ & _ & _ & H & _).
  apply H. discriminate.
Defined.

Lemma cleanupUnusedImages_first_pages_witness :
  Db.getImage (snd (cleanupUnusedImages (fun _ => 1000%float) (Catalogue.store 21)))
    "real-21" = None.
Proof.
  pose proof (cleanupUnusedImages_first_pages (fun _ => 1000%float) (Catalogue.store 21))
    as H.
  cbv zeta in H. destruct H as (H & _).
  apply H. exists (Sample.image "real-21" false 1%Z).
  split; [vm_compute; right; left; reflexivity|]. split; [reflexivity|].
  intros p Hp. vm_compute in Hp.
  repeat (destruct Hp as [Hp|Hp]; [subst p; split; discriminate|]). destruct Hp.
Defined.

Lemma playerStats_shape_witness :
  (exists s, In s (sessions_of "B" Board.sessions) /\
             current_streak s
             = bestStreak (PlayerStatistics.playerStatsOf Board.sessions [] "B")) /\
  exists t, lastPlayed (PlayerStatistics.playerStatsOf Board.sessions [] "B") = Some t /\
            (forall s, In s (sessions_of "B" Board.sessions) -> (start_time s <= t)%Z) /\
            exists s, In s (sessions_of "B" Board.sessions) /\ start_time s = t.
Proof.
  pose proof (playerStats_shape Board.sessions [] "B") as H.
  cbv zeta in H. destruct H as (_ & _ & _ & _ & H & _).
  apply H. vm_compute. discriminate.
Defined.

Lemma calculateDailyScore_bonus_witness :
  ds_totalScore
    (Scores.calculateDailyScore
       [{| ri_isCorrect := false; ri_responseTime := 4000; ri_difficulty := 2 |}])
  = bonusPoints
      (Scores.calculateDailyScore
         [{| ri_isCorrect := false; ri_responseTime := 4000; ri_difficulty := 2 |}]) /\
  In (bonusPoints
        (Scores.calculateDailyScore
           [{| ri_isCorrect := false; ri_responseTime := 4000; ri_difficulty := 2 |}]))
     [0%float; 50%float].
Proof.
  pose proof (calculateDailyScore_bonus
                [{| ri_isCorrect := false; ri_responseTime := 4000;
                    ri_difficulty := 2 |}]) as H.
  cbv zeta in H. destruct H as (_ & _ & _ & _ & H).
  apply H; [discriminate|]. intros round [<-|[]]. reflexivity.
Defined.

Lemma calculateRank_rank_witness :
  exists s,
    nth_error (Array_sort (fun a b => (0 <? b - a)%float) [50; 40; 30; 20]%float)
      (Z.to_nat (rk_rank (Scores.calculateRank 45 [50; 40; 30; 20]%float) - 1))
    = Some s /\
    (s <=? 45)%float = true /\
    forall j t,
      (Z.of_nat j < rk_rank (Scores.calculateRank 45 [50; 40; 30; 20]%float) - 1)%Z ->
      nth_error (Array_sort (fun a b => (0 <? b - a)%float) [50; 40; 30; 20]%float) j
      = Some t ->
      (t <=? 45)%float = false.
Proof.
  pose proof (calculateRank_rank 45%float [50; 40; 30; 20]%float) as H.
  cbv zeta in H. destruct H as (_ & _ & _ & H).
  apply H. vm_compute. discriminate.
Defined.


Lemma checkDataIntegrity_first_pages_witness :
  In ("Pair " ++ pair_id (snd (Catalogue.pairOf 1))
      ++ " references non-existent AI image "
      ++ ai_image_id (snd (Catalogue.pairOf 1)))%string
     (checkDataIntegrity (fun _ => true) (Catalogue.store 21)).
Proof.
  pose proof (checkDataIntegrity_first_pages (fun _ => true) (Catalogue.store 21)) as H.
  cbv zeta in H. destruct H as (_ & H & _).
  apply H.
  - vm_compute. left. reflexivity.
  - intros Hin. vm_compute in Hin.
    repeat (destruct Hin as [Hin|Hin]; [discriminate Hin|]). destruct Hin.
Defined.
